(** * serverless-next.js: the lambda-at-edge Builder and the cloudfront inputs

    A shallow embedding of [packages/libs/lambda-at-edge/src/build.ts]
    (class [Builder]) and of the cloudfront input table of the serverless
    component's test-suite, with the properties the design document states
    about them.

    Conventions.
    - A JavaScript object used as a map is an association list kept in
      property order ([obj]); array-index names come first, in numeric
      order, the other names follow in insertion order.
    - The file system is a tree ([node]); a path is its list of segments,
      [path.join] is concatenation and [render] gives the posix string the
      string-level code sees.
    - Code that reads or writes the file system lives in the monad [M]:
      a state over [world] with errors.
    - Functions of other modules ([./lib/...], [./routing/redirector]) and
      of external packages are the fields of [Collaborators]. *)

From Stdlib Require Import List String Ascii Bool Arith ZArith NArith Lia.
From Stdlib Require Import Permutation.
Import ListNotations.

Local Open Scope string_scope.
Local Open Scope list_scope.

Set Implicit Arguments.
Set Warnings "-register-all".

(** ** Strings *)

Module Str.

(** [s.endsWith(suffix)] *)
Definition endsWith (s suffix : string) : bool :=
  Nat.leb (String.length suffix) (String.length s) &&
  String.eqb
    (substring (String.length s - String.length suffix)
               (String.length suffix) s)
    suffix.

(** [s.startsWith(p)] *)
Definition startsWith (s p : string) : bool := String.prefix p s.

(** [s.indexOf(t) !== -1] *)
Definition includes (s t : string) : bool :=
  match String.index 0 t s with Some _ => true | None => false end.

(** [s.slice(0, -n)] *)
Definition dropRight (n : nat) (s : string) : string :=
  substring 0 (String.length s - n) s.

(** The double quote character, as a one-character string. *)
Definition dquote : string := String (ascii_of_nat 34) EmptyString.

(** [xs.join(sep)] *)
Fixpoint join (sep : string) (xs : list string) : string :=
  match xs with
  | [] => EmptyString
  | [x] => x
  | x :: rest => (x ++ sep ++ join sep rest)%string
  end.

(** [t] occurs in [s]. *)
Definition occursIn (t s : string) : Prop :=
  exists pre post : string, s = (pre ++ t ++ post)%string.

End Str.

(** ** JavaScript values *)

Inductive jsval : Type :=
| JUndefined
| JNull
| JBool (b : bool)
| JNum (z : Z)
| JStr (s : string)
| JArr (items : list jsval)
| JObj (fields : list (string * jsval)).

(** [!!v] *)
Definition truthy (v : jsval) : bool :=
  match v with
  | JUndefined | JNull => false
  | JBool b => b
  | JNum z => negb (z =? 0)%Z
  | JStr s => negb (String.eqb s "")
  | JArr _ | JObj _ => true
  end.

(** [v ?? d] *)
Definition nullish (v d : jsval) : jsval :=
  match v with
  | JUndefined | JNull => d
  | _ => v
  end.

(** ** Objects in property order *)

Module Obj.

Definition obj (V : Type) : Type := list (string * V).

(** The array index a property name denotes, if it is the canonical
    decimal form of an integer below 2^32 - 1. *)
Definition digit_of (c : ascii) : option N :=
  let n := N_of_ascii c in
  if ((48 <=? n) && (n <=? 57))%N then Some (n - 48)%N else None.

Fixpoint digits_value (acc : N) (s : string) : option N :=
  match s with
  | EmptyString => Some acc
  | String c rest =>
      match digit_of c with
      | Some d => digits_value (acc * 10 + d)%N rest
      | None => None
      end
  end.

Definition array_index (s : string) : option N :=
  match s with
  | EmptyString => None
  | String c rest =>
      if Ascii.eqb c "0"%char
      then (if String.eqb rest "" then Some 0%N else None)
      else match digits_value 0 s with
           | Some n => if (n <? 4294967295)%N then Some n else None
           | None => None
           end
  end.

Section Ops.
Context {V : Type}.

(** [o[k]], when [k] is an own property *)
Fixpoint get (k : string) (o : obj V) : option V :=
  match o with
  | [] => None
  | (k', v) :: rest => if String.eqb k k' then Some v else get k rest
  end.

Definition has (k : string) (o : obj V) : bool :=
  match get k o with Some _ => true | None => false end.

(** [Object.keys(o)], [Object.values(o)], [Object.entries(o)] *)
Definition keys (o : obj V) : list string := map fst o.
Definition values (o : obj V) : list V := map snd o.
Definition entries (o : obj V) : list (string * V) := o.

(** Assignment to an existing property: the position is kept. *)
Fixpoint update (k : string) (v : V) (o : obj V) : obj V :=
  match o with
  | [] => []
  | (k', v') :: rest =>
      if String.eqb k k' then (k', v) :: rest
      else (k', v') :: update k v rest
  end.

(** A new array-index property goes among the index properties, in
    numeric order. *)
Fixpoint insert_index (n : N) (k : string) (v : V) (o : obj V) : obj V :=
  match o with
  | [] => [(k, v)]
  | (k', v') :: rest =>
      match array_index k' with
      | Some m =>
          if (n <? m)%N then (k, v) :: (k', v') :: rest
          else (k', v') :: insert_index n k v rest
      | None => (k, v) :: (k', v') :: rest
      end
  end.

(** [o[k] = v] *)
Definition set (k : string) (v : V) (o : obj V) : obj V :=
  match get k o with
  | Some _ => update k v o
  | None =>
      match array_index k with
      | Some n => insert_index n k v o
      | None => o ++ [(k, v)]
      end
  end.

(** [delete o[k]] *)
Definition remove (k : string) (o : obj V) : obj V :=
  filter (fun e => negb (String.eqb k (fst e))) o.

(** [{...o, ...extra}]: the properties of [extra] assigned in order. *)
Definition spread (o extra : obj V) : obj V :=
  fold_left (fun acc e => set (fst e) (snd e) acc) extra o.

(** The object a list of members denotes: what parsing a JSON object,
    or an object literal, builds. *)
Definition of_members (members : list (string * V)) : obj V :=
  spread [] members.

(** Property order: no name twice, index names first and ascending. *)
Fixpoint ordered_keys (ks : list string) : Prop :=
  match ks with
  | [] => True
  | k :: rest =>
      ordered_keys rest /\
      match array_index k with
      | Some n =>
          forall k' m, In k' rest -> array_index k' = Some m -> (n <= m)%N
      | None => forall k', In k' rest -> array_index k' = None
      end
  end.

Definition js_ordered (o : obj V) : Prop :=
  NoDup (keys o) /\ ordered_keys (keys o).

(** A new property whose place, by the ordering rule, is the end. *)
Definition goes_last (k : string) (o : obj V) : Prop :=
  match array_index k with
  | None => True
  | Some n =>
      forall k', In k' (keys o) ->
                 exists m, array_index k' = Some m /\ (m <= n)%N
  end.

End Ops.

End Obj.

(** Member access [v.k] on a non-null value: [undefined] when [v] has no
    such own property (primitives have none of the names used here). *)
Definition member (v : jsval) (k : string) : jsval :=
  match v with
  | JObj fields =>
      match Obj.get k (Obj.of_members fields) with
      | Some x => x
      | None => JUndefined
      end
  | _ => JUndefined
  end.

(** [o[k]] on an object: [undefined] when absent. *)
Definition at_key (o : Obj.obj jsval) (k : string) : jsval :=
  match Obj.get k o with Some x => x | None => JUndefined end.

(** The pair a route is stored as in the ordered manifest. *)
Definition carried (pagesManifest : Obj.obj jsval) (route : string) : string * jsval :=
  (route, at_key pagesManifest route).

(** What a module exports: a value, or a function of two arguments (the
    form a [next.config.js] may take). *)
Inductive moduleExport : Type :=
| ExportValue (v : jsval)
| ExportFunction (f : string -> jsval -> jsval).

(** [typeof v === "object"] *)
Definition typeof_object (v : jsval) : bool :=
  match v with
  | JNull | JArr _ | JObj _ => true
  | _ => false
  end.

(** ** The file system *)

Definition path : Type := list string.

Inductive content : Type :=
| CText (text : string)
| CJson (value : jsval)
| CModule (exports : moduleExport).

Inductive node : Type :=
| File (data : content)
| Dir (entries : list (string * node)).

Module Fs.

(** The posix string of a path. *)
Definition render (p : path) : string := ("/" ++ Str.join "/" p)%string.

Fixpoint is_prefix (p q : path) : bool :=
  match p, q with
  | [], _ => true
  | a :: p', b :: q' => String.eqb a b && is_prefix p' q'
  | _ :: _, [] => false
  end.

(** Neither path lies on the other's branch. *)
Definition apart (p q : path) : Prop :=
  is_prefix p q = false /\ is_prefix q p = false.

Fixpoint lookup (p : path) (n : node) : option node :=
  match p with
  | [] => Some n
  | s :: rest =>
      match n with
      | Dir es =>
          match Obj.get s es with
          | Some child => lookup rest child
          | None => None
          end
      | File _ => None
      end
  end.

(** Removal of the entry at [p], with all below it. *)
Fixpoint remove (p : path) (n : node) : node :=
  match p, n with
  | [], _ => n
  | _, File _ => n
  | [s], Dir es => Dir (Obj.remove s es)
  | s :: rest, Dir es =>
      Dir (map (fun e => if String.eqb s (fst e)
                         then (fst e, remove rest (snd e)) else e) es)
  end.

(** [new] placed at [p]; missing directories on the way are created; a
    file on the way is an error. *)
Fixpoint put (p : path) (new : node) (n : node) : option node :=
  match p with
  | [] => Some new
  | s :: rest =>
      match n with
      | File _ => None
      | Dir es =>
          match Obj.get s es with
          | Some child =>
              option_map (fun c => Dir (Obj.update s c es)) (put rest new child)
          | None =>
              option_map (fun c => Dir (es ++ [(s, c)])) (put rest new (Dir []))
          end
      end
  end.

(** The part of a tree a copy filter lets through: the filter is asked
    for every directory and file, and a rejected directory is skipped
    with all it holds. *)
Fixpoint prune (flt : string -> bool) (p : path) (n : node) : option node :=
  if flt (render p) then
    match n with
    | File c => Some (File c)
    | Dir es =>
        Some (Dir ((fix go (es : list (string * node)) : list (string * node) :=
                      match es with
                      | [] => []
                      | (s, child) :: rest =>
                          match prune flt (p ++ [s]) child with
                          | Some child' => (s, child') :: go rest
                          | None => go rest
                          end
                      end) es))
    end
  else None.

(** A copied tree laid over what is at the destination: directories are
    merged, files overwritten; a file never replaces a directory nor a
    directory a file. *)
Fixpoint merge (new : node) (old : option node) : option node :=
  match new with
  | File c =>
      match old with
      | Some (Dir _) => None
      | _ => Some (File c)
      end
  | Dir es =>
      let go :=
        fix go (es : list (string * node)) (acc : list (string * node))
          : option (list (string * node)) :=
          match es with
          | [] => Some acc
          | (s, child) :: rest =>
              match merge child (Obj.get s acc) with
              | Some child' =>
                  go rest (match Obj.get s acc with
                           | Some _ => Obj.update s child' acc
                           | None => acc ++ [(s, child')]
                           end)
              | None => None
              end
          end in
      match old with
      | Some (File _) => None
      | Some (Dir es0) => option_map Dir (go es es0)
      | None => option_map Dir (go es [])
      end
  end.

End Fs.

(** ** Errors, the world and the monad *)

Inductive error : Type :=
| Rejected (reason : string)
| Thrown (message : string)
| TypeError (message : string)
| SystemError (code : string) (target : path)
| ChildProcessError (message : string).

Inductive result (A : Type) : Type :=
| Ok (a : A)
| Err (e : error).
Arguments Ok {A} a.
Arguments Err {A} e.

(** The file tree, and the calls made so far to a configuration function
    (phase and options of each call, oldest first). *)
Record world : Type := World {
  files : node;
  configCalls : list (string * jsval)
}.

Definition M (A : Type) : Type := world -> result (A * world).

Definition ret {A} (a : A) : M A := fun w => Ok (a, w).

Definition bind {A B} (m : M A) (k : A -> M B) : M B :=
  fun w => match m w with
           | Ok (a, w') => k a w'
           | Err e => Err e
           end.

Definition fail {A} (e : error) : M A := fun _ => Err e.

Declare Scope M_scope.
Delimit Scope M_scope with M.
Notation "x <- m ;; k" := (bind m (fun x => k))
  (at level 61, m at next level, right associativity) : M_scope.
Notation "m ;;; k" := (bind m (fun _ => k))
  (at level 61, right associativity) : M_scope.

(** [Promise.all] over operations, run here one after the other in list
    order. The code starts them together; the properties of the bundles
    are stated for options and worlds in which no operation needs what
    another one creates and no two write to one place, where the order
    does not show. *)
Fixpoint all (ops : list (M unit)) : M unit :=
  match ops with
  | [] => ret tt
  | op :: rest => bind op (fun _ => all rest)
  end.

Definition with_files (w : world) (n : node) : world :=
  {| files := n; configCalls := configCalls w |}.

(** An operation that only reads the world. *)
Definition reading {A} (f : world -> result A) : M A :=
  fun w => match f w with
           | Ok a => Ok (a, w)
           | Err e => Err e
           end.

(** An operation that, when it succeeds, leaves every path apart from [d]
    as it was. *)
Definition touches_only (d : path) (op : M unit) : Prop :=
  forall w w', op w = Ok (tt, w') ->
    forall q, Fs.apart d q -> Fs.lookup q (files w') = Fs.lookup q (files w).

(** More string functions, used on path strings. *)
Module StrOps.

(** [s.split(sep)] for a one-character separator. *)
Fixpoint split_from (sep : ascii) (cur : string) (s : string) : list string :=
  match s with
  | EmptyString => [cur]
  | String c rest =>
      if Ascii.eqb c sep then cur :: split_from sep EmptyString rest
      else split_from sep (cur ++ String c EmptyString)%string rest
  end.

Definition split (sep : ascii) (s : string) : list string :=
  split_from sep EmptyString s.

(** [s.replace(pat, rep)] with a string pattern: the first occurrence. *)
Definition replaceFirst (s pat rep : string) : string :=
  match String.index 0 pat s with
  | Some i =>
      (substring 0 i s ++ rep ++
       substring (i + String.length pat)
                 (String.length s - (i + String.length pat)) s)%string
  | None => s
  end.

End StrOps.

(** The segments of a relative path string. *)
Definition segments (s : string) : path :=
  filter (fun seg => negb (String.eqb seg "") && negb (String.eqb seg "."))
         (StrOps.split "/"%char s).

(** ** fs-extra and [require] *)

Module fse.

Definition pathExists (p : path) : M bool :=
  fun w => Ok (match Fs.lookup p (files w) with
               | Some _ => true
               | None => false
               end, w).

Definition readdir (p : path) : M (list string) :=
  fun w => match Fs.lookup p (files w) with
           | Some (Dir es) => Ok (Obj.keys es, w)
           | Some (File _) => Err (SystemError "ENOTDIR" p)
           | None => Err (SystemError "ENOENT" p)
           end.

Definition remove (p : path) : M unit :=
  fun w => Ok (tt, with_files w (Fs.remove p (files w))).

Definition mkdirs (p : path) : M unit :=
  fun w => match Fs.lookup p (files w) with
           | Some (Dir _) => Ok (tt, w)
           | Some (File _) => Err (SystemError "EEXIST" p)
           | None =>
               match Fs.put p (Dir []) (files w) with
               | Some n => Ok (tt, with_files w n)
               | None => Err (SystemError "ENOTDIR" p)
               end
           end.

(** The directory emptied when it is one, created otherwise. *)
Definition emptyDir (p : path) : M unit :=
  fun w => match Fs.lookup p (files w) with
           | Some (Dir es) =>
               all (map (fun item => remove (p ++ [item])) (Obj.keys es)) w
           | _ => mkdirs p w
           end.

Definition readFile (p : path) : M string :=
  fun w => match Fs.lookup p (files w) with
           | Some (File (CText s)) => Ok (s, w)
           | Some (File _) => Err (SystemError "EINVAL" p)
           | Some (Dir _) => Err (SystemError "EISDIR" p)
           | None => Err (SystemError "ENOENT" p)
           end.

Definition readJSON (p : path) : M jsval :=
  fun w => match Fs.lookup p (files w) with
           | Some (File (CJson v)) => Ok (v, w)
           | Some (File _) => Err (Thrown "SyntaxError")
           | Some (Dir _) => Err (SystemError "EISDIR" p)
           | None => Err (SystemError "ENOENT" p)
           end.

(** A file written where its directory exists. *)
Definition writeFile (p : path) (c : content) : M unit :=
  fun w => match p with
           | [] => Err (SystemError "EISDIR" p)
           | _ :: _ =>
               match Fs.lookup (removelast p) (files w) with
               | Some (Dir _) =>
                   match Fs.lookup p (files w) with
                   | Some (Dir _) => Err (SystemError "EISDIR" p)
                   | _ =>
                       match Fs.put p (File c) (files w) with
                       | Some n => Ok (tt, with_files w n)
                       | None => Err (SystemError "ENOTDIR" p)
                       end
                   end
               | Some (File _) => Err (SystemError "ENOTDIR" p)
               | None => Err (SystemError "ENOENT" p)
               end
           end.

Definition writeJson (p : path) (v : jsval) : M unit := writeFile p (CJson v).

(** [fse.copy(src, dst, { filter })] *)
Definition copy (src dst : path) (flt : option (string -> bool)) : M unit :=
  fun w => match Fs.lookup src (files w) with
           | None => Err (SystemError "ENOENT" src)
           | Some n =>
               if Fs.is_prefix src dst
               then Err (Thrown "Cannot copy to a subdirectory of itself")
               else
                 match Fs.prune (match flt with
                                 | Some f => f
                                 | None => fun _ => true
                                 end) src n with
                 | None => Ok (tt, w)
                 | Some kept =>
                     match Fs.merge kept (Fs.lookup dst (files w)) with
                     | None => Err (SystemError "EISDIR" dst)
                     | Some merged =>
                         match Fs.put dst merged (files w) with
                         | Some r => Ok (tt, with_files w r)
                         | None => Err (SystemError "ENOTDIR" dst)
                         end
                     end
                 end
           end.

End fse.

(** [require(p)] *)
Definition require (p : path) : M moduleExport :=
  fun w => match Fs.lookup p (files w) with
           | Some (File (CModule m)) => Ok (m, w)
           | Some (File (CJson v)) => Ok (ExportValue v, w)
           | Some (File (CText _)) => Err (Thrown "SyntaxError")
           | Some (Dir _) | None => Err (Thrown "MODULE_NOT_FOUND")
           end.

(** A JSON document used as an object: its members, as the object they
    denote. The manifests read here are objects; anything else is turned
    down at this point. *)
Definition expectObject (v : jsval) : M (Obj.obj jsval) :=
  match v with
  | JObj fields => ret (Obj.of_members fields)
  | _ => fail (TypeError "object expected")
  end.

Definition requireObject (p : path) : M (Obj.obj jsval) :=
  bind (require p) (fun m =>
    match m with
    | ExportValue v => expectObject v
    | ExportFunction _ => fail (TypeError "object expected")
    end).

(** ** Collaborators

    The modules [build.ts] imports and that are specified only at their
    interface: the route helpers of [./lib], the redirector, the tracer,
    the child process and node's [path]. The helpers are functions that
    return; a helper that throws is outside this model. *)

Class Collaborators : Type := {
  isDynamicRoute : string -> bool;
  getSortedRoutes : list string -> list string;
  expressifyDynamicRoute : string -> string;
  pathToRegexStr : string -> string;
  isTrailingSlashRedirect : jsval -> jsval -> bool;
  pathToPosix : string -> string;
  getAllFiles : path -> node -> list string;
  normalizeNodeModules : string -> string;
  createServerlessConfig : path -> path -> bool -> M (M unit);
  nodeFileTrace : list string -> path -> world ->
                  result (list string * (string -> option string));
  execa : string -> list string -> path -> Obj.obj string -> world -> option error * world;
  path_extname : string -> string;
  path_relative : string -> string -> string;
  path_basename : string -> string;
  path_resolve : string -> string;
  process_cwd : path;
  require_resolve : string -> path
}.

(** ** Manifests *)

Record DynamicEntry : Type := { file : string; regex : string }.

Record PageGroup : Type := {
  dynamic : Obj.obj DynamicEntry;
  nonDynamic : Obj.obj string
}.

Record OriginRequestDefaultHandlerManifest : Type := {
  buildId : string;
  logLambdaExecutionTimes : bool;
  ssr : PageGroup;
  html : PageGroup;
  publicFiles : Obj.obj string;
  trailingSlash : jsval
}.

Record OriginRequestApiHandlerManifest : Type := { apis : PageGroup }.

Definition emptyGroup : PageGroup := {| dynamic := []; nonDynamic := [] |}.

Definition setDynamic (k : string) (e : DynamicEntry) (g : PageGroup) : PageGroup :=
  {| dynamic := Obj.set k e (dynamic g); nonDynamic := nonDynamic g |}.

Definition setNonDynamic (k : string) (f : string) (g : PageGroup) : PageGroup :=
  {| dynamic := dynamic g; nonDynamic := Obj.set k f (nonDynamic g) |}.

(** The JSON a manifest is written as. *)
Module Json.

Definition ofEntry (e : DynamicEntry) : jsval :=
  JObj [("file", JStr (file e)); ("regex", JStr (regex e))].

Definition ofGroup (g : PageGroup) : jsval :=
  JObj [("dynamic", JObj (map (fun kv => (fst kv, ofEntry (snd kv))) (dynamic g)));
        ("nonDynamic", JObj (map (fun kv => (fst kv, JStr (snd kv))) (nonDynamic g)))].

Definition ofDefaultManifest (m : OriginRequestDefaultHandlerManifest) : jsval :=
  JObj [("buildId", JStr (buildId m));
        ("logLambdaExecutionTimes", JBool (logLambdaExecutionTimes m));
        ("pages", JObj [("ssr", ofGroup (ssr m)); ("html", ofGroup (html m))]);
        ("publicFiles", JObj (map (fun kv => (fst kv, JStr (snd kv))) (publicFiles m)));
        ("trailingSlash", trailingSlash m)].

Definition ofApiManifest (m : OriginRequestApiHandlerManifest) : jsval :=
  JObj [("apis", ofGroup (apis m))].

End Json.

(** ** The Builder *)

Definition DEFAULT_LAMBDA_CODE_DIR : string := "default-lambda".
Definition API_LAMBDA_CODE_DIR : string := "api-lambda".

Record BuildOptions : Type := {
  args : option (list string);
  cwd : option path;
  env : option (Obj.obj string);
  cmd : option string;
  useServerlessTraceTarget : option bool;
  logLambdaExecutionTimesOption : option bool;
  handler : option string
}.

Record Builder : Type := {
  nextConfigDir : path;
  outputDir : path;
  buildOptions : BuildOptions
}.

(** The two directories the constructor derives. *)
Definition dotNextDir (b : Builder) : path := nextConfigDir b ++ [".next"].
Definition serverlessDir (b : Builder) : path := dotNextDir b ++ ["serverless"].

(** The three buckets a page file falls in. *)
Inductive pageKind : Type := HtmlPage | ApiPage | SsrPage.

Definition isHtmlPage (p : string) : bool := Str.endsWith p ".html".
Definition isApiPage (p : string) : bool := Str.startsWith p "pages/api".

Definition kindOf (pageFile : string) : pageKind :=
  if isHtmlPage pageFile then HtmlPage
  else if isApiPage pageFile then ApiPage
  else SsrPage.

Definition manifests : Type :=
  (OriginRequestDefaultHandlerManifest * OriginRequestApiHandlerManifest)%type.

Definition groupOf (k : pageKind) (ms : manifests) : PageGroup :=
  match k with
  | HtmlPage => html (fst ms)
  | ApiPage => apis (snd ms)
  | SsrPage => ssr (fst ms)
  end.

Definition withGroup (k : pageKind) (g : PageGroup) (ms : manifests) : manifests :=
  let d := fst ms in
  match k with
  | HtmlPage =>
      ({| buildId := buildId d; logLambdaExecutionTimes := logLambdaExecutionTimes d;
          ssr := ssr d; html := g; publicFiles := publicFiles d;
          trailingSlash := trailingSlash d |}, snd ms)
  | ApiPage => (d, {| apis := g |})
  | SsrPage =>
      ({| buildId := buildId d; logLambdaExecutionTimes := logLambdaExecutionTimes d;
          ssr := g; html := html d; publicFiles := publicFiles d;
          trailingSlash := trailingSlash d |}, snd ms)
  end.

Definition withPublicFiles (pf : Obj.obj string)
    (d : OriginRequestDefaultHandlerManifest) : OriginRequestDefaultHandlerManifest :=
  {| buildId := buildId d; logLambdaExecutionTimes := logLambdaExecutionTimes d;
     ssr := ssr d; html := html d; publicFiles := pf;
     trailingSlash := trailingSlash d |}.

Definition withTrailingSlash (v : jsval)
    (d : OriginRequestDefaultHandlerManifest) : OriginRequestDefaultHandlerManifest :=
  {| buildId := buildId d; logLambdaExecutionTimes := logLambdaExecutionTimes d;
     ssr := ssr d; html := html d; publicFiles := publicFiles d;
     trailingSlash := v |}.

Definition pagesManifestMissing : string :=
  "pages-manifest not found. Check if `next.config.js` target is set to 'serverless'".

Section BuilderMethods.
Context {C : Collaborators}.
Local Open Scope M_scope.

Definition defaultBuildOptions : BuildOptions :=
  {| args := Some [];
     cwd := Some process_cwd;
     env := Some [];
     cmd := Some "./node_modules/.bin/next";
     useServerlessTraceTarget := Some false;
     logLambdaExecutionTimesOption := Some false;
     handler := None |}.

Definition readPublicFiles (b : Builder) : M (list string) :=
  dirExists <- fse.pathExists (nextConfigDir b ++ ["public"]) ;;
  if dirExists then
    fun w =>
      Ok (map (fun e => Str.join "/" (skipn 2 (StrOps.split "/"%char e)))
            (map (fun e => StrOps.replaceFirst e (Fs.render (nextConfigDir b)) "")
               (getAllFiles (nextConfigDir b ++ ["public"]) (files w))), w)
  else ret [].

(** The body of [readPagesManifest] once the manifest is read. An
    assignment [acc[route] = ...] is the setting of an own property; the
    name [__proto__], for which it is not, is outside this model. *)
Definition sortedPagesManifest (pagesManifest : Obj.obj jsval) : Obj.obj jsval :=
  let pagesManifestWithoutDynamicRoutes :=
    fold_left
      (fun acc route =>
         if isDynamicRoute route then acc
         else Obj.set route (at_key pagesManifest route) acc)
      (Obj.keys pagesManifest) [] in
  let dynamicRoutedPages := filter isDynamicRoute (Obj.keys pagesManifest) in
  let sortedDynamicRoutedPages := getSortedRoutes dynamicRoutedPages in
  fold_left
    (fun acc route => Obj.set route (at_key pagesManifest route) acc)
    sortedDynamicRoutedPages pagesManifestWithoutDynamicRoutes.

Definition readPagesManifest (b : Builder) : M (Obj.obj jsval) :=
  let path := serverlessDir b ++ ["pages-manifest.json"] in
  hasServerlessPageManifest <- fse.pathExists path ;;
  if negb hasServerlessPageManifest then fail (Rejected pagesManifestMissing)
  else
    json <- fse.readJSON path ;;
    pagesManifest <- expectObject json ;;
    ret (sortedPagesManifest pagesManifest).

Definition copyLambdaHandlerDependencies (b : Builder) (fileList : list string)
    (reasons : string -> option string) (handlerDirectory : string)
  : list (M unit) :=
  map (fun filePath =>
         let resolvedFilePath := path_resolve filePath in
         let dst :=
           normalizeNodeModules
             (path_relative (Fs.render (serverlessDir b)) resolvedFilePath) in
         fse.copy (segments resolvedFilePath)
                  (outputDir b ++ [handlerDirectory] ++ segments dst) None)
      (filter (fun file =>
                 match reasons file with
                 | None => true
                 | Some ty => negb (String.eqb ty "initial")
                 end && negb (String.eqb file "package.json"))
              fileList).

Definition isPrerenderedJSFile (prerenderManifest : Obj.obj jsval)
    (relativePageFile : string) : bool :=
  if String.eqb (path_extname relativePageFile) ".js" then
    let pageRoute := Str.dropRight 3 relativePageFile in
    let pageRoute :=
      if Str.startsWith pageRoute "/" then pageRoute else ("/" ++ pageRoute)%string in
    let pageRoute := if String.eqb pageRoute "/index" then "/" else pageRoute in
    truthy (at_key prerenderManifest "routes") &&
    truthy (member (at_key prerenderManifest "routes") pageRoute)
  else false.

Definition processAndCopyRoutesManifest (source destination : path) : M unit :=
  routesManifest <- requireObject source ;;
  match Obj.get "redirects" routesManifest with
  | Some (JArr redirects) =>
      let kept :=
        filter (fun redirect =>
                  negb (isTrailingSlashRedirect redirect
                          (at_key routesManifest "basePath")))
               redirects in
      fse.writeFile destination
        (CJson (JObj (Obj.set "redirects" (JArr kept) routesManifest)))
  | _ => fail (TypeError "routesManifest.redirects.filter is not a function")
  end.

(** The [filter] of the copy of the pages tree in [buildDefaultLambda]. *)
Definition pagesCopyFilter (b : Builder) (hasAPIRoutes : bool)
    (prerenderManifest : Obj.obj jsval) (file : string) : bool :=
  let isNotPrerenderedHTMLPage := negb (String.eqb (path_extname file) ".html") in
  let isNotStaticPropsJSONFile := negb (String.eqb (path_extname file) ".json") in
  let isNotApiPage := negb (Str.includes (pathToPosix file) "pages/api") in
  let isNotExcludedJSFile :=
    hasAPIRoutes ||
    negb (isPrerenderedJSFile prerenderManifest
            (path_relative (Fs.render (serverlessDir b ++ ["pages"])) file)) in
  isNotApiPage && isNotPrerenderedHTMLPage && isNotStaticPropsJSONFile &&
  isNotExcludedJSFile.

Definition copyHandlerOverride (b : Builder) (codeDir : string) : M unit :=
  match handler (buildOptions b) with
  | Some h =>
      if String.eqb h "" then ret tt
      else fse.copy (nextConfigDir b ++ segments h)
                    (outputDir b ++ [codeDir] ++ segments h) None
  | None => ret tt
  end.

Definition buildDefaultLambda (b : Builder)
    (buildManifest : OriginRequestDefaultHandlerManifest) : M unit :=
  copyTraces <-
    match useServerlessTraceTarget (buildOptions b) with
    | Some true =>
        let ignoreAppAndDocumentPages := fun page =>
          let basename := path_basename page in
          negb (String.eqb basename "_app.js") &&
          negb (String.eqb basename "_document.js") in
        let allSsrPages :=
          filter ignoreAppAndDocumentPages
            (Obj.values (nonDynamic (ssr buildManifest)) ++
             map file (Obj.values (dynamic (ssr buildManifest)))) in
        let ssrPages :=
          map (fun pageFile => Fs.render (serverlessDir b ++ segments pageFile))
              allSsrPages in
        traced <- reading (nodeFileTrace ssrPages process_cwd) ;;
        ret (copyLambdaHandlerDependencies b (fst traced) (snd traced)
               DEFAULT_LAMBDA_CODE_DIR)
    | _ => ret []
    end ;;
  prerenderManifest <- requireObject (dotNextDir b ++ ["prerender-manifest.json"]) ;;
  hasAPIRoutes <- fse.pathExists (serverlessDir b ++ ["pages"; "api"]) ;;
  all (copyTraces ++
       [ copyHandlerOverride b DEFAULT_LAMBDA_CODE_DIR;
         fse.copy (require_resolve "@sls-next/lambda-at-edge/dist/default-handler.js")
                  (outputDir b ++ [DEFAULT_LAMBDA_CODE_DIR; "index.js"]) None;
         fse.writeJson (outputDir b ++ [DEFAULT_LAMBDA_CODE_DIR; "manifest.json"])
                       (Json.ofDefaultManifest buildManifest);
         fse.copy (serverlessDir b ++ ["pages"])
                  (outputDir b ++ [DEFAULT_LAMBDA_CODE_DIR; "pages"])
                  (Some (pagesCopyFilter b hasAPIRoutes prerenderManifest));
         fse.copy (dotNextDir b ++ ["prerender-manifest.json"])
                  (outputDir b ++ [DEFAULT_LAMBDA_CODE_DIR; "prerender-manifest.json"])
                  None;
         processAndCopyRoutesManifest
           (dotNextDir b ++ ["routes-manifest.json"])
           (outputDir b ++ [DEFAULT_LAMBDA_CODE_DIR; "routes-manifest.json"]) ]).

Definition buildApiLambda (b : Builder)
    (apiBuildManifest : OriginRequestApiHandlerManifest) : M unit :=
  copyTraces <-
    match useServerlessTraceTarget (buildOptions b) with
    | Some true =>
        let allApiPages :=
          Obj.values (nonDynamic (apis apiBuildManifest)) ++
          map file (Obj.values (dynamic (apis apiBuildManifest))) in
        let apiPages :=
          map (fun pageFile => Fs.render (serverlessDir b ++ segments pageFile))
              allApiPages in
        traced <- reading (nodeFileTrace apiPages process_cwd) ;;
        ret (copyLambdaHandlerDependencies b (fst traced) (snd traced)
               API_LAMBDA_CODE_DIR)
    | _ => ret []
    end ;;
  all (copyTraces ++
       [ copyHandlerOverride b API_LAMBDA_CODE_DIR;
         fse.copy (require_resolve "@sls-next/lambda-at-edge/dist/api-handler.js")
                  (outputDir b ++ [API_LAMBDA_CODE_DIR; "index.js"]) None;
         fse.copy (serverlessDir b ++ ["pages"; "api"])
                  (outputDir b ++ [API_LAMBDA_CODE_DIR; "pages"; "api"]) None;
         fse.writeJson (outputDir b ++ [API_LAMBDA_CODE_DIR; "manifest.json"])
                       (Json.ofApiManifest apiBuildManifest);
         fse.copy (dotNextDir b ++ ["routes-manifest.json"])
                  (outputDir b ++ [API_LAMBDA_CODE_DIR; "routes-manifest.json"])
                  None ]).

(** One turn of the loop over [Object.entries(pagesManifest)]. *)
Definition bucketEntry (ms : manifests) (route : string) (pageFile : jsval)
  : result manifests :=
  let dynamicRoute := isDynamicRoute route in
  let expressRoute := expressifyDynamicRoute route in
  match pageFile with
  | JStr pageFile =>
      let entry := {| file := pageFile; regex := pathToRegexStr expressRoute |} in
      if isHtmlPage pageFile then
        if dynamicRoute
        then Ok (withGroup HtmlPage (setDynamic expressRoute entry (html (fst ms))) ms)
        else Ok (withGroup HtmlPage (setNonDynamic route pageFile (html (fst ms))) ms)
      else if isApiPage pageFile then
        if dynamicRoute
        then Ok (withGroup ApiPage (setDynamic expressRoute entry (apis (snd ms))) ms)
        else Ok (withGroup ApiPage (setNonDynamic route pageFile (apis (snd ms))) ms)
      else if dynamicRoute
        then Ok (withGroup SsrPage (setDynamic expressRoute entry (ssr (fst ms))) ms)
        else Ok (withGroup SsrPage (setNonDynamic route pageFile (ssr (fst ms))) ms)
  | _ => Err (TypeError "path.endsWith is not a function")
  end.

Fixpoint bucketEntries (entries : list (string * jsval)) (ms : manifests)
  : result manifests :=
  match entries with
  | [] => Ok ms
  | (route, pageFile) :: rest =>
      match bucketEntry ms route pageFile with
      | Ok ms' => bucketEntries rest ms'
      | Err e => Err e
      end
  end.

Definition initialManifests (buildId : string) (logLambdaExecutionTimes : bool)
  : manifests :=
  ({| buildId := buildId;
      logLambdaExecutionTimes := logLambdaExecutionTimes;
      ssr := emptyGroup;
      html := emptyGroup;
      publicFiles := [];
      trailingSlash := JBool false |},
   {| apis := emptyGroup |}).

(** A call of the configuration function, recorded. *)
Definition callConfig (f : string -> jsval -> jsval) (phase : string)
    (options : jsval) : M jsval :=
  fun w => Ok (f phase options,
               {| files := files w;
                  configCalls := configCalls w ++ [(phase, options)] |}).

(** The block of [prepareBuildManifests] that reads [next.config.js]. *)
Definition readNextConfig (b : Builder)
    (defaultBuildManifest : OriginRequestDefaultHandlerManifest)
  : M OriginRequestDefaultHandlerManifest :=
  let nextConfigPath := nextConfigDir b ++ ["next.config.js"] in
  present <- fse.pathExists nextConfigPath ;;
  if present then
    nextConfig <- require nextConfigPath ;;
    normalisedNextConfig <-
      match nextConfig with
      | ExportValue v => ret (if typeof_object v then v else JUndefined)
      | ExportFunction f => callConfig f "phase-production-server" (JObj [])
      end ;;
    ret (withTrailingSlash
           (nullish (member normalisedNextConfig "trailingSlash") (JBool false))
           defaultBuildManifest)
  else ret defaultBuildManifest.

Definition prepareBuildManifests (b : Builder) : M manifests :=
  pagesManifest <- readPagesManifest b ;;
  buildId <- fse.readFile (dotNextDir b ++ ["BUILD_ID"]) ;;
  let logLambdaExecutionTimes :=
    match logLambdaExecutionTimesOption (buildOptions b) with
    | Some v => v
    | None => false
    end in
  match bucketEntries (Obj.entries pagesManifest)
          (initialManifests buildId logLambdaExecutionTimes) with
  | Err e => fail e
  | Ok ms =>
      publicFileList <- readPublicFiles b ;;
      let defaultBuildManifest :=
        withPublicFiles
          (fold_left (fun acc pf => Obj.set ("/" ++ pf)%string pf acc)
                     publicFileList (publicFiles (fst ms)))
          (fst ms) in
      defaultBuildManifest <- readNextConfig b defaultBuildManifest ;;
      ret (defaultBuildManifest, snd ms)
  end.

Definition cleanupDotNext (b : Builder) : M unit :=
  present <- fse.pathExists (dotNextDir b) ;;
  if present then
    fileItems <- fse.readdir (dotNextDir b) ;;
    all (map (fun fileItem => fse.remove (dotNextDir b ++ [fileItem]))
             (filter (fun fileItem => negb (String.eqb fileItem "cache")) fileItems))
  else ret tt.

(** [try { body } finally { finalizer }] around a child process. *)
Definition tryFinally (body : world -> option error * world)
    (finalizer : M unit) : M unit :=
  fun w =>
    let (failure, w1) := body w in
    match finalizer w1 with
    | Err e => Err e
    | Ok (_, w2) =>
        match failure with
        | Some e => Err e
        | None => Ok (tt, w2)
        end
    end.

(** [Object.assign(defaultBuildOptions, this.buildOptions)], one field. *)
Definition assigned {A} (sel : BuildOptions -> option A) (b : Builder) (dflt : A) : A :=
  match sel (buildOptions b) with
  | Some v => v
  | None => match sel defaultBuildOptions with Some v => v | None => dflt end
  end.

Definition hasAPIPages (apiBuildManifest : OriginRequestApiHandlerManifest) : bool :=
  Nat.ltb 0 (List.length (Obj.keys (nonDynamic (apis apiBuildManifest)))) ||
  Nat.ltb 0 (List.length (Obj.keys (dynamic (apis apiBuildManifest)))).

(** The steps of [build] up to the end of the child process. *)
Definition compileStage (b : Builder) : M unit :=
  cleanupDotNext b ;;;
  fse.emptyDir (outputDir b ++ [DEFAULT_LAMBDA_CODE_DIR]) ;;;
  fse.emptyDir (outputDir b ++ [API_LAMBDA_CODE_DIR]) ;;;
  restoreUserConfig <-
    createServerlessConfig (assigned cwd b []) (nextConfigDir b)
      (assigned useServerlessTraceTarget b false) ;;
  tryFinally
    (execa (assigned cmd b "") (assigned args b []) (assigned cwd b [])
           (assigned env b []))
    restoreUserConfig.

(** The steps of [build] after it. *)
Definition packageStage (b : Builder) : M unit :=
  ms <- prepareBuildManifests b ;;
  buildDefaultLambda b (fst ms) ;;;
  if hasAPIPages (snd ms) then buildApiLambda b (snd ms) else ret tt.

Definition build (b : Builder) (debugMode : bool) : M unit :=
  compileStage b ;;; packageStage b.

End BuilderMethods.

(** ** Notions used to state the properties of the buckets *)

Definition kind_eqb (a b : pageKind) : bool :=
  match a, b with
  | HtmlPage, HtmlPage | ApiPage, ApiPage | SsrPage, SsrPage => true
  | _, _ => false
  end.

(** A typed manifest entry as the JSON member it is read from. *)
Definition asMember (e : string * string) : string * jsval := (fst e, JStr (snd e)).

Section BucketContents.
Context {C : Collaborators}.

(** The entries that go to the non-dynamic bucket of kind [k]. *)
Definition staticPart (k : pageKind) (l : list (string * string))
  : list (string * string) :=
  filter (fun e => negb (isDynamicRoute (fst e)) && kind_eqb (kindOf (snd e)) k) l.

(** The bindings the dynamic bucket of kind [k] receives, in order. *)
Definition dynamicPart (k : pageKind) (l : list (string * string))
  : list (string * DynamicEntry) :=
  map (fun e =>
         (expressifyDynamicRoute (fst e),
          {| file := snd e;
             regex := pathToRegexStr (expressifyDynamicRoute (fst e)) |}))
      (filter (fun e => isDynamicRoute (fst e) && kind_eqb (kindOf (snd e)) k) l).

End BucketContents.

(** ** Notions used to state how the trailing-slash flag is resolved *)

(** The configuration module [require] finds for a builder, if any. *)
Definition nextConfigOf (b : Builder) (w : world) : option moduleExport :=
  match Fs.lookup (nextConfigDir b ++ ["next.config.js"]) (files w) with
  | Some (File (CModule m)) => Some m
  | Some (File (CJson v)) => Some (ExportValue v)
  | _ => None
  end.

(** The flag as the design states it: the [trailingSlash] field of a plain
    object, or of what a configuration function returns for the production
    phase and empty options; [false] when there is no such field. *)
Definition trailingSlashPolicy (config : option moduleExport) : jsval :=
  match config with
  | Some (ExportValue (JObj fields)) =>
      nullish (member (JObj fields) "trailingSlash") (JBool false)
  | Some (ExportFunction f) =>
      nullish (member (f "phase-production-server" (JObj [])) "trailingSlash")
              (JBool false)
  | _ => JBool false
  end.

(** The calls of the configuration function the resolution makes. *)
Definition configInvocations (config : option moduleExport) : list (string * jsval) :=
  match config with
  | Some (ExportFunction _) => [("phase-production-server", JObj [])]
  | _ => []
  end.

(** ** Notions used to state what the page bundle receives *)



(** ** Equality of JSON values up to the order of properties *)

Fixpoint js_eqb (a b : jsval) : bool :=
  match a, b with
  | JUndefined, JUndefined => true
  | JNull, JNull => true
  | JBool x, JBool y => Bool.eqb x y
  | JNum x, JNum y => Z.eqb x y
  | JStr x, JStr y => String.eqb x y
  | JArr xs, JArr ys =>
      (fix go (xs ys : list jsval) : bool :=
         match xs, ys with
         | [], [] => true
         | x :: xs', y :: ys' => js_eqb x y && go xs' ys'
         | _, _ => false
         end) xs ys
  | JObj fx, JObj fy =>
      Nat.eqb (List.length fx) (List.length fy) &&
      (fix go (fx : list (string * jsval)) : bool :=
         match fx with
         | [] => true
         | (k, v) :: rest =>
             match Obj.get k fy with
             | Some v' => js_eqb v v'
             | None => false
             end && go rest
         end) fx
  | _, _ => false
  end.

(** ** The cache-behaviour descriptor of the serverless component *)

Module Cloudfront.

(** What the component knows when it builds the descriptor: the versioned
    references of its two functions, the compiled manifests and the
    regular-expression test of the host. *)
Record Deployment : Type := {
  defaultLambda : string;
  apiLambda : string;
  compiled : manifests;
  regexTest : string -> string -> bool
}.

Record Descriptor : Type := {
  defaults : jsval;
  pathPatterns : Obj.obj jsval
}.

(** [{...v}]: the properties of an object, nothing for another value. *)
Definition objOf (v : jsval) : Obj.obj jsval :=
  match v with
  | JObj fields => Obj.of_members fields
  | _ => []
  end.

(** The triggers of a behaviour: [behaviour["lambda@edge"] || {}]. *)
Definition triggersOf (behaviour : jsval) : Obj.obj jsval :=
  objOf (member behaviour "lambda@edge").

Definition trigger (behaviour : jsval) (name : string) : option jsval :=
  Obj.get name (triggersOf behaviour).

Definition mem (s : string) (l : list string) : bool :=
  existsb (String.eqb s) l.

Definition allMethods : jsval :=
  JArr [JStr "HEAD"; JStr "DELETE"; JStr "POST"; JStr "GET"; JStr "OPTIONS";
        JStr "PUT"; JStr "PATCH"].

Definition staticBehaviour : list (string * jsval) :=
  [("minTTL", JNum 0); ("defaultTTL", JNum 86400); ("maxTTL", JNum 31536000);
   ("forward", JObj [("headers", JStr "none"); ("cookies", JStr "none");
                     ("queryString", JBool false)])].

Definition defaultBehaviour : list (string * jsval) :=
  [("minTTL", JNum 0); ("defaultTTL", JNum 0); ("maxTTL", JNum 31536000);
   ("allowedHttpMethods", allMethods);
   ("forward", JObj [("cookies", JStr "all"); ("queryString", JBool true)]);
   ("compress", JBool true)].

(** *** The expectation of the test-suite

    [describe.each(...)("Custom cloudfront inputs", ...)]: from the
    configuration a row expects to see again, the default behaviour and
    the path patterns the component must have been called with. *)
Section Expectation.
Variable arn : string.

Definition otherOf (config : Obj.obj jsval) : Obj.obj jsval :=
  filter (fun e => negb (mem (fst e) ["origins"; "defaults"; "priceClass"]))
         config.

Definition expectedDefaultCacheBehaviour (expectedInConfig : Obj.obj jsval)
  : Obj.obj jsval :=
  let defaults := at_key expectedInConfig "defaults" in
  Obj.set "lambda@edge"
    (JObj (Obj.spread [("origin-request", JStr arn); ("origin-response", JStr arn)]
                      (triggersOf defaults)))
    (objOf defaults).

Definition expectedApiCacheBehaviour (expectedInConfig : Obj.obj jsval)
  : Obj.obj jsval :=
  let api := at_key expectedInConfig "api/*" in
  Obj.set "lambda@edge"
    (JObj (Obj.set "origin-request" (JStr arn) (triggersOf api)))
    (Obj.set "allowedHttpMethods" allMethods (objOf api)).

Definition customPageCacheBehaviours (expectedInConfig : Obj.obj jsval)
  : Obj.obj jsval :=
  Obj.of_members
    (map (fun e =>
            (fst e,
             JObj (Obj.set "lambda@edge"
                     (JObj (Obj.spread [("origin-request", JStr arn)]
                                       (triggersOf (snd e))))
                     (objOf (snd e)))))
         (otherOf expectedInConfig)).

Definition expectedDefaults (expectedInConfig : Obj.obj jsval) : jsval :=
  JObj (Obj.spread defaultBehaviour
                   (expectedDefaultCacheBehaviour expectedInConfig)).

Definition expectedPathPatterns (expectedInConfig : Obj.obj jsval) : jsval :=
  let custom := customPageCacheBehaviours expectedInConfig in
  JObj
    (Obj.spread custom
       [("_next/static/*",
         JObj (Obj.spread (objOf (at_key custom "_next/static/*")) staticBehaviour));
        ("_next/data/*",
         JObj [("minTTL", JNum 0); ("defaultTTL", JNum 0); ("maxTTL", JNum 31536000);
               ("allowedHttpMethods", JArr [JStr "HEAD"; JStr "GET"]);
               ("lambda@edge", JObj [("origin-request", JStr arn);
                                     ("origin-response", JStr arn)])]);
        ("api/*",
         JObj (Obj.spread
                 [("minTTL", JNum 0); ("defaultTTL", JNum 0);
                  ("maxTTL", JNum 31536000)]
                 (expectedApiCacheBehaviour expectedInConfig)));
        ("static/*",
         JObj (Obj.spread (objOf (at_key custom "static/*")) staticBehaviour))]).

End Expectation.

(** The rows of the table that set cache behaviours: the input and the
    configuration expected to be seen again. *)
Definition ttl (a b c : Z) : list (string * jsval) :=
  [("minTTL", JNum a); ("defaultTTL", JNum b); ("maxTTL", JNum c)].

Definition customCloudfrontInputs : list (Obj.obj jsval * Obj.obj jsval) :=
  [ ([], []);
    ([("defaults",
       JObj (ttl 0 0 31536000 ++
             [("lambda@edge", JObj [("origin-request", JStr "ignored");
                                    ("origin-response", JStr "also ignored")])]))],
     [("defaults", JObj (ttl 0 0 31536000))]);
    ([("defaults",
       JObj (ttl 0 0 31536000 ++
             [("lambda@edge", JObj [("viewer-request", JStr "used value")])]))],
     [("defaults",
       JObj (ttl 0 0 31536000 ++
             [("lambda@edge", JObj [("viewer-request", JStr "used value")])]))]);
    ([("defaults",
       JObj [("forward", JObj [("cookies", JStr "all"); ("headers", JStr "X");
                               ("queryString", JBool true)])])],
     [("defaults",
       JObj [("forward", JObj [("cookies", JStr "all"); ("headers", JStr "X");
                               ("queryString", JBool true)])])]);
    ([("api/*",
       JObj (ttl 500 500 500 ++
             [("lambda@edge", JObj [("origin-request", JStr "ignored value")])]))],
     [("api/*", JObj (ttl 500 500 500))]);
    ([("api/*",
       JObj (ttl 500 500 500 ++
             [("lambda@edge", JObj [("origin-response", JStr "used value")])]))],
     [("api/*",
       JObj (ttl 500 500 500 ++
             [("lambda@edge", JObj [("origin-response", JStr "used value")])]))]);
    ([("origins",
       JArr [JStr "http://some-origin"; JStr "/relative";
             JObj [("url", JStr "http://diff-origin")];
             JObj [("url", JStr "/diff-relative")]])],
     [("origins",
       JArr [JStr "http://some-origin";
             JStr "http://bucket-xyz.s3.us-east-1.amazonaws.com/relative";
             JObj [("url", JStr "http://diff-origin")];
             JObj [("url",
                    JStr "http://bucket-xyz.s3.us-east-1.amazonaws.com/diff-relative")]])]);
    ([("priceClass", JStr "PriceClass_100")],
     [("priceClass", JStr "PriceClass_100")]);
    ([("/terms",
       JObj (ttl 5500 5500 5500 ++
             [("misc-param", JStr "misc-value");
              ("lambda@edge", JObj [("origin-request", JStr "ignored value")])]))],
     [("/terms",
       JObj (ttl 5500 5500 5500 ++ [("misc-param", JStr "misc-value")]))]);
    ([("/customers/stan-sack", JObj (ttl 5500 5500 5500))],
     [("/customers/stan-sack", JObj (ttl 5500 5500 5500))]) ].

(** [describe.each(...)("API cloudfront inputs", ...)]: the input and the
    path it configures. *)
Definition apiCloudfrontInputs : list (Obj.obj jsval * string) :=
  [ ([("api", JObj [("minTTL", JNum 100); ("maxTTL", JNum 100);
                    ("defaultTTL", JNum 100)])], "api");
    ([("api/test", JObj [("minTTL", JNum 100); ("maxTTL", JNum 100);
                         ("defaultTTL", JNum 100)])], "api/test");
    ([("api/*", JObj [("minTTL", JNum 100); ("maxTTL", JNum 100);
                      ("defaultTTL", JNum 100)])], "api/*") ].

(** The path patterns that test expects for a row. *)
Definition expectedApiPathPatterns (arn : string)
    (cloudFrontInput : Obj.obj jsval) (pathName : string) : jsval :=
  let behaviour :=
    Obj.set "lambda@edge" (JObj [("origin-request", JStr arn)])
            (objOf (at_key cloudFrontInput pathName)) in
  let behaviour :=
    if String.eqb pathName "api/*"
    then Obj.set "allowedHttpMethods" allMethods behaviour
    else behaviour in
  let cloudFrontInput := Obj.set pathName (JObj behaviour) cloudFrontInput in
  JObj
    (Obj.spread
       [("_next/data/*",
         JObj [("allowedHttpMethods", JArr [JStr "HEAD"; JStr "GET"]);
               ("defaultTTL", JNum 0);
               ("lambda@edge", JObj [("origin-request", JStr arn);
                                     ("origin-response", JStr arn)]);
               ("maxTTL", JNum 31536000); ("minTTL", JNum 0)]);
        ("_next/static/*",
         JObj [("defaultTTL", JNum 86400);
               ("forward", JObj [("cookies", JStr "none"); ("headers", JStr "none");
                                 ("queryString", JBool false)]);
               ("maxTTL", JNum 31536000); ("minTTL", JNum 0)]);
        ("api/*",
         JObj [("allowedHttpMethods", allMethods);
               ("defaultTTL", JNum 0);
               ("lambda@edge", JObj [("origin-request", JStr arn)]);
               ("maxTTL", JNum 31536000); ("minTTL", JNum 0)]);
        ("static/*",
         JObj [("defaultTTL", JNum 86400);
               ("forward", JObj [("cookies", JStr "none"); ("headers", JStr "none");
                                 ("queryString", JBool false)]);
               ("maxTTL", JNum 31536000); ("minTTL", JNum 0)])]
       cloudFrontInput).

(** *** The generator *)

Definition topLevelKeys : list string := ["defaults"; "origins"; "priceClass"].

Definition wellKnownPaths : list string :=
  ["_next/static/*"; "static/*"; "api/*"; "_next/data/*"].

Section Generator.
Variable D : Deployment.

(** Modelled from the spec: the component's check that a user path has a
    route in the compiled manifest is missing from the sources; here a
    path, taken from the root, has a route when it is a non-dynamic
    route of one of the three groups or the regex of a dynamic entry
    accepts it. *)
Definition hasRoute (p : string) : bool :=
  let route := if Str.startsWith p "/" then p else ("/" ++ p)%string in
  let groups := [ssr (fst (compiled D)); html (fst (compiled D));
                 apis (snd (compiled D))] in
  existsb (fun g => Obj.has route (nonDynamic g)) groups ||
  existsb (fun g => existsb (fun e => regexTest D (regex (snd e)) route) (dynamic g))
          groups.

(** Modelled from the spec: the paths a user configuration declares,
    besides the well-known path groups (the component source is
    missing). *)
Definition customPaths (inputs : Obj.obj jsval) : list string :=
  filter (fun p => negb (mem p topLevelKeys) && negb (mem p wellKnownPaths))
         (Obj.keys inputs).

(** Modelled from the spec: the declared paths without a route. *)
Definition unmatchedPaths (inputs : Obj.obj jsval) : list string :=
  filter (fun p => negb (hasRoute p)) (customPaths inputs).

(** Modelled from the spec: the validation error names the offending
    paths; the wording is the one the test-suite looks for. *)
Definition validationMessage (paths : list string) : string :=
  ("Could not find next.js pages for " ++ Str.dquote ++
   Str.join "," paths ++ Str.dquote)%string.

(** Modelled from the spec: the system defaults of the well-known path
    groups, with the values the test-suite expects. *)
Definition systemPatterns : Obj.obj jsval :=
  [("_next/static/*", JObj staticBehaviour);
   ("static/*", JObj staticBehaviour);
   ("api/*",
    JObj (ttl 0 0 31536000 ++
          [("allowedHttpMethods", allMethods);
           ("lambda@edge", JObj [("origin-request", JStr (apiLambda D))])]));
   ("_next/data/*",
    JObj (ttl 0 0 31536000 ++
          [("allowedHttpMethods", JArr [JStr "HEAD"; JStr "GET"]);
           ("lambda@edge", JObj [("origin-request", JStr (defaultLambda D));
                                 ("origin-response", JStr (defaultLambda D))])]))].

(** Modelled from the spec: the triggers a user may set on a path: on
    the API pattern all but [origin-request]; on a page path of the
    user's own all, with [origin-request] bound to the page handler; on
    the other well-known groups all. *)
Definition edgeConfigFor (p : string) (config : jsval) : Obj.obj jsval :=
  let edgeConfig := triggersOf config in
  if String.eqb p "api/*" then Obj.remove "origin-request" edgeConfig
  else if mem p wellKnownPaths then edgeConfig
  else Obj.set "origin-request" (JStr (defaultLambda D)) edgeConfig.

(** Modelled from the spec: the user's behaviour for a path merged over
    the system's. *)
Definition mergedBehaviour (p : string) (config : jsval) : jsval :=
  let existing := at_key systemPatterns p in
  JObj (Obj.set "lambda@edge"
          (JObj (Obj.spread (triggersOf existing) (edgeConfigFor p config)))
          (Obj.spread (objOf existing) (objOf config))).

(** Modelled from the spec: the user's defaults merged over the
    system's, the two reserved triggers set last. *)
Definition mergedDefaults (inputs : Obj.obj jsval) : jsval :=
  let user := at_key inputs "defaults" in
  JObj (Obj.set "lambda@edge"
          (JObj (Obj.spread (triggersOf user)
                   [("origin-request", JStr (defaultLambda D));
                    ("origin-response", JStr (defaultLambda D))]))
          (Obj.spread defaultBehaviour (objOf user))).

(** Modelled from the spec: the cache-behaviour descriptor generator of
    the serverless component is missing from the sources (its test-suite
    alone is there). It follows section 4.7 of the design: system
    defaults for the well-known path groups and the default behaviour,
    user overrides merged per path, the reserved triggers kept to the
    system, every user path checked against the compiled manifest. On a
    page path of the user's own the [origin-request] trigger is the
    system's, as the rows of the test table have it. *)
Definition generate (inputs : Obj.obj jsval) : result Descriptor :=
  match unmatchedPaths inputs with
  | [] =>
      Ok {| defaults := mergedDefaults inputs;
            pathPatterns :=
              Obj.spread systemPatterns
                (map (fun e => (fst e, mergedBehaviour (fst e) (snd e)))
                     (filter (fun e => negb (mem (fst e) topLevelKeys)) inputs)) |}
  | paths => Err (Thrown (validationMessage paths))
  end.

(** The trigger a user configuration asks for on a path. *)
Definition asked (inputs : Obj.obj jsval) (p t : string) : option jsval :=
  trigger (at_key inputs p) t.

(** The trigger the descriptor carries on a path. *)
Definition emitted (d : Descriptor) (p t : string) : option jsval :=
  match Obj.get p (pathPatterns d) with
  | Some behaviour => trigger behaviour t
  | None => None
  end.

(** The last clause of the claim on reserved triggers, as the design
    words it: on every behaviour other than the default one and the API
    pattern, every trigger of the user passes through. *)
Definition passesThroughElsewhere : Prop :=
  forall inputs d p t v,
    generate (Obj.of_members inputs) = Ok d ->
    p <> "api/*" -> mem p topLevelKeys = false ->
    asked (Obj.of_members inputs) p t = Some v ->
    emitted d p t = Some v.

End Generator.

End Cloudfront.

(** ** A fixture

    A small application and an instance of the collaborators, enough to run
    the Builder from end to end. *)

Module Fixture.

(** Modelled from the spec: [./lib/isDynamicRoute] is missing from the
    sources; a route is dynamic when its template has a bracketed
    segment (section 4.1). *)
Definition isDynamicRoute (route : string) : bool := Str.includes route "/[".

(** Modelled from the spec: [./lib/sortedRoutes] is missing from the
    sources; segment by segment a literal outranks a single parameter,
    which outranks a catch-all, and ties keep their order (section 4.2). *)
Definition rankOf (segment : string) : nat :=
  if Str.startsWith segment "[[..." then 3
  else if Str.startsWith segment "[..." then 2
  else if Str.startsWith segment "[" then 1
  else 0.

Fixpoint outranks (a b : list string) : bool :=
  match a, b with
  | x :: a', y :: b' =>
      if Nat.ltb (rankOf x) (rankOf y) then true
      else if Nat.ltb (rankOf y) (rankOf x) then false
      else outranks a' b'
  | _, _ => false
  end.

Fixpoint insertRoute (r : string) (sorted : list string) : list string :=
  match sorted with
  | [] => [r]
  | e :: rest =>
      if outranks (segments r) (segments e) then r :: e :: rest
      else e :: insertRoute r rest
  end.

Definition getSortedRoutes (routes : list string) : list string :=
  fold_left (fun acc r => insertRoute r acc) routes [].

(** Modelled from the spec: [./lib/expressifyDynamicRoute] is missing
    from the sources; [[name]] becomes [:name]. *)
Fixpoint expressifyDynamicRoute (route : string) : string :=
  match route with
  | EmptyString => EmptyString
  | String c rest =>
      if Ascii.eqb c "["%char then String ":"%char (expressifyDynamicRoute rest)
      else if Ascii.eqb c "]"%char then expressifyDynamicRoute rest
      else String c (expressifyDynamicRoute rest)
  end.

(** Modelled from the spec: [./lib/pathToRegexStr] is missing from the
    sources; the fixture keeps the pattern between anchors. *)
Definition pathToRegexStr (route : string) : string := ("^" ++ route ++ "$")%string.

(** Modelled from the spec: [./routing/redirector] is missing from the
    sources; a redirect duplicates the automatic rule when it is the
    permanent redirect between a path and the same path with a trailing
    slash, under the base path (section 4.6). *)
Definition isTrailingSlashRedirect (redirect basePath : jsval) : bool :=
  let base := match basePath with JStr s => s | _ => "" end in
  js_eqb (member redirect "statusCode") (JNum 308) &&
  (js_eqb (member redirect "source") (JStr (base ++ "/:path+/")) ||
   js_eqb (member redirect "source") (JStr (base ++ "/:path+"))).

(** Modelled from the spec: [./lib/getAllFilesInDirectory] is missing
    from the sources; the files below a directory, as path strings. *)
Fixpoint filesBelow (p : path) (n : node) : list string :=
  match n with
  | File _ => [Fs.render p]
  | Dir es =>
      (fix go (es : list (string * node)) : list string :=
         match es with
         | [] => []
         | (s, child) :: rest => filesBelow (p ++ [s]) child ++ go rest
         end) es
  end.

Definition getAllFiles (p : path) (root : node) : list string :=
  match Fs.lookup p root with
  | Some n => filesBelow p n
  | None => []
  end.

(** node's [path] on posix strings, for the paths of the fixture. *)
Definition path_basename (s : string) : string :=
  last (segments s) "".

Fixpoint lastDot (s : string) : option string :=
  match s with
  | EmptyString => None
  | String c rest =>
      match lastDot rest with
      | Some e => Some e
      | None => if Ascii.eqb c "."%char then Some (String c rest) else None
      end
  end.

Definition path_extname (s : string) : string :=
  match path_basename s with
  | EmptyString => ""
  | String c rest =>
      if String.eqb (String c rest) ".." then ""
      else match lastDot rest with Some e => e | None => "" end
  end.

Definition path_relative (from to : string) : string :=
  if String.eqb from to then ""
  else if Str.startsWith to (from ++ "/")
  then substring (String.length from + 1)
                 (String.length to - (String.length from + 1)) to
  else to.

Definition workingDirectory : path := ["app"].

Definition path_resolve (s : string) : string :=
  if Str.startsWith s "/" then s else (Fs.render workingDirectory ++ "/" ++ s)%string.

(** The build command of the fixture: it writes the given files. *)
Definition writeAll (output : list (path * content)) (root : node) : node :=
  fold_left (fun n f => match Fs.put (fst f) (File (snd f)) n with
                        | Some n' => n'
                        | None => n
                        end) output root.

Definition collaborators (output : list (path * content)) : Collaborators :=
  Build_Collaborators
    isDynamicRoute
    getSortedRoutes
    expressifyDynamicRoute
    pathToRegexStr
    isTrailingSlashRedirect
    (fun s => s)
    getAllFiles
    (fun s => s)
    (fun _ _ _ => ret (ret tt))
    (fun _ _ _ => Ok ([], fun _ => None))
    (fun _ _ _ _ w => (None, with_files w (writeAll output (files w))))
    path_extname
    path_relative
    path_basename
    path_resolve
    workingDirectory
    (fun m => ["app"; "node_modules"] ++ segments m).

Definition app : Builder :=
  {| nextConfigDir := ["app"];
     outputDir := ["app"; "out"];
     buildOptions :=
       {| args := None; cwd := None; env := None; cmd := None;
          useServerlessTraceTarget := None;
          logLambdaExecutionTimesOption := None;
          handler := None |} |}.

(** The application before the build: a configuration function, a public
    file, the handlers of the package and what an earlier build left. *)
Definition before : world :=
  {| files :=
       Dir [("app",
             Dir [("next.config.js",
                   File (CModule (ExportFunction
                           (fun _ _ => JObj [("trailingSlash", JBool true)]))));
                  ("public", Dir [("favicon.ico", File (CText "icon"))]);
                  (".next",
                   Dir [("cache", Dir [("webpack", File (CText "cached"))]);
                        ("BUILD_ID", File (CText "stale"))]);
                  ("node_modules",
                   Dir [("@sls-next",
                         Dir [("lambda-at-edge",
                               Dir [("dist",
                                     Dir [("default-handler.js",
                                           File (CText "default handler"));
                                          ("api-handler.js",
                                           File (CText "api handler"))])])])])])];
     configCalls := [] |}.

Definition routesManifest : jsval :=
  JObj [("version", JNum 1);
        ("basePath", JStr "");
        ("redirects",
         JArr [JObj [("source", JStr "/:path+/"); ("destination", JStr "/:path+");
                     ("statusCode", JNum 308)];
               JObj [("source", JStr "/old"); ("destination", JStr "/new");
                     ("statusCode", JNum 308)]]);
        ("rewrites", JArr [])].

Definition prerenderManifest : jsval :=
  JObj [("version", JNum 2);
        ("routes", JObj [("/", JObj [("initialRevalidateSeconds", JBool false)])])].

Definition next : path := ["app"; ".next"].

(** What the build of an application without API routes writes. *)
Definition pagesOnly : list (path * content) :=
  [ (next ++ ["BUILD_ID"], CText "test-build-id");
    (next ++ ["prerender-manifest.json"], CJson prerenderManifest);
    (next ++ ["routes-manifest.json"], CJson routesManifest);
    (next ++ ["serverless"; "pages-manifest.json"],
     CJson (JObj [("/blog/[id]", JStr "pages/blog/[id].js");
                  ("/", JStr "pages/index.js");
                  ("/[...all]", JStr "pages/[...all].js");
                  ("/about", JStr "pages/about.html")]));
    (next ++ ["serverless"; "pages"; "index.js"], CText "index page");
    (next ++ ["serverless"; "pages"; "about.html"], CText "about page");
    (next ++ ["serverless"; "pages"; "[...all].js"], CText "catch-all page");
    (next ++ ["serverless"; "pages"; "blog"; "[id].js"], CText "blog page") ].

(** What the build of an application with one API route writes. *)
Definition withApi : list (path * content) :=
  [ (next ++ ["BUILD_ID"], CText "test-build-id");
    (next ++ ["prerender-manifest.json"], CJson prerenderManifest);
    (next ++ ["routes-manifest.json"], CJson routesManifest);
    (next ++ ["serverless"; "pages-manifest.json"],
     CJson (JObj [("/blog/[id]", JStr "pages/blog/[id].js");
                  ("/", JStr "pages/index.js");
                  ("/api/hello", JStr "pages/api/hello.js");
                  ("/about", JStr "pages/about.html")]));
    (next ++ ["serverless"; "pages"; "index.js"], CText "index page");
    (next ++ ["serverless"; "pages"; "about.html"], CText "about page");
    (next ++ ["serverless"; "pages"; "api"; "hello.js"], CText "hello api");
    (next ++ ["serverless"; "pages"; "blog"; "[id].js"], CText "blog page") ].


(** A deployment over compiled manifests with a page [/terms], the dynamic
    route [/customers/[customer]] and three API routes; its
    regular-expression test accepts the paths that extend the pattern. *)
Definition arn : string := "arn:aws:lambda:us-east-1:123456789012:function:my-func:v1".

Definition deployment : Cloudfront.Deployment :=
  {| Cloudfront.defaultLambda := arn;
     Cloudfront.apiLambda := arn;
     Cloudfront.compiled :=
       ({| buildId := "test-build-id";
           logLambdaExecutionTimes := false;
           ssr := {| dynamic :=
                       [("/customers/:customer",
                         {| file := "pages/customers/[customer].js";
                            regex := "/customers/" |})];
                     nonDynamic := [("/customers/new", "pages/customers/new.js")] |};
           html := {| dynamic := []; nonDynamic := [("/terms", "pages/terms.html")] |};
           publicFiles := [];
           trailingSlash := JBool false |},
        {| apis := {| dynamic := [];
                      nonDynamic := [("/api/customers", "pages/api/customers.js");
                                     ("/api", "pages/api/index.js");
                                     ("/api/test", "pages/api/test.js")] |} |});
     Cloudfront.regexTest := fun pattern p => Str.startsWith p pattern |}.

End Fixture.

(** ** The claim that two bundles are always emitted, as the design words it *)

(** The API bundle holds its entry point, its manifest and the API pages. *)
Definition apiBundleEmitted (b : Builder) (w : world) : Prop :=
  (exists n, Fs.lookup (outputDir b ++ [API_LAMBDA_CODE_DIR; "index.js"]) (files w) = Some n) /\
  (exists n, Fs.lookup (outputDir b ++ [API_LAMBDA_CODE_DIR; "manifest.json"]) (files w) = Some n) /\
  (exists n, Fs.lookup (outputDir b ++ [API_LAMBDA_CODE_DIR; "pages"; "api"]) (files w) = Some n).

(** The page bundle holds its entry point and its manifest. *)
Definition pageBundleEmitted (b : Builder) (w : world) : Prop :=
  (exists n, Fs.lookup (outputDir b ++ [DEFAULT_LAMBDA_CODE_DIR; "index.js"]) (files w) = Some n) /\
  (exists n, Fs.lookup (outputDir b ++ [DEFAULT_LAMBDA_CODE_DIR; "manifest.json"]) (files w) = Some n).

Definition alwaysTwoBundles : Prop :=
  forall (C : Collaborators) (b : Builder) (debugMode : bool) (w w' : world),
    build b debugMode w = Ok (tt, w') ->
    pageBundleEmitted b w' /\ apiBundleEmitted b w'.

(** The fixture once the build command has run. *)
Definition compiledFixture (output : list (path * content)) : world :=
  with_files Fixture.before (Fixture.writeAll output (files Fixture.before)).

(** Two user configurations of the test-suite: the page path [/terms] with
    an [origin-request] trigger of its own, and a path with no page. *)
Definition termsInput : list (string * jsval) :=
  [("/terms",
    JObj (Cloudfront.ttl 5500 5500 5500 ++
          [("misc-param", JStr "misc-value");
           ("lambda@edge", JObj [("origin-request", JStr "ignored value")])]))].

Definition invalidInput : list (string * jsval) :=
  [("some-invalid-page-route", JObj [("ttl", JNum 100)])].

(** The members of the pages manifest of the fixture without API routes. *)
Definition fixturePages : list (string * jsval) :=
  [("/blog/[id]", JStr "pages/blog/[id].js");
   ("/", JStr "pages/index.js");
   ("/[...all]", JStr "pages/[...all].js");
   ("/about", JStr "pages/about.html")].

(** The collaborators of the two fixtures. *)
Definition pagesFixture : Collaborators := Fixture.collaborators Fixture.pagesOnly.
Definition apiFixture : Collaborators := Fixture.collaborators Fixture.withApi.

(** ** Notions used to state further properties of the Builder *)

(** A path segment: a string without the separator. *)
Fixpoint slashFree (s : string) : bool :=
  match s with
  | EmptyString => true
  | String c rest => negb (Ascii.eqb c "/"%char) && slashFree rest
  end.

(** A relative path string with no [..] segment: joined to a directory it
    names a path below that directory. *)
Definition staysBelow (s : string) : bool :=
  negb (existsb (String.eqb "..") (segments s)).

(** Build options under which every destination the packaging joins is a
    path below the bundle directory, so that [path.join], which resolves
    [..] segments, is the concatenation of segments: no trace target, whose
    traced files are placed by their path relative to [.next/serverless],
    and no handler path with a [..] segment. *)
Definition plainOptions (b : Builder) : Prop :=
  useServerlessTraceTarget (buildOptions b) <> Some true /\
  match handler (buildOptions b) with
  | Some h => staysBelow h = true
  | None => True
  end.

(** A page file of the manifest as the typed value the loop expects. *)
Definition isPageFile (v : jsval) : bool :=
  match v with JStr _ => true | _ => false end.

(** The collaborators of the fixture with a build command that fails and
    writes nothing. *)
Definition failingCommand : Collaborators :=
  Build_Collaborators
    Fixture.isDynamicRoute
    Fixture.getSortedRoutes
    Fixture.expressifyDynamicRoute
    Fixture.pathToRegexStr
    Fixture.isTrailingSlashRedirect
    (fun s => s)
    Fixture.getAllFiles
    (fun s => s)
    (fun _ _ _ => ret (ret tt))
    (fun _ _ _ => Ok ([], fun _ => None))
    (fun _ _ _ _ w => (Some (ChildProcessError "Command failed: next build"), w))
    Fixture.path_extname
    Fixture.path_relative
    Fixture.path_basename
    Fixture.path_resolve
    Fixture.workingDirectory
    (fun m => ["app"; "node_modules"] ++ segments m).

(** A name twice in a list of names. *)
Fixpoint distinct (names : list string) : bool :=
  match names with
  | [] => true
  | s :: rest => negb (existsb (String.eqb s) rest) && distinct rest
  end.

(** A tree in which no directory holds a name twice. *)
Fixpoint wellFormed (n : node) : bool :=
  match n with
  | File _ => true
  | Dir es =>
      distinct (Obj.keys es) &&
      (fix each (es : list (string * node)) : bool :=
         match es with
         | [] => true
         | (_, child) :: rest => wellFormed child && each rest
         end) es
  end.

(** A copy filter admits the source [p] and every directory and file on
    the way from it down the relative path [r]. *)
Fixpoint admitted (flt : string -> bool) (p r : path) : bool :=
  flt (Fs.render p) &&
  match r with
  | [] => true
  | s :: rest => admitted flt (p ++ [s]) rest
  end.

(** The entries a copy filter keeps of the entries of a directory at [p]:
    the loop over the entries in [Fs.prune]. *)
Definition pruned (flt : string -> bool) (p : path) :=
  fix go (es : list (string * node)) : list (string * node) :=
    match es with
    | [] => []
    | (s, child) :: rest =>
        match Fs.prune flt (p ++ [s]) child with
        | Some child' => (s, child') :: go rest
        | None => go rest
        end
    end.

(** The entries of a copied directory laid over the entries [acc]: the
    loop over the entries in [Fs.merge]. *)
Definition merged :=
  fix go (es : list (string * node)) (acc : list (string * node))
    : option (list (string * node)) :=
    match es with
    | [] => Some acc
    | (s, child) :: rest =>
        match Fs.merge child (Obj.get s acc) with
        | Some child' =>
            go rest (match Obj.get s acc with
                     | Some _ => Obj.update s child' acc
                     | None => acc ++ [(s, child')]
                     end)
        | None => None
        end
    end.

(** ** Further fixtures *)

(** What the build of an application with the page [/apiary] and no API
    route writes. *)
Definition apiaryOutput : list (path * content) :=
  [ (Fixture.next ++ ["BUILD_ID"], CText "test-build-id");
    (Fixture.next ++ ["prerender-manifest.json"], CJson Fixture.prerenderManifest);
    (Fixture.next ++ ["routes-manifest.json"], CJson Fixture.routesManifest);
    (Fixture.next ++ ["serverless"; "pages-manifest.json"],
     CJson (JObj [("/", JStr "pages/index.js");
                  ("/apiary", JStr "pages/apiary.js")]));
    (Fixture.next ++ ["serverless"; "pages"; "index.js"], CText "index page");
    (Fixture.next ++ ["serverless"; "pages"; "apiary.js"], CText "apiary page") ].

Definition apiaryFixture : Collaborators := Fixture.collaborators apiaryOutput.



(** The fixture once the steps of [build] up to the end of the build
    command have run: [.next] cleaned, both bundle directories emptied,
    the output of the command written. *)
Definition compiledRun (output : list (path * content)) : world :=
  match compileStage (C := Fixture.collaborators output) Fixture.app Fixture.before with
  | Ok (_, w) => w
  | Err _ => Fixture.before
  end.

(** ** The API namespace and the page bundle, as the design words them *)

(** A page file located under the API namespace: in the directory
    [pages/api]. *)
Definition underApiDirectory (pageFile : string) : bool :=
  Str.startsWith pageFile "pages/api/".


(** At least one API route exists: the compiled [pages/api] is there. *)
Definition apiRoutesExist (b : Builder) (w : world) : bool :=
  match Fs.lookup (serverlessDir b ++ ["pages"; "api"]) (files w) with
  | Some _ => true
  | None => false
  end.

Section PageBundleAsStated.
Context {C : Collaborators}.



End PageBundleAsStated.


(** * Properties *)
(** ** Facts about strings *)

Module StrFacts.
Import Str.

Lemma append_assoc (a b c : string) : ((a ++ b) ++ c = a ++ (b ++ c))%string.
Proof. induction a as [|ch a IH]; simpl; [reflexivity | now rewrite IH]. Qed.

Lemma append_nil_r (a : string) : (a ++ EmptyString)%string = a.
Proof. induction a as [|ch a IH]; simpl; [reflexivity | now rewrite IH]. Qed.

Lemma occursIn_refl (t : string) : occursIn t t.
Proof. exists EmptyString, EmptyString. simpl. now rewrite append_nil_r. Qed.

Lemma occursIn_app_l (t s pre : string) :
  occursIn t s -> occursIn t (pre ++ s)%string.
Proof.
  intros (a & b & ->). exists (pre ++ a)%string, b. now rewrite append_assoc.
Qed.

Lemma occursIn_app_r (t s post : string) :
  occursIn t s -> occursIn t (s ++ post)%string.
Proof.
  intros (a & b & ->). exists a, (b ++ post)%string. now rewrite !append_assoc.
Qed.

Lemma occursIn_join (sep x : string) (xs : list string) :
  In x xs -> occursIn x (join sep xs).
Proof.
  induction xs as [|y ys IH]; intros Hin; [destruct Hin|].
  destruct Hin as [-> | Hin].
  - destruct ys as [|z zs]; simpl.
    + apply occursIn_refl.
    + apply occursIn_app_r, occursIn_refl.
  - destruct ys as [|z zs]; [destruct Hin|].
    change (join sep (y :: z :: zs)) with (y ++ sep ++ join sep (z :: zs))%string.
    apply occursIn_app_l, occursIn_app_l, IH, Hin.
Qed.

End StrFacts.

(** ** Facts about objects *)

Module ObjFacts.
Import Obj.

Section WithV.
Context {V : Type}.
Implicit Types (o : obj V) (k : string) (v : V).

Lemma get_None_iff k o : get k o = None <-> ~ In k (keys o).
Proof.
  induction o as [|[k' v'] o IH]; simpl; [tauto|].
  destruct (String.eqb_spec k k') as [->|Hne].
  - split; [discriminate | intros H; exfalso; apply H; now left].
  - rewrite IH. split.
    + intros H [E|E]; [congruence | tauto].
    + intros H E. apply H. now right.
Qed.

Lemma get_Some_In k v o : get k o = Some v -> In k (keys o).
Proof.
  intros H. destruct (in_dec string_dec k (keys o)) as [i|n]; [exact i|].
  apply get_None_iff in n. congruence.
Qed.

Lemma In_get_Some k o : In k (keys o) -> exists v, get k o = Some v.
Proof.
  intros H. destruct (get k o) as [v|] eqn:E; [now exists v|].
  apply get_None_iff in E. contradiction.
Qed.

Lemma keys_update k v o : keys (update k v o) = keys o.
Proof.
  induction o as [|[k' v'] o IH]; simpl; [reflexivity|].
  destruct (String.eqb_spec k k'); simpl; [reflexivity | now rewrite IH].
Qed.

Lemma get_update_same k v o :
  In k (keys o) -> get k (update k v o) = Some v.
Proof.
  induction o as [|[k' v'] o IH]; simpl; [tauto|].
  intros H. destruct (String.eqb_spec k k') as [->|Hne]; simpl.
  - now rewrite String.eqb_refl.
  - destruct (String.eqb_spec k k'); [contradiction|].
    apply IH. destruct H; [congruence | assumption].
Qed.

Lemma get_update_other k k' v o :
  k <> k' -> get k' (update k v o) = get k' o.
Proof.
  intros Hne. induction o as [|[k0 v0] o IH]; simpl; [reflexivity|].
  destruct (String.eqb_spec k k0) as [->|Hk]; simpl.
  - destruct (String.eqb_spec k' k0); [congruence | reflexivity].
  - now rewrite IH.
Qed.

Lemma In_keys_insert_index n k v o x :
  In x (keys (insert_index n k v o)) <-> x = k \/ In x (keys o).
Proof.
  induction o as [|[k' v'] o IH]; simpl.
  - intuition congruence.
  - destruct (array_index k') as [m|].
    + destruct (n <? m)%N; simpl; [intuition congruence|].
      rewrite IH. intuition congruence.
    + simpl. intuition congruence.
Qed.

Lemma get_insert_index_same n k v o :
  get k o = None -> get k (insert_index n k v o) = Some v.
Proof.
  induction o as [|[k' v'] o IH]; simpl.
  - now rewrite String.eqb_refl.
  - destruct (String.eqb_spec k k'); [discriminate|]. intros H.
    destruct (array_index k') as [m|].
    + destruct (n <? m)%N; simpl.
      * now rewrite String.eqb_refl.
      * destruct (String.eqb_spec k k'); [contradiction | now apply IH].
    + simpl. now rewrite String.eqb_refl.
Qed.

Lemma get_insert_index_other n k k' v o :
  k <> k' -> get k' (insert_index n k v o) = get k' o.
Proof.
  intros Hne. induction o as [|[k0 v0] o IH]; simpl.
  - destruct (String.eqb_spec k' k); [congruence | reflexivity].
  - destruct (array_index k0) as [m|].
    + destruct (n <? m)%N; simpl.
      * destruct (String.eqb_spec k' k); [congruence | reflexivity].
      * now rewrite IH.
    + simpl. destruct (String.eqb_spec k' k); [congruence | reflexivity].
Qed.

Lemma get_app k o1 o2 :
  get k (o1 ++ o2) = match get k o1 with Some v => Some v | None => get k o2 end.
Proof.
  induction o1 as [|[k' v'] o1 IH]; simpl; [reflexivity|].
  destruct (String.eqb k k'); [reflexivity | exact IH].
Qed.

Lemma get_set_same k v o : get k (set k v o) = Some v.
Proof.
  unfold set. destruct (get k o) as [x|] eqn:E.
  - apply get_update_same. eapply get_Some_In, E.
  - destruct (array_index k) as [n|].
    + now apply get_insert_index_same.
    + rewrite get_app, E. simpl. now rewrite String.eqb_refl.
Qed.

Lemma get_set_other k k' v o : k <> k' -> get k' (set k v o) = get k' o.
Proof.
  intros Hne. unfold set. destruct (get k o) as [x|] eqn:E.
  - now apply get_update_other.
  - destruct (array_index k) as [n|].
    + now apply get_insert_index_other.
    + rewrite get_app. destruct (get k' o); [reflexivity|]. simpl.
      destruct (String.eqb_spec k' k); [congruence | reflexivity].
Qed.

Lemma insert_index_last n k v o :
  (forall k', In k' (keys o) -> exists m, array_index k' = Some m /\ (m <= n)%N) ->
  insert_index n k v o = o ++ [(k, v)].
Proof.
  induction o as [|[k' v'] o IH]; simpl; intros H; [reflexivity|].
  destruct (H k' (or_introl eq_refl)) as (m & -> & Hm).
  destruct (N.ltb_spec n m); [lia|].
  f_equal. apply IH. intros x Hx. apply H. now right.
Qed.

Lemma set_last k v o :
  ~ In k (keys o) -> goes_last k o -> set k v o = o ++ [(k, v)].
Proof.
  intros Hnot Hlast. unfold set. apply get_None_iff in Hnot. rewrite Hnot.
  unfold goes_last in Hlast. destruct (array_index k) as [n|]; [|reflexivity].
  now apply insert_index_last.
Qed.

Lemma ordered_keys_app_inv (l1 l2 : list string) k :
  ordered_keys (l1 ++ k :: l2) ->
  forall k', In k' l1 ->
    match array_index k' with
    | Some m => forall n, array_index k = Some n -> (m <= n)%N
    | None => array_index k = None
    end.
Proof.
  induction l1 as [|a l1 IH]; simpl; intros H k' Hin; [destruct Hin|].
  destruct H as [Hrest Hhead]. destruct Hin as [<-|Hin].
  - destruct (array_index a) as [m|].
    + intros n Hn. apply (Hhead k n); [|exact Hn].
      apply in_or_app. right. now left.
    + apply Hhead. apply in_or_app. right. now left.
  - now apply IH.
Qed.

Lemma ordered_goes_last o k (rest : list string) :
  ordered_keys (keys o ++ k :: rest) -> goes_last k o.
Proof.
  intros H. unfold goes_last. destruct (array_index k) as [n|] eqn:Ek; [|exact I].
  intros k' Hin. pose proof (ordered_keys_app_inv _ _ _ H k' Hin) as Hk.
  destruct (array_index k') as [m|].
  - exists m. split; [reflexivity | now apply Hk].
  - congruence.
Qed.

Lemma ordered_keys_filter (P : string -> bool) (ks : list string) :
  ordered_keys ks -> ordered_keys (filter P ks).
Proof.
  induction ks as [|k ks IH]; simpl; [tauto|]. intros [Hrest Hhead].
  destruct (P k); simpl; [|now apply IH]. split; [now apply IH|].
  destruct (array_index k) as [n|].
  - intros k' m Hin. apply Hhead. apply filter_In in Hin. tauto.
  - intros k' Hin. apply Hhead. apply filter_In in Hin. tauto.
Qed.

Lemma ordered_keys_insert_index n k v o :
  array_index k = Some n ->
  ordered_keys (keys o) -> ordered_keys (keys (insert_index n k v o)).
Proof.
  intros Hk. induction o as [|[k' v'] o IH]; simpl.
  - intros _. split; [exact I|]. rewrite Hk. intros ? ? [].
  - intros [Hrest Hhead]. destruct (array_index k') as [m|] eqn:Ek'.
    + destruct (N.ltb_spec n m) as [Hlt|Hge]; simpl.
      * split; [split; [exact Hrest | now rewrite Ek']|].
        rewrite Hk. intros x mx [<-|Hx] Hmx.
        -- rewrite Ek' in Hmx. injection Hmx as <-. lia.
        -- specialize (Hhead x mx Hx Hmx). lia.
      * split; [now apply IH|]. rewrite Ek'. intros x mx Hx Hmx.
        apply In_keys_insert_index in Hx. destruct Hx as [->|Hx].
        -- rewrite Hk in Hmx. injection Hmx as <-. exact Hge.
        -- now apply (Hhead x mx).
    + simpl. split; [split; [exact Hrest | now rewrite Ek']|].
      rewrite Hk. intros x mx [<-|Hx] Hmx; [congruence|].
      rewrite (Hhead x Hx) in Hmx. discriminate.
Qed.

Lemma NoDup_keys_insert_index n k v o :
  ~ In k (keys o) -> NoDup (keys o) -> NoDup (keys (insert_index n k v o)).
Proof.
  induction o as [|[k' v'] o IH]; simpl; intros Hnot Hnd.
  - constructor; [intros [] | constructor].
  - inversion Hnd as [|? ? Hk' Hnd']; subst.
    destruct (array_index k') as [m|].
    + destruct (n <? m)%N; simpl.
      * constructor; [exact Hnot | exact Hnd].
      * constructor.
        -- rewrite In_keys_insert_index. intros [->|H]; [apply Hnot; now left | contradiction].
        -- apply IH; [intros H; apply Hnot; now right | exact Hnd'].
    + simpl. constructor; [exact Hnot | exact Hnd].
Qed.

Lemma ordered_keys_snoc (ks : list string) k :
  array_index k = None -> ordered_keys ks -> ordered_keys (ks ++ [k]).
Proof.
  intros Hk. induction ks as [|a ks IH]; simpl.
  - intros _. split; [exact I|]. rewrite Hk. intros ? [].
  - intros [Hrest Hhead]. split; [now apply IH|].
    destruct (array_index a) as [n|].
    + intros x m Hx Hm. apply in_app_or in Hx. destruct Hx as [Hx|[<-|[]]].
      * now apply (Hhead x m).
      * congruence.
    + intros x Hx. apply in_app_or in Hx. destruct Hx as [Hx|[<-|[]]]; auto.
Qed.

Lemma js_ordered_set k v o : js_ordered o -> js_ordered (set k v o).
Proof.
  intros [Hnd Hord]. unfold js_ordered, set.
  destruct (get k o) as [x|] eqn:E.
  - rewrite keys_update. now split.
  - apply get_None_iff in E. destruct (array_index k) as [n|] eqn:Ek.
    + split; [now apply NoDup_keys_insert_index | now apply ordered_keys_insert_index].
    + unfold keys. rewrite map_app. simpl. split.
      * apply NoDup_app; [exact Hnd | constructor; [intros [] | constructor] |].
        intros x Hx [<-|[]]. contradiction.
      * now apply ordered_keys_snoc.
Qed.

Lemma js_ordered_spread o extra : js_ordered o -> js_ordered (spread o extra).
Proof.
  unfold spread. revert o.
  induction extra as [|[k v] extra IH]; simpl; intros o Ho; [exact Ho|].
  apply IH. now apply js_ordered_set.
Qed.

Lemma js_ordered_of_members (members : list (string * V)) :
  js_ordered (of_members members).
Proof.
  apply js_ordered_spread. split; [constructor | exact I].
Qed.

End WithV.

End ObjFacts.

(** ** The ordered page manifest *)

Section PagesManifest.
Context {C : Collaborators}.
Import Obj ObjFacts.

Lemma keys_map_carried (pm : obj jsval) (l : list string) :
  keys (map (carried pm) l) = l.
Proof.
  unfold keys. rewrite map_map. simpl. apply map_id.
Qed.

Lemma fold_static_routes (pm : obj jsval) (ks : list string) (acc : obj jsval) :
  NoDup (keys acc ++ filter (fun r => negb (isDynamicRoute r)) ks) ->
  ordered_keys (keys acc ++ filter (fun r => negb (isDynamicRoute r)) ks) ->
  fold_left
    (fun acc route =>
       if isDynamicRoute route then acc
       else set route (at_key pm route) acc) ks acc
  = acc ++ map (carried pm) (filter (fun r => negb (isDynamicRoute r)) ks).
Proof.
  revert acc. induction ks as [|k ks IH]; simpl; intros acc Hnd Hord.
  - now rewrite app_nil_r.
  - destruct (isDynamicRoute k); simpl in *.
    + now apply IH.
    + assert (Hnot : ~ In k (keys acc)).
      { apply NoDup_remove_2 in Hnd. intros H. apply Hnd.
        apply in_or_app. now left. }
      rewrite set_last; [| exact Hnot | eapply ordered_goes_last; exact Hord].
      rewrite IH.
      * now rewrite <- app_assoc.
      * unfold keys in *. rewrite map_app, <- app_assoc. exact Hnd.
      * unfold keys in *. rewrite map_app, <- app_assoc. exact Hord.
Qed.

Lemma fold_dynamic_routes (pm : obj jsval) (rs : list string) (acc : obj jsval) :
  NoDup (keys acc ++ rs) ->
  (forall r, In r rs -> array_index r = None) ->
  fold_left (fun acc route => set route (at_key pm route) acc) rs acc
  = acc ++ map (carried pm) rs.
Proof.
  revert acc. induction rs as [|r rs IH]; simpl; intros acc Hnd Hidx.
  - now rewrite app_nil_r.
  - assert (Hnot : ~ In r (keys acc)).
    { apply NoDup_remove_2 in Hnd. intros H. apply Hnd.
      apply in_or_app. now left. }
    rewrite set_last; [|exact Hnot|].
    + rewrite IH.
      * now rewrite <- app_assoc.
      * unfold keys in *. rewrite map_app, <- app_assoc. exact Hnd.
      * intros x Hx. apply Hidx. now right.
    + unfold goes_last. now rewrite (Hidx r (or_introl eq_refl)).
Qed.

Lemma get_map_carried (pm : obj jsval) (l : list string) (r : string) :
  In r l -> get r (map (carried pm) l) = Some (at_key pm r).
Proof.
  induction l as [|a l IH]; simpl; [tauto|]. intros H.
  destruct (String.eqb_spec r a) as [->|Hne]; [reflexivity|].
  apply IH. destruct H; [congruence | assumption].
Qed.

Lemma at_key_get (pm : obj jsval) (r : string) :
  In r (keys pm) -> Some (at_key pm r) = get r pm.
Proof.
  intros H. unfold at_key. destruct (In_get_Some _ _ H) as [v ->]. reflexivity.
Qed.

(** The ordered manifest, for a manifest in property order. *)
Lemma sortedPagesManifest_shape (pm : obj jsval) :
  js_ordered pm ->
  Permutation (getSortedRoutes (filter isDynamicRoute (keys pm)))
              (filter isDynamicRoute (keys pm)) ->
  (forall r, In r (keys pm) -> isDynamicRoute r = true -> array_index r = None) ->
  sortedPagesManifest pm
  = map (carried pm)
      (filter (fun r => negb (isDynamicRoute r)) (keys pm) ++
       getSortedRoutes (filter isDynamicRoute (keys pm))).
Proof.
  intros [Hnd Hord] Hperm Hidx. unfold sortedPagesManifest.
  rewrite fold_static_routes; simpl.
  - rewrite fold_dynamic_routes.
    + now rewrite map_app.
    + rewrite keys_map_carried. apply NoDup_app.
      * now apply NoDup_filter.
      * eapply Permutation_NoDup; [apply Permutation_sym, Hperm|].
        now apply NoDup_filter.
      * intros x Hx Hy. apply (Permutation_in _ Hperm) in Hy.
        apply filter_In in Hx. apply filter_In in Hy.
        destruct Hx as [_ Hx]. destruct Hy as [_ Hy]. rewrite Hy in Hx. discriminate.
    + intros r Hr. apply (Permutation_in _ Hperm) in Hr.
      apply filter_In in Hr. now apply Hidx.
  - now apply NoDup_filter.
  - now apply ordered_keys_filter.
Qed.

(** C4. For every pages manifest that [readPagesManifest] reads, given a
    sorter that returns the dynamic routes it was handed, rearranged, and
    dynamic routes that are not array-index names: the routes of the
    result are the non-dynamic routes in discovery order followed by the
    dynamic routes in the sorter's order, and every route keeps the page
    file it had. *)
Theorem readPagesManifest_order (b : Builder) (w : world)
    (members : list (string * jsval)) :
  Fs.lookup (serverlessDir b ++ ["pages-manifest.json"]) (files w)
    = Some (File (CJson (JObj members))) ->
  let pagesManifest := of_members members in
  let discovered := keys pagesManifest in
  Permutation (getSortedRoutes (filter isDynamicRoute discovered))
              (filter isDynamicRoute discovered) ->
  (forall r, In r discovered -> isDynamicRoute r = true -> array_index r = None) ->
  exists sorted,
    readPagesManifest b w = Ok (sorted, w) /\
    keys sorted
      = filter (fun r => negb (isDynamicRoute r)) discovered ++
        getSortedRoutes (filter isDynamicRoute discovered) /\
    (forall r, In r (keys sorted) -> get r sorted = get r pagesManifest).
Proof.
  intros Hfile pagesManifest discovered Hperm Hidx.
  exists (sortedPagesManifest pagesManifest). split; [|split].
  - unfold readPagesManifest, bind, fse.pathExists, fse.readJSON.
    rewrite Hfile. simpl. rewrite Hfile. reflexivity.
  - rewrite sortedPagesManifest_shape;
      [apply keys_map_carried | apply js_ordered_of_members | exact Hperm | exact Hidx].
  - rewrite sortedPagesManifest_shape;
      [| apply js_ordered_of_members | exact Hperm | exact Hidx].
    rewrite keys_map_carried. intros r Hr. rewrite get_map_carried by exact Hr.
    apply at_key_get. apply in_app_or in Hr. destruct Hr as [Hr|Hr].
    + apply filter_In in Hr. tauto.
    + apply (Permutation_in _ Hperm) in Hr. apply filter_In in Hr. tauto.
Qed.

(** C7. [readPagesManifest] is rejected with the configuration message
    exactly when [pages-manifest.json] is absent from the serverless
    directory; it is rejected with no other reason; and the message names
    the manifest and the [serverless] target. *)
Theorem readPagesManifest_rejects_iff_absent (b : Builder) (w : world) :
  (readPagesManifest b w = Err (Rejected pagesManifestMissing) <->
   Fs.lookup (serverlessDir b ++ ["pages-manifest.json"]) (files w) = None) /\
  (forall reason, readPagesManifest b w = Err (Rejected reason) ->
                  reason = pagesManifestMissing) /\
  Str.occursIn "pages-manifest" pagesManifestMissing /\
  Str.occursIn "`next.config.js` target is set to 'serverless'" pagesManifestMissing.
Proof.
  assert (Hcases :
    forall e, readPagesManifest b w = Err e ->
      (e = Rejected pagesManifestMissing /\
       Fs.lookup (serverlessDir b ++ ["pages-manifest.json"]) (files w) = None) \/
      ((forall reason, e <> Rejected reason) /\
       Fs.lookup (serverlessDir b ++ ["pages-manifest.json"]) (files w) <> None)).
  { intros e H. unfold readPagesManifest, bind, fse.pathExists in H.
    destruct (Fs.lookup (serverlessDir b ++ ["pages-manifest.json"]) (files w))
      as [n|] eqn:E; simpl in H.
    - right. split; [|discriminate]. intros reason ->.
      unfold fse.readJSON in H. rewrite E in H.
      destruct n as [[t|v|m]|es]; try discriminate.
      destruct v; simpl in H; discriminate.
    - left. unfold fail in H. injection H as <-. split; reflexivity. }
  split; [split|split; [|split]].
  - intros H. destruct (Hcases _ H) as [[_ Hn]|[Hd _]]; [exact Hn|].
    exfalso. now apply (Hd pagesManifestMissing).
  - intros Hn. unfold readPagesManifest, bind, fse.pathExists. rewrite Hn.
    reflexivity.
  - intros reason H. destruct (Hcases _ H) as [[He _]|[Hd _]].
    + now injection He.
    + exfalso. now apply (Hd reason).
  - exists "", " not found. Check if `next.config.js` target is set to 'serverless'".
    reflexivity.
  - exists "pages-manifest not found. Check if ", "". reflexivity.
Qed.

End PagesManifest.

(** ** The buckets of the manifest compiler *)

Module SpreadFacts.
Import Obj ObjFacts.

Section WithV.
Context {V : Type}.
Implicit Types (o : obj V) (k : string) (v : V).

(** The last assignment to a name decides. *)
Lemma get_spread k o (extra : list (string * V)) :
  get k (spread o extra)
  = match get k (rev extra) with Some v => Some v | None => get k o end.
Proof.
  unfold spread. revert o.
  induction extra as [|[k1 v1] extra IH]; simpl; intros o; [reflexivity|].
  rewrite IH, get_app. destruct (get k (rev extra)); [reflexivity|]. simpl.
  destruct (String.eqb_spec k k1) as [->|Hne].
  - apply get_set_same.
  - apply get_set_other. congruence.
Qed.

Lemma get_In k v (l : list (string * V)) : get k l = Some v -> In (k, v) l.
Proof.
  induction l as [|[k' v'] l IH]; simpl; [discriminate|].
  destruct (String.eqb_spec k k') as [->|Hne].
  - intros [= ->]. now left.
  - intros H. right. now apply IH.
Qed.

(** A name all of whose bindings carry one value. *)
Lemma In_get_agree k v (l : list (string * V)) :
  In (k, v) l -> (forall v', In (k, v') l -> v' = v) -> get k l = Some v.
Proof.
  induction l as [|[k' v'] l IH]; simpl; [tauto|]. intros Hin Hall.
  destruct (String.eqb_spec k k') as [->|Hne].
  - f_equal. apply Hall. now left.
  - apply IH.
    + destruct Hin as [E|Hin]; [congruence | exact Hin].
    + intros x Hx. apply Hall. now right.
Qed.

Lemma NoDup_keys_agree k v v' (l : list (string * V)) :
  NoDup (keys l) -> In (k, v) l -> In (k, v') l -> v' = v.
Proof.
  induction l as [|[k0 v0] l IH]; simpl; [tauto|].
  intros Hnd H1 H2. inversion Hnd as [|? ? Hnot Hnd']; subst.
  destruct H1 as [E1|H1], H2 as [E2|H2].
  - congruence.
  - injection E1 as -> ->. exfalso. apply Hnot.
    change k with (fst (k, v')). now apply in_map.
  - injection E2 as -> ->. exfalso. apply Hnot.
    change k with (fst (k, v)). now apply in_map.
  - now apply IH.
Qed.

End WithV.

(** Assignment commutes with a change of the stored values. *)
Lemma spread_map {V W : Type} (f : V -> W) (o : obj V) (extra : list (string * V)) :
  spread (map (fun e => (fst e, f (snd e))) o)
         (map (fun e => (fst e, f (snd e))) extra)
  = map (fun e => (fst e, f (snd e))) (spread o extra).
Proof.
  assert (Hget : forall k (o : obj V),
             get k (map (fun e => (fst e, f (snd e))) o) = option_map f (get k o)).
  { intros k o'. induction o' as [|[a x] o' IH]; simpl; [reflexivity|].
    destruct (String.eqb k a); [reflexivity | exact IH]. }
  assert (Hset : forall k v (o : obj V),
             set k (f v) (map (fun e => (fst e, f (snd e))) o)
             = map (fun e => (fst e, f (snd e))) (set k v o)).
  { intros k v o'. unfold set. rewrite Hget. destruct (get k o'); simpl.
    - induction o' as [|[a x] o' IH]; simpl; [reflexivity|].
      destruct (String.eqb k a); simpl; [reflexivity | now rewrite IH].
    - destruct (array_index k) as [n|].
      + induction o' as [|[a x] o' IH]; simpl; [reflexivity|].
        destruct (array_index a) as [m|]; [|reflexivity].
        destruct (n <? m)%N; simpl; [reflexivity | now rewrite IH].
      + now rewrite map_app. }
  unfold spread. revert o.
  induction extra as [|[k v] extra IH]; simpl; intros o; [reflexivity|].
  rewrite Hset. apply IH.
Qed.

End SpreadFacts.

Section Buckets.
Context {C : Collaborators}.
Import Obj ObjFacts SpreadFacts.

Lemma groupOf_withGroup (k k' : pageKind) (g : PageGroup) (ms : manifests) :
  groupOf k (withGroup k' g ms) = if kind_eqb k k' then g else groupOf k ms.
Proof. destruct k, k'; reflexivity. Qed.

Lemma kind_eqb_eq (a b : pageKind) : kind_eqb a b = true <-> a = b.
Proof. destruct a, b; simpl; split; congruence. Qed.

Lemma kind_eqb_sym (a b : pageKind) : kind_eqb a b = kind_eqb b a.
Proof. destruct a, b; reflexivity. Qed.

(** What one turn of the loop does, by the kind of the page file. *)
Lemma bucketEntry_kind (ms : manifests) (route pageFile : string) :
  bucketEntry ms route (JStr pageFile)
  = Ok (withGroup (kindOf pageFile)
          (if isDynamicRoute route
           then setDynamic (expressifyDynamicRoute route)
                  {| file := pageFile;
                     regex := pathToRegexStr (expressifyDynamicRoute route) |}
                  (groupOf (kindOf pageFile) ms)
           else setNonDynamic route pageFile (groupOf (kindOf pageFile) ms))
          ms).
Proof.
  unfold bucketEntry, kindOf.
  destruct (isHtmlPage pageFile); [|destruct (isApiPage pageFile)];
    destruct (isDynamicRoute route); reflexivity.
Qed.

(** The loop over typed entries never fails, and each bucket receives
    exactly the entries of its kind, in order. *)
Lemma bucketEntries_groups (l : list (string * string)) (ms0 : manifests) :
  exists ms,
    bucketEntries (map asMember l) ms0 = Ok ms /\
    forall k,
      dynamic (groupOf k ms)
        = spread (dynamic (groupOf k ms0)) (dynamicPart k l) /\
      nonDynamic (groupOf k ms)
        = spread (nonDynamic (groupOf k ms0)) (staticPart k l).
Proof.
  revert ms0. induction l as [|[route f] l IH]; intros ms0.
  - exists ms0. split; [reflexivity|]. intros k. split; reflexivity.
  - cbn [map asMember fst snd bucketEntries]. rewrite bucketEntry_kind.
    match goal with |- context [bucketEntries _ ?m] => destruct (IH m) as (ms & Hrun & Hg) end.
    exists ms. split; [exact Hrun|]. intros k. destruct (Hg k) as [Hd Hs].
    rewrite Hd, Hs, groupOf_withGroup. unfold dynamicPart, staticPart.
    cbn [filter fst snd]. rewrite (kind_eqb_sym (kindOf f) k).
    destruct (kind_eqb k (kindOf f)) eqn:Ek.
    + apply kind_eqb_eq in Ek. subst k.
      destruct (isDynamicRoute route); cbn [negb andb map]; split; reflexivity.
    + rewrite !andb_false_r. split; reflexivity.
Qed.

Lemma In_staticPart (k : pageKind) (l : list (string * string)) route f :
  In (route, f) (staticPart k l) <->
  In (route, f) l /\ isDynamicRoute route = false /\ kindOf f = k.
Proof.
  unfold staticPart. rewrite filter_In. cbn [fst snd].
  rewrite andb_true_iff, negb_true_iff, kind_eqb_eq. tauto.
Qed.

(** At its turn an entry is bound in the bucket of its kind. *)
Lemma bucketEntry_lands (ms : manifests) (route pageFile : string) :
  exists ms',
    bucketEntry ms route (JStr pageFile) = Ok ms' /\
    let bucket := groupOf (kindOf pageFile) ms' in
    if isDynamicRoute route then
      get (expressifyDynamicRoute route) (dynamic bucket)
      = Some {| file := pageFile;
                regex := pathToRegexStr (expressifyDynamicRoute route) |}
    else get route (nonDynamic bucket) = Some pageFile.
Proof.
  eexists. split; [apply bucketEntry_kind|]. cbv zeta.
  rewrite groupOf_withGroup.
  replace (kind_eqb (kindOf pageFile) (kindOf pageFile)) with true
    by (symmetry; now apply kind_eqb_eq).
  destruct (isDynamicRoute route); apply get_set_same.
Qed.

(** The loop of [prepareBuildManifests] on entries whose values are page
    files: at its turn an entry is bound in the bucket of its kind (html
    when the file ends in [.html], api when it starts with [pages/api],
    ssr otherwise), in the dynamic sub-bucket under the expressified route
    with its file and regex when the route is dynamic, in the non-dynamic
    sub-bucket, route to file, otherwise. The loop runs to its end; in
    the manifests it leaves, an entry with a non-dynamic route is bound in
    its bucket, an entry with a dynamic route is bound in its bucket
    unless another dynamic route of the same kind expressifies to the same
    key, and every binding of every bucket comes from an entry of that
    kind and that dynamicness. *)
Lemma bucketEntries_buckets (members : list (string * string))
    (id : string) (logTimes : bool) :
  let pagesManifest := of_members (map asMember members) in
  (forall ms route pageFile,
      exists ms',
        bucketEntry ms route (JStr pageFile) = Ok ms' /\
        let bucket := groupOf (kindOf pageFile) ms' in
        if isDynamicRoute route then
          get (expressifyDynamicRoute route) (dynamic bucket)
          = Some {| file := pageFile;
                    regex := pathToRegexStr (expressifyDynamicRoute route) |}
        else get route (nonDynamic bucket) = Some pageFile) /\
  exists ms,
    bucketEntries (entries pagesManifest) (initialManifests id logTimes) = Ok ms /\
    (forall route pageFile,
        In (route, JStr pageFile) (entries pagesManifest) ->
        let bucket := groupOf (kindOf pageFile) ms in
        if isDynamicRoute route then
          (forall route' pageFile',
              In (route', JStr pageFile') (entries pagesManifest) ->
              isDynamicRoute route' = true ->
              kindOf pageFile' = kindOf pageFile ->
              expressifyDynamicRoute route' = expressifyDynamicRoute route ->
              route' = route) ->
          get (expressifyDynamicRoute route) (dynamic bucket)
            = Some {| file := pageFile;
                      regex := pathToRegexStr (expressifyDynamicRoute route) |}
        else get route (nonDynamic bucket) = Some pageFile) /\
    (forall k route pageFile,
        get route (nonDynamic (groupOf k ms)) = Some pageFile ->
        In (route, JStr pageFile) (entries pagesManifest) /\
        isDynamicRoute route = false /\ kindOf pageFile = k) /\
    (forall k key e,
        get key (dynamic (groupOf k ms)) = Some e ->
        exists route,
          In (route, JStr (file e)) (entries pagesManifest) /\
          isDynamicRoute route = true /\ kindOf (file e) = k /\
          key = expressifyDynamicRoute route /\
          regex e = pathToRegexStr key).
Proof.
  intros pagesManifest. split; [apply bucketEntry_lands|].
  assert (Hpm : pagesManifest = map asMember (of_members members)).
  { unfold pagesManifest, of_members.
    change (@nil (string * jsval)) with (map asMember []).
    apply (spread_map JStr). }
  pose proof (js_ordered_of_members members) as [Hnd _].
  set (typed := of_members members) in *.
  assert (Hin : forall route pageFile,
             In (route, JStr pageFile) (entries pagesManifest) <->
             In (route, pageFile) typed).
  { intros route pageFile. unfold entries. rewrite Hpm, in_map_iff. split.
    - intros ([r f] & [= <- <-] & H). exact H.
    - intros H. exists (route, pageFile). now split. }
  destruct (bucketEntries_groups typed (initialManifests id logTimes))
    as (ms & Hrun & Hg).
  exists ms. split; [unfold entries; rewrite Hpm; exact Hrun|].
  assert (Hinit : forall k, groupOf k (initialManifests id logTimes) = emptyGroup)
    by (intros []; reflexivity).
  split; [|split].
  - intros route pageFile Hentry bucket. apply Hin in Hentry.
    destruct (Hg (kindOf pageFile)) as [Hd Hs]. fold bucket in Hd, Hs.
    rewrite Hinit in Hd, Hs. cbn [emptyGroup dynamic nonDynamic] in Hd, Hs.
    destruct (isDynamicRoute route) eqn:Edyn.
    + intros Hfree. rewrite Hd, get_spread.
      rewrite (@In_get_agree _ (expressifyDynamicRoute route)
                 {| file := pageFile;
                    regex := pathToRegexStr (expressifyDynamicRoute route) |}).
      * reflexivity.
      * apply -> in_rev. unfold dynamicPart. apply in_map_iff.
        exists (route, pageFile). split; [reflexivity|].
        apply filter_In. cbn [fst snd]. rewrite Edyn.
        split; [exact Hentry|]. apply andb_true_iff. split; [reflexivity|].
        now apply kind_eqb_eq.
      * intros e He. apply in_rev in He. unfold dynamicPart in He.
        apply in_map_iff in He. destruct He as ([r f] & [= Hk <-] & Hf).
        apply filter_In in Hf. cbn [fst snd] in *. destruct Hf as [Hf Hc].
        apply andb_true_iff in Hc. destruct Hc as [Hr Hkind].
        apply kind_eqb_eq in Hkind.
        assert (r = route) as ->.
        { apply (Hfree r f); auto. now apply Hin. }
        rewrite (@NoDup_keys_agree _ _ _ _ _ Hnd Hentry Hf). reflexivity.
    + rewrite Hs, get_spread. rewrite (@In_get_agree _ route pageFile).
      * reflexivity.
      * apply -> in_rev. apply In_staticPart. auto.
      * intros f Hf. apply in_rev in Hf. apply In_staticPart in Hf.
        destruct Hf as [Hf _]. exact (@NoDup_keys_agree _ _ _ _ _ Hnd Hentry Hf).
  - intros k route pageFile Hget. destruct (Hg k) as [_ Hs].
    rewrite Hs, Hinit, get_spread in Hget. cbn [emptyGroup nonDynamic get] in Hget.
    destruct (get route (rev (staticPart k typed))) as [f|] eqn:E; [|discriminate].
    injection Hget as ->. apply get_In, in_rev, In_staticPart in E.
    destruct E as (H1 & H2 & H3). rewrite Hin. auto.
  - intros k key e Hget. destruct (Hg k) as [Hd _].
    rewrite Hd, Hinit, get_spread in Hget. cbn [emptyGroup dynamic get] in Hget.
    destruct (get key (rev (dynamicPart k typed))) as [x|] eqn:E; [|discriminate].
    injection Hget as ->. apply get_In, in_rev in E. unfold dynamicPart in E.
    apply in_map_iff in E. destruct E as ([r f] & [= <- <-] & Hf).
    apply filter_In in Hf. cbn [fst snd] in *. destruct Hf as [Hf Hc].
    apply andb_true_iff in Hc. destruct Hc as [Hr Hkind].
    apply kind_eqb_eq in Hkind. exists r. rewrite Hin. cbn [file regex]. auto.
Qed.

End Buckets.

(** ** Running monadic code *)

Module MFacts.

Lemma bind_Ok {A B} (m : M A) (k : A -> M B) (w : world) (r : B * world) :
  bind m k w = Ok r -> exists a w1, m w = Ok (a, w1) /\ k a w1 = Ok r.
Proof.
  unfold bind. destruct (m w) as [[a w1]|e]; [|discriminate].
  intros H. now exists a, w1.
Qed.

Lemma all_app (ops1 ops2 : list (M unit)) (w : world) :
  all (ops1 ++ ops2) w
  = match all ops1 w with
    | Ok (_, w1) => all ops2 w1
    | Err e => Err e
    end.
Proof.
  revert w. induction ops1 as [|op ops1 IH]; intros w; simpl; [reflexivity|].
  unfold bind. destruct (op w) as [[[] w1]|e]; [apply IH | reflexivity].
Qed.

Lemma world_eta (w : world) :
  {| files := files w; configCalls := configCalls w |} = w.
Proof. now destruct w. Qed.

(** Operations that only read. *)
Lemma pathExists_Ok (p : path) (w : world) (r : bool * world) :
  fse.pathExists p w = Ok r ->
  r = (match Fs.lookup p (files w) with Some _ => true | None => false end, w).
Proof. unfold fse.pathExists. now intros [= <-]. Qed.

Lemma readFile_Ok (p : path) (w : world) (r : string * world) :
  fse.readFile p w = Ok r -> snd r = w.
Proof.
  unfold fse.readFile. destruct (Fs.lookup p (files w)) as [[[t|v|m]|es]|];
    try discriminate. now intros [= <-].
Qed.

Lemma readJSON_Ok (p : path) (w : world) (r : jsval * world) :
  fse.readJSON p w = Ok r -> snd r = w.
Proof.
  unfold fse.readJSON. destruct (Fs.lookup p (files w)) as [[[t|v|m]|es]|];
    try discriminate. now intros [= <-].
Qed.

Lemma expectObject_Ok (v : jsval) (w : world) (r : Obj.obj jsval * world) :
  expectObject v w = Ok r -> snd r = w.
Proof. destruct v; try discriminate. now intros [= <-]. Qed.

Lemma require_Ok (p : path) (w : world) (r : moduleExport * world) :
  require p w = Ok r -> snd r = w.
Proof.
  unfold require. destruct (Fs.lookup p (files w)) as [[[t|v|m]|es]|];
    try discriminate; now intros [= <-].
Qed.

End MFacts.

Section TrailingSlash.
Context {C : Collaborators}.
Import MFacts.

Lemma readPagesManifest_Ok (b : Builder) (w : world) (r : Obj.obj jsval * world) :
  readPagesManifest b w = Ok r -> snd r = w.
Proof.
  unfold readPagesManifest. intros H.
  apply bind_Ok in H. destruct H as (ex & w1 & H1 & H).
  apply pathExists_Ok in H1. injection H1 as -> ->.
  destruct (negb _); [discriminate|].
  apply bind_Ok in H. destruct H as (json & w2 & H2 & H).
  apply readJSON_Ok in H2. simpl in H2. subst w2.
  apply bind_Ok in H. destruct H as (pm & w3 & H3 & H).
  apply expectObject_Ok in H3. simpl in H3. subst w3.
  unfold ret in H. now injection H as <-.
Qed.

Lemma readPublicFiles_Ok (b : Builder) (w : world) (r : list string * world) :
  readPublicFiles b w = Ok r -> snd r = w.
Proof.
  unfold readPublicFiles. intros H.
  apply bind_Ok in H. destruct H as (ex & w1 & H1 & H).
  apply pathExists_Ok in H1. injection H1 as -> ->.
  destruct (Fs.lookup _ _); [|unfold ret in H]; now injection H as <-.
Qed.

Lemma bucketEntries_trailingSlash (l : list (string * jsval)) (ms ms' : manifests) :
  bucketEntries l ms = Ok ms' ->
  trailingSlash (fst ms') = trailingSlash (fst ms).
Proof.
  revert ms. induction l as [|[route v] l IH]; simpl; intros ms H.
  - now injection H as <-.
  - destruct (bucketEntry ms route v) as [ms1|e] eqn:E; [|discriminate].
    rewrite (IH _ H). unfold bucketEntry in E.
    destruct v; try discriminate.
    destruct (isHtmlPage s); [|destruct (isApiPage s)];
      destruct (isDynamicRoute route); injection E as <-; reflexivity.
Qed.

(** The block that reads [next.config.js], against the stated policy. *)
Lemma readNextConfig_policy (b : Builder)
    (d d' : OriginRequestDefaultHandlerManifest) (w w' : world) :
  trailingSlash d = JBool false ->
  readNextConfig b d w = Ok (d', w') ->
  trailingSlash d' = trailingSlashPolicy (nextConfigOf b w) /\
  files w' = files w /\
  configCalls w' = configCalls w ++ configInvocations (nextConfigOf b w).
Proof.
  intros Hd. unfold readNextConfig, nextConfigOf, bind, fse.pathExists, require.
  destruct (Fs.lookup (nextConfigDir b ++ ["next.config.js"]) (files w))
    as [[[t|v|m]|es]|] eqn:E; simpl; try rewrite E; try discriminate.
  - unfold ret. intros [= <- <-]. simpl. rewrite app_nil_r.
    destruct v; simpl; auto.
  - destruct m as [v|f]; simpl.
    + unfold ret. intros [= <- <-]. simpl. rewrite app_nil_r.
      destruct v; simpl; auto.
    + unfold ret. intros [= <- <-]. simpl. auto.
  - unfold ret. intros [= <- <-]. simpl. rewrite app_nil_r. auto.
Qed.

(** [prepareBuildManifests], up to the block that reads the configuration:
    the steps before it leave the world as it is and the flag at [false]. *)
Lemma prepareBuildManifests_steps (b : Builder) (w w' : world) (ms : manifests) :
  prepareBuildManifests b w = Ok (ms, w') ->
  exists d0, trailingSlash d0 = JBool false /\
             readNextConfig b d0 w = Ok (fst ms, w').
Proof.
  unfold prepareBuildManifests. intros H.
  apply bind_Ok in H. destruct H as (pm & w1 & H1 & H).
  apply readPagesManifest_Ok in H1. simpl in H1. subst w1.
  apply bind_Ok in H. destruct H as (id & w2 & H2 & H).
  apply readFile_Ok in H2. simpl in H2. subst w2.
  destruct (bucketEntries _ _) as [ms0|e] eqn:Eb; [|discriminate].
  apply bucketEntries_trailingSlash in Eb. simpl in Eb.
  apply bind_Ok in H. destruct H as (pfs & w3 & H3 & H).
  apply readPublicFiles_Ok in H3. simpl in H3. subst w3.
  apply bind_Ok in H. destruct H as (d' & w4 & H4 & H).
  unfold ret in H. injection H as <- <-.
  eexists. split; [|exact H4]. exact Eb.
Qed.

(** [prepareBuildManifests] writes no file. *)
Lemma prepareBuildManifests_files (b : Builder) (w w' : world) (ms : manifests) :
  prepareBuildManifests b w = Ok (ms, w') -> files w' = files w.
Proof.
  intros H. apply prepareBuildManifests_steps in H. destruct H as (d0 & Hd & H).
  now destruct (@readNextConfig_policy b d0 (fst ms) w w' Hd H) as (_ & Hf & _).
Qed.

(** C2. When [prepareBuildManifests] succeeds, the trailing-slash flag of
    the manifest is the [trailingSlash] field of the configuration object,
    or of the result of the one call of the configuration function with
    the production phase and an empty options object, and [false] when the
    file or the field is absent; the file tree is unchanged and the
    configuration function has been called exactly that once. *)
Theorem prepareBuildManifests_trailingSlash (b : Builder) (w w' : world)
    (ms : manifests) :
  prepareBuildManifests b w = Ok (ms, w') ->
  trailingSlash (fst ms) = trailingSlashPolicy (nextConfigOf b w) /\
  files w' = files w /\
  configCalls w' = configCalls w ++ configInvocations (nextConfigOf b w).
Proof.
  intros H. destruct (@prepareBuildManifests_steps b w w' ms H) as (d0 & Hflag & Hconfig).
  unfold readNextConfig, bind, fse.pathExists, require in Hconfig.
  unfold nextConfigOf.
  destruct (Fs.lookup (nextConfigDir b ++ ["next.config.js"]) (files w))
    as [[[t|v|m]|es]|] eqn:E; simpl in Hconfig; try rewrite E in Hconfig;
    try discriminate Hconfig.
  - (* a JSON document in place of the module *)
    unfold ret in Hconfig. injection Hconfig as Hd <-. rewrite <- Hd. simpl.
    rewrite app_nil_r. destruct v; simpl; auto.
  - destruct m as [v|f]; simpl in Hconfig.
    + (* a module that exports a value *)
      unfold ret in Hconfig. injection Hconfig as Hd <-. rewrite <- Hd. simpl.
      rewrite app_nil_r. destruct v; simpl; auto.
    + (* a module that exports a function: one call *)
      unfold ret in Hconfig. injection Hconfig as Hd <-. rewrite <- Hd. simpl. auto.
  - (* no configuration file *)
    unfold ret in Hconfig. injection Hconfig as Hd <-. rewrite <- Hd. simpl.
    rewrite app_nil_r. auto.
Qed.

End TrailingSlash.

(** ** Facts about the file tree *)

Module FsFacts.
Import Fs Obj ObjFacts.

Lemma is_prefix_app (p r : path) : is_prefix p (p ++ r) = true.
Proof. induction p as [|s p IH]; simpl; [reflexivity|]. now rewrite String.eqb_refl. Qed.

Lemma is_prefix_spec (p q : path) :
  is_prefix p q = true <-> exists r, q = p ++ r.
Proof.
  revert q. induction p as [|s p IH]; intros q; simpl.
  - split; [intros _; now exists q | reflexivity].
  - destruct q as [|t q].
    + split; [intros H; discriminate H | intros [r Hr]; simpl in Hr; discriminate Hr].
    + rewrite andb_true_iff, IH. split.
      * intros [Hs [r ->]]. apply String.eqb_eq in Hs. subst. now exists r.
      * intros [r [= -> ->]]. split; [apply String.eqb_refl | now exists r].
Qed.

(** Two branches that part at one directory. *)
Lemma apart_fork (base : path) (a b : string) (r1 r2 : path) :
  a <> b -> apart (base ++ a :: r1) (base ++ b :: r2).
Proof.
  intros Hne. unfold apart. induction base as [|s base IH]; simpl.
  - destruct (String.eqb_spec a b); [contradiction|].
    destruct (String.eqb_spec b a); [congruence|]. now split.
  - now rewrite String.eqb_refl.
Qed.

(** What lies apart from a directory lies apart from all below it. *)
Lemma apart_below (d q : path) (r : path) : apart d q -> apart (d ++ r) q.
Proof.
  unfold apart. intros [H1 H2]. split.
  - destruct (is_prefix (d ++ r) q) eqn:E; [|reflexivity].
    apply is_prefix_spec in E. destruct E as [x ->].
    rewrite <- app_assoc, is_prefix_app in H1. discriminate.
  - destruct (is_prefix q (d ++ r)) eqn:E; [|reflexivity].
    apply is_prefix_spec in E. destruct E as [x Hx].
    (* q and d are both prefixes of d ++ r *)
    revert q x Hx H1 H2. induction d as [|s d IH]; intros q x Hx H1 H2.
    + simpl in H1. discriminate H1.
    + destruct q as [|t q]; [simpl in H2; discriminate H2|].
      simpl in Hx. injection Hx as -> Hx. simpl in H1, H2.
      rewrite String.eqb_refl in H1, H2. simpl in H1, H2. eapply IH; eauto.
Qed.

Lemma lookup_put_same (p : path) (new n n' : node) :
  put p new n = Some n' -> lookup p n' = Some new.
Proof.
  revert n n'. induction p as [|s p IH]; intros n n'; simpl.
  - now intros [= <-].
  - destruct n as [c|es]; [discriminate|].
    destruct (get s es) as [child|] eqn:E.
    + destruct (put p new child) as [c'|] eqn:Ep; [|discriminate].
      intros [= <-]. simpl. rewrite get_update_same by (eapply get_Some_In, E).
      eapply IH, Ep.
    + destruct (put p new (Dir [])) as [c'|] eqn:Ep; [|discriminate].
      intros [= <-]. simpl. rewrite get_app, E. simpl.
      rewrite String.eqb_refl. eapply IH, Ep.
Qed.

Lemma lookup_put_apart (p q : path) (new n n' : node) :
  put p new n = Some n' -> apart p q -> lookup q n' = lookup q n.
Proof.
  unfold apart. revert q n n'.
  induction p as [|s p IH]; intros q n n' Hput [H1 H2]; [discriminate|].
  destruct q as [|t q]; [discriminate|]. simpl in *.
  destruct n as [c|es]; [discriminate|].
  destruct (String.eqb_spec s t) as [<-|Hne].
  - rewrite String.eqb_refl in H2. simpl in H1, H2.
    destruct (get s es) as [child|] eqn:E.
    + destruct (put p new child) as [c'|] eqn:Ep; [|discriminate].
      injection Hput as <-. simpl.
      rewrite get_update_same by (eapply get_Some_In, E).
      eapply IH; eauto.
    + destruct (put p new (Dir [])) as [c'|] eqn:Ep; [|discriminate].
      injection Hput as <-. simpl. rewrite get_app, E. simpl.
      rewrite String.eqb_refl. rewrite (IH q (Dir []) c' Ep (conj H1 H2)).
      destruct q; [discriminate | reflexivity].
  - destruct (get s es) as [child|] eqn:E.
    + destruct (put p new child) as [c'|]; [|discriminate].
      injection Hput as <-. simpl. now rewrite get_update_other.
    + destruct (put p new (Dir [])) as [c'|]; [|discriminate].
      injection Hput as <-. simpl. rewrite get_app.
      destruct (get t es); [reflexivity|]. simpl.
      destruct (String.eqb_spec t s); [congruence | reflexivity].
Qed.

Lemma get_remove_other (s t : string) (es : list (string * node)) :
  s <> t -> get t (Obj.remove s es) = get t es.
Proof.
  intros Hne. unfold Obj.remove. induction es as [|[a x] es IH]; simpl; [reflexivity|].
  destruct (String.eqb_spec s a) as [<-|Hsa]; simpl.
  - destruct (String.eqb_spec t s); [congruence | exact IH].
  - destruct (String.eqb t a); [reflexivity | exact IH].
Qed.

Lemma get_map_entry (s t : string) (f : node -> node) (es : list (string * node)) :
  get t (map (fun e => if String.eqb s (fst e) then (fst e, f (snd e)) else e) es)
  = if String.eqb s t then option_map f (get t es) else get t es.
Proof.
  induction es as [|[a x] es IH]; simpl.
  - now destruct (String.eqb s t).
  - destruct (String.eqb_spec s a) as [<-|Hsa]; simpl.
    + destruct (String.eqb_spec t s) as [->|Hts].
      * now rewrite String.eqb_refl.
      * exact IH.
    + destruct (String.eqb_spec t a) as [->|Hta].
      * destruct (String.eqb_spec s a); [contradiction | reflexivity].
      * exact IH.
Qed.

Lemma lookup_Dir (s : string) (q : path) (es : list (string * node)) :
  lookup (s :: q) (Dir es)
  = match get s es with Some child => lookup q child | None => None end.
Proof. reflexivity. Qed.

Lemma remove_deeper (s s' : string) (p : path) (es : list (string * node)) :
  Fs.remove (s :: s' :: p) (Dir es)
  = Dir (map (fun e => if String.eqb s (fst e)
                       then (fst e, Fs.remove (s' :: p) (snd e)) else e) es).
Proof. reflexivity. Qed.

Lemma lookup_remove_apart (p q : path) (n : node) :
  apart p q -> lookup q (Fs.remove p n) = lookup q n.
Proof.
  unfold apart. revert q n.
  induction p as [|s p IH]; intros q n [H1 H2]; [discriminate|].
  destruct q as [|t q]; [discriminate|]. simpl in H1, H2.
  destruct n as [c|es]; [now destruct p|].
  destruct (String.eqb_spec s t) as [<-|Hne].
  - rewrite String.eqb_refl in H2. simpl in H1, H2.
    destruct p as [|s' p]; [discriminate|].
    rewrite remove_deeper, !lookup_Dir, get_map_entry, String.eqb_refl.
    destruct (get s es) as [child|]; cbn [option_map]; [|reflexivity].
    apply IH. now split.
  - destruct p as [|s' p].
    + simpl. now rewrite get_remove_other.
    + rewrite remove_deeper, !lookup_Dir, get_map_entry.
      destruct (String.eqb_spec s t); [contradiction | reflexivity].
Qed.

(** Removal of one entry of a directory. *)
Lemma lookup_remove_child (p : path) (x : string) (n : node)
    (es : list (string * node)) :
  lookup p n = Some (Dir es) ->
  lookup p (Fs.remove (p ++ [x]) n) = Some (Dir (Obj.remove x es)).
Proof.
  revert n. induction p as [|s p IH]; intros n.
  - simpl. now intros [= ->].
  - destruct n as [c|es0]; [discriminate|]. rewrite lookup_Dir.
    destruct (get s es0) as [child|] eqn:E; [|discriminate]. intros H.
    change ((s :: p) ++ [x]) with (s :: (p ++ [x])).
    assert (Hc : exists y r, p ++ [x] = y :: r) by (destruct p; simpl; eauto).
    destruct Hc as (y & r & Ep). rewrite Ep.
    rewrite remove_deeper, lookup_Dir, get_map_entry, String.eqb_refl, E.
    cbn [option_map]. rewrite <- Ep. now apply IH.
Qed.

End FsFacts.

(** ** The page bundle: copy filter, routes manifest, clean-up *)

Section PageBundle.
Context {C : Collaborators}.
Import MFacts FsFacts.



Lemma all_remove (d : path) (items : list string) (w : world) :
  all (map (fun item => fse.remove (d ++ [item])) items) w
  = Ok (tt, with_files w
              (fold_left (fun n item => Fs.remove (d ++ [item]) n) items (files w))).
Proof.
  revert w. induction items as [|x items IH]; intros w; simpl.
  - unfold ret, with_files. now rewrite world_eta.
  - unfold bind, fse.remove. rewrite IH. reflexivity.
Qed.

Lemma lookup_fold_remove (d : path) (items : list string) (n : node)
    (es : list (string * node)) :
  Fs.lookup d n = Some (Dir es) ->
  Fs.lookup d (fold_left (fun n item => Fs.remove (d ++ [item]) n) items n)
  = Some (Dir (fold_left (fun es item => Obj.remove item es) items es)).
Proof.
  revert n es. induction items as [|x items IH]; intros n es H; simpl; [exact H|].
  apply IH. now apply lookup_remove_child.
Qed.

Lemma lookup_fold_remove_apart (d q : path) (items : list string) (n : node) :
  Fs.apart d q ->
  Fs.lookup q (fold_left (fun n item => Fs.remove (d ++ [item]) n) items n)
  = Fs.lookup q n.
Proof.
  intros Hq. revert n. induction items as [|x items IH]; intros n; simpl;
    [reflexivity|].
  rewrite IH. apply lookup_remove_apart. now apply apart_below.
Qed.

Lemma fold_remove_filter (items : list string) (es : list (string * node)) :
  fold_left (fun es item => Obj.remove item es) items es
  = filter (fun e => negb (existsb (fun item => String.eqb item (fst e)) items)) es.
Proof.
  revert es. induction items as [|x items IH]; intros es; simpl.
  - induction es as [|e es IHes]; simpl; [reflexivity | now rewrite <- IHes].
  - rewrite IH. unfold Obj.remove. induction es as [|e es IHes]; simpl; [reflexivity|].
    destruct (String.eqb x (fst e)); simpl; [exact IHes|].
    destruct (existsb _ items); simpl; [exact IHes | now rewrite IHes].
Qed.

Lemma keep_cache (es : list (string * node)) :
  filter (fun e =>
            negb (existsb (fun item => String.eqb item (fst e))
                    (filter (fun fileItem => negb (String.eqb fileItem "cache"))
                            (Obj.keys es)))) es
  = filter (fun e => String.eqb (fst e) "cache") es.
Proof.
  apply filter_ext_in. intros e He.
  destruct (String.eqb_spec (fst e) "cache") as [E|E].
  - destruct (existsb _ _) eqn:Ex; [|reflexivity].
    apply existsb_exists in Ex. destruct Ex as (x & Hx & Hxe).
    apply filter_In in Hx. destruct Hx as [_ Hx].
    apply String.eqb_eq in Hxe. subst x. rewrite E in Hx. discriminate.
  - apply negb_false_iff, existsb_exists. exists (fst e). split.
    + apply filter_In. split; [now apply in_map|].
      apply negb_true_iff, String.eqb_neq, E.
    + apply String.eqb_refl.
Qed.

(** C10. [cleanupDotNext] leaves a world without a [.next] directory as
    it is; where [.next] is a directory it succeeds, the entries named
    [cache] stay as they were, every other entry is gone, and nothing
    outside the branch of [.next] changes. *)
Theorem cleanupDotNext_keeps_cache (b : Builder) (w : world) :
  (Fs.lookup (dotNextDir b) (files w) = None ->
   cleanupDotNext b w = Ok (tt, w)) /\
  (forall es,
      Fs.lookup (dotNextDir b) (files w) = Some (Dir es) ->
      exists w',
        cleanupDotNext b w = Ok (tt, w') /\
        Fs.lookup (dotNextDir b) (files w')
          = Some (Dir (filter (fun e => String.eqb (fst e) "cache") es)) /\
        configCalls w' = configCalls w /\
        (forall q, Fs.apart (dotNextDir b) q ->
                   Fs.lookup q (files w') = Fs.lookup q (files w))).
Proof.
  split.
  - intros H. unfold cleanupDotNext, bind, fse.pathExists. now rewrite H.
  - intros es H. eexists. split; [|split; [|split]].
    + unfold cleanupDotNext, bind, fse.pathExists, fse.readdir.
      rewrite H. simpl. rewrite H. apply all_remove.
    + cbn [files with_files]. rewrite (lookup_fold_remove _ _ _ H).
      now rewrite fold_remove_filter, keep_cache.
    + reflexivity.
    + intros q Hq. cbn [files with_files]. now apply lookup_fold_remove_apart.
Qed.

End PageBundle.

(** ** The two bundles *)

Section Bundles.
Context {C : Collaborators}.
Import MFacts FsFacts.

Lemma touches_only_below (d r : path) (op : M unit) :
  touches_only (d ++ r) op -> touches_only d op.
Proof.
  intros H w w' Hop q Hq. apply (H w w' Hop). now apply apart_below.
Qed.

Lemma touches_only_ret (d : path) : touches_only d (ret tt).
Proof. intros w w' [= <-] q _. reflexivity. Qed.

Lemma touches_only_all (d : path) (ops : list (M unit)) :
  Forall (touches_only d) ops -> touches_only d (all ops).
Proof.
  induction 1 as [|op ops Hop _ IH]; [apply touches_only_ret|].
  intros w w' H q Hq. simpl in H. apply bind_Ok in H.
  destruct H as ([] & w1 & H1 & H2).
  rewrite (IH _ _ H2 q Hq). exact (Hop _ _ H1 q Hq).
Qed.

Lemma writeFile_Ok (p : path) (c : content) (w w' : world) :
  fse.writeFile p c w = Ok (tt, w') ->
  Fs.put p (File c) (files w) = Some (files w').
Proof.
  unfold fse.writeFile. destruct p as [|s rest]; [discriminate|].
  destruct (Fs.lookup (removelast (s :: rest)) (files w)) as [[x|es]|];
    try discriminate.
  destruct (Fs.lookup (s :: rest) (files w)) as [[x|es']|]; try discriminate;
    (destruct (Fs.put _ _ _) as [n|]; [|discriminate]; now intros [= <-]).
Qed.

Lemma writeFile_lands (p : path) (c : content) (w w' : world) :
  fse.writeFile p c w = Ok (tt, w') -> Fs.lookup p (files w') = Some (File c).
Proof. intros H. eapply lookup_put_same, writeFile_Ok, H. Qed.

Lemma touches_only_writeFile (p : path) (c : content) :
  touches_only p (fse.writeFile p c).
Proof.
  intros w w' H q Hq. eapply lookup_put_apart; [eapply writeFile_Ok, H | exact Hq].
Qed.

Lemma prune_admitted (flt : string -> bool) (p : path) (n : node) :
  flt (Fs.render p) = true -> exists kept, Fs.prune flt p n = Some kept.
Proof. intros H. destruct n; simpl; rewrite H; eauto. Qed.

Lemma copy_Ok (src dst : path) (flt : option (string -> bool)) (w w' : world) :
  fse.copy src dst flt w = Ok (tt, w') ->
  w' = w \/ exists merged, Fs.put dst merged (files w) = Some (files w').
Proof.
  unfold fse.copy. destruct (Fs.lookup src (files w)) as [n|]; [|discriminate].
  destruct (Fs.is_prefix src dst); [discriminate|].
  destruct (Fs.prune _ src n) as [kept|]; [|intros [= <-]; now left].
  destruct (Fs.merge kept _) as [merged|]; [|discriminate].
  destruct (Fs.put dst merged (files w)) as [r|] eqn:E; [|discriminate].
  intros [= <-]. right. now exists merged.
Qed.

Lemma touches_only_copy (src dst : path) (flt : option (string -> bool)) :
  touches_only dst (fse.copy src dst flt).
Proof.
  intros w w' H q Hq. apply copy_Ok in H. destruct H as [->|[m Hm]]; [reflexivity|].
  eapply lookup_put_apart; eauto.
Qed.

(** A copy whose source the filter admits leaves something at the
    destination. *)
Lemma copy_lands (src dst : path) (flt : option (string -> bool)) (w w' : world) :
  fse.copy src dst flt w = Ok (tt, w') ->
  match flt with Some f => f (Fs.render src) = true | None => True end ->
  exists n, Fs.lookup dst (files w') = Some n.
Proof.
  unfold fse.copy. intros H Hflt.
  destruct (Fs.lookup src (files w)) as [n|]; [|discriminate].
  destruct (Fs.is_prefix src dst); [discriminate|].
  destruct (@prune_admitted
              (match flt with Some f => f | None => fun _ => true end) src n)
    as [kept Hk].
  { destruct flt; [exact Hflt | reflexivity]. }
  rewrite Hk in H.
  destruct (Fs.merge kept _) as [merged|]; [|discriminate].
  destruct (Fs.put dst merged (files w)) as [r|] eqn:E; [|discriminate].
  injection H as <-. exists merged. cbn [files with_files].
  eapply lookup_put_same, E.
Qed.

Lemma touches_only_routes (source destination : path) :
  touches_only destination (processAndCopyRoutesManifest source destination).
Proof.
  intros w w' H q Hq. unfold processAndCopyRoutesManifest in H.
  apply bind_Ok in H. destruct H as (rm & w1 & H1 & H).
  unfold requireObject in H1. apply bind_Ok in H1.
  destruct H1 as (m & w2 & Hreq & H1).
  pose proof (require_Ok _ _ Hreq) as Hw. simpl in Hw. subst w2.
  destruct m as [v|f]; [|discriminate].
  pose proof (expectObject_Ok _ _ H1) as Hw. simpl in Hw. subst w1.
  destruct (Obj.get "redirects" rm) as [[| | | | |rs|]|]; try discriminate.
  exact (@touches_only_writeFile _ _ _ _ H q Hq).
Qed.

Lemma touches_only_override (b : Builder) (codeDir : string) :
  touches_only (outputDir b ++ [codeDir]) (copyHandlerOverride b codeDir).
Proof.
  unfold copyHandlerOverride. destruct (handler (buildOptions b)) as [h|].
  - destruct (String.eqb h ""); [apply touches_only_ret|].
    apply touches_only_below with (r := segments h).
    rewrite <- app_assoc. apply touches_only_copy.
  - apply touches_only_ret.
Qed.

Lemma touches_only_dependencies (b : Builder) (fileList : list string)
    (reasons : string -> option string) (codeDir : string) :
  Forall (touches_only (outputDir b ++ [codeDir]))
         (copyLambdaHandlerDependencies b fileList reasons codeDir).
Proof.
  unfold copyLambdaHandlerDependencies. apply Forall_forall. intros op Hop.
  apply in_map_iff in Hop. destruct Hop as (f & <- & _).
  match goal with
  | |- touches_only _ (fse.copy _ (_ ++ _ ++ ?tail) _) =>
      apply touches_only_below with (r := tail)
  end.
  rewrite <- app_assoc. apply touches_only_copy.
Qed.

Lemma apart_siblings (base : path) (d x y : string) (rx ry : path) :
  x <> y -> Fs.apart (base ++ d :: x :: rx) (base ++ d :: y :: ry).
Proof.
  intros Hne. change (d :: x :: rx) with ([d] ++ x :: rx).
  change (d :: y :: ry) with ([d] ++ y :: ry).
  rewrite !app_assoc. now apply apart_fork.
Qed.

End Bundles.

Section BundlesEmitted.
Context {C : Collaborators}.
Import MFacts FsFacts.

Lemma requireObject_Ok (p : path) (w : world) (r : Obj.obj jsval * world) :
  requireObject p w = Ok r -> snd r = w.
Proof.
  unfold requireObject. intros H. apply bind_Ok in H.
  destruct H as (m & w1 & H1 & H). apply require_Ok in H1. simpl in H1. subst w1.
  destruct m; [|discriminate]. now apply expectObject_Ok in H.
Qed.

Lemma name_neq (x y : string) : String.eqb x y = false -> x <> y.
Proof. apply String.eqb_neq. Qed.

Ltac step H a w1 H1 :=
  apply bind_Ok in H; destruct H as (a & w1 & H1 & H).

Ltac siblings := apply apart_siblings, name_neq; reflexivity.

Ltac frame lem H F :=
  pose proof lem as F; unfold touches_only in F;
  first [ specialize (F _ _ _ _ _ _ H) | specialize (F _ _ _ _ _ H)
        | specialize (F _ _ _ _ H) | specialize (F _ _ _ H)
        | specialize (F _ _ H) ].

(** What a successful [buildDefaultLambda] leaves in the page bundle. *)
Lemma buildDefaultLambda_emits (b : Builder)
    (d : OriginRequestDefaultHandlerManifest) (w w' : world) :
  buildDefaultLambda b d w = Ok (tt, w') ->
  Fs.lookup (outputDir b ++ [DEFAULT_LAMBDA_CODE_DIR; "manifest.json"]) (files w')
    = Some (File (CJson (Json.ofDefaultManifest d))) /\
  (exists n,
      Fs.lookup (outputDir b ++ [DEFAULT_LAMBDA_CODE_DIR; "index.js"]) (files w')
      = Some n) /\
  (exists prerenderManifest,
      requireObject (dotNextDir b ++ ["prerender-manifest.json"]) w
        = Ok (prerenderManifest, w) /\
      (pagesCopyFilter b
         (match Fs.lookup (serverlessDir b ++ ["pages"; "api"]) (files w) with
          | Some _ => true
          | None => false
          end)
         prerenderManifest (Fs.render (serverlessDir b ++ ["pages"])) = true ->
       exists n,
         Fs.lookup (outputDir b ++ [DEFAULT_LAMBDA_CODE_DIR; "pages"]) (files w')
         = Some n)) /\
  (forall q, Fs.apart (outputDir b ++ [DEFAULT_LAMBDA_CODE_DIR]) q ->
             Fs.lookup q (files w') = Fs.lookup q (files w)).
Proof.
  unfold buildDefaultLambda. intros H.
  step H traces w1 Htr.
  assert (Htraces : w1 = w /\
            Forall (touches_only (outputDir b ++ [DEFAULT_LAMBDA_CODE_DIR])) traces).
  { destruct (useServerlessTraceTarget (buildOptions b)) as [[|]|].
    - step Htr traced w2 Hrd. unfold reading in Hrd.
      destruct (nodeFileTrace _ _ w) as [r|]; [|discriminate].
      injection Hrd as <- <-. injection Htr as <- <-.
      split; [reflexivity | apply touches_only_dependencies].
    - injection Htr as <- <-. split; [reflexivity | constructor].
    - injection Htr as <- <-. split; [reflexivity | constructor]. }
  destruct Htraces as [-> Htraces].
  step H pm w2 Hpm. pose proof (requireObject_Ok _ _ Hpm) as Hw. simpl in Hw. subst w2.
  step H hasApi w3 Hex. apply pathExists_Ok in Hex. injection Hex as -> ->.
  rewrite all_app in H.
  destruct (all traces w) as [[[] wT]|] eqn:HT; [|discriminate].
  pose proof (touches_only_all Htraces) as FT. specialize (FT _ _ HT).
  cbn [all] in H.
  step H u1 s1 Hov. destruct u1.
  step H u2 s2 Hidx. destruct u2.
  step H u3 s3 Hman. destruct u3.
  step H u4 s4 Hpages. destruct u4.
  step H u5 s5 Hpre. destruct u5.
  step H u6 s6 Hroutes. destruct u6.
  injection H as <-.
  frame touches_only_override Hov Fov.
  frame touches_only_copy Hidx Fidx.
  frame touches_only_writeFile Hman Fman.
  frame touches_only_copy Hpages Fpages.
  frame touches_only_copy Hpre Fpre.
  frame (@touches_only_routes C) Hroutes Froutes.
  split; [|split; [|split]].
  - rewrite Froutes by siblings. rewrite Fpre by siblings.
    rewrite Fpages by siblings. eapply writeFile_lands, Hman.
  - destruct (@copy_lands _ _ _ _ _ Hidx I) as [n Hn]. exists n.
    rewrite Froutes by siblings. rewrite Fpre by siblings.
    rewrite Fpages by siblings. rewrite Fman by siblings. exact Hn.
  - exists pm. split; [exact Hpm|]. intros Hadm.
    destruct (@copy_lands _ _ _ _ _ Hpages Hadm) as [n Hn]. exists n.
    rewrite Froutes by siblings. rewrite Fpre by siblings. exact Hn.
  - intros q Hq.
    pose proof (fun x rx => @apart_below (outputDir b ++ [DEFAULT_LAMBDA_CODE_DIR])
                              q (x :: rx) Hq) as Hin.
    setoid_rewrite <- app_assoc in Hin. cbn [app] in Hin.
    rewrite Froutes by apply Hin. rewrite Fpre by apply Hin.
    rewrite Fpages by apply Hin. rewrite Fman by apply Hin.
    rewrite Fidx by apply Hin. rewrite Fov by exact Hq. now apply FT.
Qed.


(** What a successful [buildApiLambda] leaves in the API bundle. *)
Lemma buildApiLambda_emits (b : Builder)
    (a : OriginRequestApiHandlerManifest) (w w' : world) :
  buildApiLambda b a w = Ok (tt, w') ->
  Fs.lookup (outputDir b ++ [API_LAMBDA_CODE_DIR; "manifest.json"]) (files w')
    = Some (File (CJson (Json.ofApiManifest a))) /\
  (exists n,
      Fs.lookup (outputDir b ++ [API_LAMBDA_CODE_DIR; "index.js"]) (files w')
      = Some n) /\
  (exists n,
      Fs.lookup (outputDir b ++ [API_LAMBDA_CODE_DIR; "pages"; "api"]) (files w')
      = Some n) /\
  (forall q, Fs.apart (outputDir b ++ [API_LAMBDA_CODE_DIR]) q ->
             Fs.lookup q (files w') = Fs.lookup q (files w)).
Proof.
  unfold buildApiLambda. intros H.
  step H traces w1 Htr.
  assert (Htraces : w1 = w /\
            Forall (touches_only (outputDir b ++ [API_LAMBDA_CODE_DIR])) traces).
  { destruct (useServerlessTraceTarget (buildOptions b)) as [[|]|].
    - step Htr traced w2 Hrd. unfold reading in Hrd.
      destruct (nodeFileTrace _ _ w) as [r|]; [|discriminate].
      injection Hrd as <- <-. injection Htr as <- <-.
      split; [reflexivity | apply touches_only_dependencies].
    - injection Htr as <- <-. split; [reflexivity | constructor].
    - injection Htr as <- <-. split; [reflexivity | constructor]. }
  destruct Htraces as [-> Htraces].
  rewrite all_app in H.
  destruct (all traces w) as [[[] wT]|] eqn:HT; [|discriminate].
  pose proof (touches_only_all Htraces) as FT. specialize (FT _ _ HT).
  cbn [all] in H.
  step H u1 s1 Hov. destruct u1.
  step H u2 s2 Hidx. destruct u2.
  step H u3 s3 Hpages. destruct u3.
  step H u4 s4 Hman. destruct u4.
  step H u5 s5 Hroutes. destruct u5.
  injection H as <-.
  frame touches_only_override Hov Fov.
  frame touches_only_copy Hidx Fidx.
  frame touches_only_copy Hpages Fpages.
  frame touches_only_writeFile Hman Fman.
  frame touches_only_copy Hroutes Froutes.
  split; [|split; [|split]].
  - rewrite Froutes by siblings. eapply writeFile_lands, Hman.
  - destruct (@copy_lands _ _ _ _ _ Hidx I) as [n Hn]. exists n.
    rewrite Froutes by siblings. rewrite Fman by siblings.
    rewrite Fpages by siblings. exact Hn.
  - destruct (@copy_lands _ _ _ _ _ Hpages I) as [n Hn]. exists n.
    rewrite Froutes by siblings. rewrite Fman by siblings. exact Hn.
  - intros q Hq.
    pose proof (fun x rx => @apart_below (outputDir b ++ [API_LAMBDA_CODE_DIR])
                              q (x :: rx) Hq) as Hin.
    setoid_rewrite <- app_assoc in Hin. cbn [app] in Hin.
    rewrite Froutes by apply Hin. rewrite Fman by apply Hin.
    rewrite Fpages by apply Hin. rewrite Fidx by apply Hin.
    rewrite Fov by exact Hq. now apply FT.
Qed.

Lemma apart_bundles (out : path) (rest : path) :
  Fs.apart (out ++ [API_LAMBDA_CODE_DIR]) (out ++ DEFAULT_LAMBDA_CODE_DIR :: rest).
Proof. apply apart_fork, name_neq. reflexivity. Qed.

End BundlesEmitted.

(** ** The cache-behaviour descriptor *)

Module CloudfrontFacts.
Import Obj ObjFacts SpreadFacts Cloudfront.

Lemma NoDup_keys_rev_get {V} (k : string) (o : obj V) :
  NoDup (keys o) -> get k (rev o) = get k o.
Proof.
  intros Hnd. destruct (get k o) as [v|] eqn:E.
  - apply In_get_agree.
    + apply -> in_rev. now apply get_In.
    + intros v' Hv'. apply in_rev in Hv'.
      exact (@NoDup_keys_agree _ _ _ _ _ Hnd (get_In _ _ E) Hv').
  - destruct (get k (rev o)) as [v|] eqn:E'; [|reflexivity].
    apply get_In, in_rev in E'. apply get_None_iff in E. exfalso. apply E.
    change k with (fst (k, v)). now apply in_map.
Qed.

(** Reading back an object that has no name twice. *)
Lemma get_of_members {V} (k : string) (o : obj V) :
  NoDup (keys o) -> get k (of_members o) = get k o.
Proof.
  intros Hnd. unfold of_members. rewrite get_spread. simpl.
  rewrite NoDup_keys_rev_get by exact Hnd. now destruct (get k o).
Qed.

Lemma get_spread_NoDup {V} (k : string) (o extra : obj V) :
  NoDup (keys extra) ->
  get k (spread o extra)
  = match get k extra with Some v => Some v | None => get k o end.
Proof. intros Hnd. now rewrite get_spread, NoDup_keys_rev_get. Qed.

Lemma NoDup_keys_of_members {V} (l : list (string * V)) : NoDup (keys (of_members l)).
Proof. apply js_ordered_of_members. Qed.

Lemma NoDup_keys_objOf (v : jsval) : NoDup (keys (objOf v)).
Proof. destruct v; simpl; try constructor. apply NoDup_keys_of_members. Qed.

Lemma js_ordered_objOf (v : jsval) : js_ordered (objOf v).
Proof.
  destruct v; simpl; try (split; [constructor | exact I]).
  apply js_ordered_of_members.
Qed.

Lemma NoDup_keys_set {V} (k : string) (v : V) (o : obj V) :
  js_ordered o -> NoDup (keys (set k v o)).
Proof. intros H. now apply js_ordered_set. Qed.

Lemma NoDup_keys_remove {V} (k : string) (o : obj V) :
  NoDup (keys o) -> NoDup (keys (Obj.remove k o)).
Proof.
  unfold Obj.remove. induction o as [|[a x] o IH]; simpl; intros H; [constructor|].
  inversion H as [|? ? Hnot Hnd]; subst.
  destruct (negb (String.eqb k a)); simpl; [|now apply IH].
  constructor; [|now apply IH]. intros Hin. apply Hnot.
  unfold keys in *. apply in_map_iff in Hin. destruct Hin as (e & He & Hin).
  apply filter_In in Hin. apply in_map_iff. exists e. tauto.
Qed.

Lemma get_remove_same {V} (k : string) (o : obj V) : get k (Obj.remove k o) = None.
Proof.
  unfold Obj.remove. induction o as [|[a x] o IH]; simpl; [reflexivity|].
  destruct (String.eqb_spec k a) as [->|Hne]; simpl; [exact IH|].
  destruct (String.eqb_spec k a); [contradiction | exact IH].
Qed.

Lemma get_remove_neq {V} (k t : string) (o : obj V) :
  t <> k -> get t (Obj.remove k o) = get t o.
Proof.
  intros Hne. unfold Obj.remove. induction o as [|[a x] o IH]; simpl; [reflexivity|].
  destruct (String.eqb_spec k a) as [<-|Hka]; simpl.
  - destruct (String.eqb_spec t k); [contradiction | exact IH].
  - destruct (String.eqb t a); [reflexivity | exact IH].
Qed.

(** The triggers of a behaviour built with its [lambda@edge] set last. *)
Lemma trigger_built (t : string) (edge base : obj jsval) :
  js_ordered base -> NoDup (keys edge) ->
  trigger (JObj (set "lambda@edge" (JObj edge) base)) t = get t edge.
Proof.
  intros Hbase Hedge. unfold trigger, triggersOf, member.
  rewrite get_of_members by (now apply NoDup_keys_set).
  rewrite get_set_same. simpl. now apply get_of_members.
Qed.

Section WithDeployment.
Variable D : Deployment.

Lemma NoDup_edgeConfigFor (p : string) (config : jsval) :
  NoDup (keys (edgeConfigFor D p config)).
Proof.
  unfold edgeConfigFor.
  destruct (String.eqb p "api/*"); [apply NoDup_keys_remove, NoDup_keys_objOf|].
  destruct (mem p wellKnownPaths); [apply NoDup_keys_objOf|].
  apply NoDup_keys_set, js_ordered_objOf.
Qed.

Lemma trigger_mergedBehaviour (p : string) (config : jsval) (t : string) :
  trigger (mergedBehaviour D p config) t
  = match get t (edgeConfigFor D p config) with
    | Some v => Some v
    | None => get t (triggersOf (at_key (systemPatterns D) p))
    end.
Proof.
  unfold mergedBehaviour. rewrite trigger_built.
  - apply get_spread_NoDup, NoDup_edgeConfigFor.
  - apply js_ordered_spread, js_ordered_objOf.
  - apply js_ordered_spread, js_ordered_objOf.
Qed.

Lemma trigger_mergedDefaults (inputs : obj jsval) (t : string) :
  trigger (mergedDefaults D inputs) t
  = if String.eqb t "origin-request" then Some (JStr (defaultLambda D))
    else if String.eqb t "origin-response" then Some (JStr (defaultLambda D))
    else trigger (at_key inputs "defaults") t.
Proof.
  unfold mergedDefaults. rewrite trigger_built.
  - rewrite get_spread. simpl.
    destruct (String.eqb t "origin-response"), (String.eqb t "origin-request");
      reflexivity.
  - apply js_ordered_spread.
    change defaultBehaviour with (of_members defaultBehaviour).
    apply js_ordered_of_members.
  - apply js_ordered_spread, js_ordered_objOf.
Qed.

Lemma generate_Ok (inputs : obj jsval) (d : Descriptor) :
  generate D inputs = Ok d ->
  defaults d = mergedDefaults D inputs /\
  pathPatterns d
  = spread (systemPatterns D)
      (map (fun e => (fst e, mergedBehaviour D (fst e) (snd e)))
           (filter (fun e => negb (mem (fst e) topLevelKeys)) inputs)).
Proof.
  unfold generate. destruct (unmatchedPaths D inputs); [|discriminate].
  intros [= <-]. split; reflexivity.
Qed.

(** The behaviour emitted for a path the user configures. *)
Lemma emitted_configured (inputs : obj jsval) (d : Descriptor) (p : string)
    (config : jsval) (t : string) :
  NoDup (keys inputs) ->
  generate D inputs = Ok d ->
  mem p topLevelKeys = false ->
  get p inputs = Some config ->
  emitted d p t = trigger (mergedBehaviour D p config) t.
Proof.
  intros Hnd Hgen Htop Hget. apply generate_Ok in Hgen. destruct Hgen as [_ Hpp].
  unfold emitted. rewrite Hpp, get_spread.
  rewrite (@In_get_agree _ p (mergedBehaviour D p config)); [reflexivity| |].
  - apply -> in_rev. apply in_map_iff. exists (p, config). split; [reflexivity|].
    apply filter_In. split; [now apply get_In|]. cbn [fst]. now rewrite Htop.
  - intros v' Hv'. apply in_rev, in_map_iff in Hv'.
    destruct Hv' as ([p' c'] & [= -> <-] & Hin). apply filter_In in Hin.
    destruct Hin as [Hin _]. simpl.
    now rewrite (@NoDup_keys_agree _ _ _ _ _ Hnd (get_In _ _ Hget) Hin).
Qed.

(** The behaviour emitted for a path the user leaves alone. *)
Lemma emitted_untouched (inputs : obj jsval) (d : Descriptor) (p t : string) :
  generate D inputs = Ok d ->
  get p inputs = None ->
  emitted d p t = trigger (at_key (systemPatterns D) p) t.
Proof.
  intros Hgen Hget. apply generate_Ok in Hgen. destruct Hgen as [_ Hpp].
  unfold emitted. rewrite Hpp, get_spread.
  destruct (get p (rev _)) as [v|] eqn:E.
  - apply get_In, in_rev, in_map_iff in E.
    destruct E as ([p' c'] & [= -> <-] & Hin). apply filter_In in Hin.
    destruct Hin as [Hin _]. apply get_None_iff in Hget. exfalso. apply Hget.
    change p with (fst (p, c')). now apply in_map.
  - unfold at_key. destruct (get p (systemPatterns D)); reflexivity.
Qed.

Lemma asked_untouched (inputs : obj jsval) (p t : string) :
  get p inputs = None -> asked inputs p t = None.
Proof. intros H. unfold asked, at_key. now rewrite H. Qed.

Lemma mem_true_iff (s : string) (l : list string) : mem s l = true <-> In s l.
Proof.
  unfold mem. rewrite existsb_exists. split.
  - intros (x & Hx & E). apply String.eqb_eq in E. now subst.
  - intros H. exists s. split; [exact H | apply String.eqb_refl].
Qed.

Lemma customPaths_In (inputs : obj jsval) (p : string) :
  In p (customPaths inputs) ->
  In p (keys inputs) /\ mem p topLevelKeys = false /\ mem p wellKnownPaths = false.
Proof.
  unfold customPaths. rewrite filter_In, andb_true_iff, !negb_true_iff. tauto.
Qed.

End WithDeployment.

End CloudfrontFacts.

Section ReservedTriggers.
Import Obj ObjFacts SpreadFacts Cloudfront CloudfrontFacts.
Variable D : Deployment.

Lemma system_untouched (p : string) :
  mem p wellKnownPaths = false -> get p (systemPatterns D) = None.
Proof.
  unfold mem, wellKnownPaths, systemPatterns. cbn [existsb get].
  destruct (String.eqb p "_next/static/*"); [discriminate|].
  destruct (String.eqb p "static/*"); [discriminate|].
  destruct (String.eqb p "api/*"); [discriminate|].
  destruct (String.eqb p "_next/data/*"); [discriminate | reflexivity].
Qed.

Lemma api_system_trigger (t : string) :
  get t (triggersOf (at_key (systemPatterns D) "api/*"))
  = if String.eqb t "origin-request" then Some (JStr (apiLambda D)) else None.
Proof. reflexivity. Qed.

Lemma asked_configured (inputs : obj jsval) (p t : string) (config : jsval) :
  get p inputs = Some config -> asked inputs p t = get t (triggersOf config).
Proof. intros H. unfold asked, at_key, trigger. now rewrite H. Qed.

(** C1, as amended. In every descriptor the generator emits, the default
    behaviour carries the page handler under [origin-request] and
    [origin-response] and the API pattern carries the API handler under
    [origin-request], whatever the user supplied under those names; a page
    path of the user's own carries the page handler under
    [origin-request], whatever the user supplied; every other trigger of
    those behaviours is the user's, and on the remaining well-known
    patterns every trigger of the user is emitted as given. *)
Theorem reserved_triggers (members : list (string * jsval)) (d : Descriptor) :
  let inputs := of_members members in
  generate D inputs = Ok d ->
  (trigger (defaults d) "origin-request" = Some (JStr (defaultLambda D)) /\
   trigger (defaults d) "origin-response" = Some (JStr (defaultLambda D)) /\
   forall t, t <> "origin-request" -> t <> "origin-response" ->
             trigger (defaults d) t = trigger (at_key inputs "defaults") t) /\
  (emitted d "api/*" "origin-request" = Some (JStr (apiLambda D)) /\
   forall t, t <> "origin-request" ->
             emitted d "api/*" t = asked inputs "api/*" t) /\
  (forall p, In p (customPaths inputs) ->
             emitted d p "origin-request" = Some (JStr (defaultLambda D)) /\
             forall t, t <> "origin-request" -> emitted d p t = asked inputs p t) /\
  (forall p t v, mem p wellKnownPaths = true -> p <> "api/*" ->
                 asked inputs p t = Some v -> emitted d p t = Some v).
Proof.
  intros inputs Hgen.
  pose proof (NoDup_keys_of_members members) as Hnd. fold inputs in Hnd.
  destruct (generate_Ok _ _ Hgen) as [Hdef _].
  split; [|split; [|split]].
  - rewrite Hdef. split; [|split].
    + now rewrite trigger_mergedDefaults.
    + now rewrite trigger_mergedDefaults.
    + intros t H1 H2. rewrite trigger_mergedDefaults.
      destruct (String.eqb_spec t "origin-request"); [contradiction|].
      destruct (String.eqb_spec t "origin-response"); [contradiction|].
      reflexivity.
  - destruct (get "api/*" inputs) as [config|] eqn:E.
    + assert (Hem : forall t, emitted d "api/*" t
                      = match get t (Obj.remove "origin-request" (triggersOf config)) with
                        | Some v => Some v
                        | None => if String.eqb t "origin-request"
                                  then Some (JStr (apiLambda D)) else None
                        end).
      { intros t. rewrite (@emitted_configured D _ _ "api/*" _ t Hnd Hgen eq_refl E).
        rewrite trigger_mergedBehaviour, api_system_trigger. reflexivity. }
      split.
      * now rewrite Hem, get_remove_same.
      * intros t Ht. rewrite Hem, get_remove_neq by exact Ht.
        rewrite (@asked_configured _ _ t _ E).
        destruct (get t (triggersOf config)); [reflexivity|].
        destruct (String.eqb_spec t "origin-request"); [contradiction | reflexivity].
    + assert (Hem : forall t, emitted d "api/*" t
                      = if String.eqb t "origin-request"
                        then Some (JStr (apiLambda D)) else None).
      { intros t. rewrite (@emitted_untouched D _ _ _ t Hgen E).
        unfold trigger. apply api_system_trigger. }
      split; [now rewrite Hem|]. intros t Ht.
      rewrite Hem, (@asked_untouched _ _ t E).
      destruct (String.eqb_spec t "origin-request"); [contradiction | reflexivity].
  - intros p Hp. apply customPaths_In in Hp. destruct Hp as (Hin & Htop & Hwk).
    destruct (In_get_Some _ _ Hin) as [config E].
    assert (Hapi : String.eqb p "api/*" = false).
    { destruct (String.eqb_spec p "api/*") as [->|]; [discriminate Hwk | reflexivity]. }
    assert (Hem : forall t, emitted d p t
                    = get t (set "origin-request" (JStr (defaultLambda D))
                                 (triggersOf config))).
    { intros t. rewrite (@emitted_configured D _ _ _ _ t Hnd Hgen Htop E).
      rewrite trigger_mergedBehaviour. unfold edgeConfigFor. rewrite Hapi, Hwk.
      destruct (get t _); [reflexivity|].
      unfold at_key. now rewrite (@system_untouched _ Hwk). }
    split; [rewrite Hem; apply get_set_same|].
    intros t Ht. rewrite Hem, get_set_other by congruence.
    symmetry. exact (@asked_configured _ _ t _ E).
  - intros p t v Hwk Hapi Hask.
    destruct (get p inputs) as [config|] eqn:E;
      [|rewrite (@asked_untouched _ _ t E) in Hask; discriminate].
    assert (Htop : mem p topLevelKeys = false).
    { apply mem_true_iff in Hwk. simpl in Hwk.
      destruct Hwk as [<-|[<-|[<-|[<-|[]]]]]; reflexivity. }
    rewrite (@emitted_configured D _ _ _ _ t Hnd Hgen Htop E), trigger_mergedBehaviour.
    unfold edgeConfigFor. rewrite Hwk.
    destruct (String.eqb_spec p "api/*"); [contradiction|].
    rewrite (@asked_configured _ _ t _ E) in Hask. now rewrite Hask.
Qed.

(** C8. A user configuration that declares a path of its own for which
    the compiled manifest has no route is turned down, with a message that
    says no page was found and quotes that path. *)
Theorem unknown_path_rejected (members : list (string * jsval)) (p : string) :
  let inputs := of_members members in
  In p (customPaths inputs) ->
  hasRoute D p = false ->
  exists message,
    generate D inputs = Err (Thrown message) /\
    Str.occursIn p message /\
    Str.occursIn "Could not find next.js pages for" message.
Proof.
  intros inputs Hp Hroute.
  assert (Hin : In p (unmatchedPaths D inputs)).
  { unfold unmatchedPaths. apply filter_In. split; [exact Hp|]. now rewrite Hroute. }
  unfold generate. destruct (unmatchedPaths D inputs) as [|q qs] eqn:E; [destruct Hin|].
  eexists. split; [reflexivity|]. unfold validationMessage. split.
  - apply StrFacts.occursIn_app_l, StrFacts.occursIn_app_l, StrFacts.occursIn_app_r.
    now apply StrFacts.occursIn_join.
  - exists "", (" " ++ Str.dquote ++ Str.join "," (q :: qs) ++ Str.dquote)%string.
    reflexivity.
Qed.

End ReservedTriggers.

(** ** The fixture: runs of the code on a small application *)

Section FixtureRuns.
Import Fixture.

Lemma insertRoute_perm (r : string) (l : list string) :
  Permutation (insertRoute r l) (r :: l).
Proof.
  induction l as [|e l IH]; simpl; [apply Permutation_refl|].
  destruct (outranks (segments r) (segments e)); [apply Permutation_refl|].
  eapply perm_trans; [apply perm_skip, IH | apply perm_swap].
Qed.

Lemma fold_insertRoute_perm (l acc : list string) :
  Permutation (fold_left (fun acc r => insertRoute r acc) l acc) (l ++ acc).
Proof.
  revert acc. induction l as [|r l IH]; intros acc; simpl; [apply Permutation_refl|].
  eapply perm_trans; [apply IH|].
  eapply perm_trans; [apply Permutation_app_head, insertRoute_perm|].
  apply Permutation_sym, Permutation_middle.
Qed.

(** The sorter of the fixture returns its routes, rearranged. *)
Lemma getSortedRoutes_perm (l : list string) : Permutation (getSortedRoutes l) l.
Proof.
  unfold getSortedRoutes. eapply perm_trans; [apply fold_insertRoute_perm|].
  now rewrite app_nil_r.
Qed.

(** The generator reproduces every row of the table of the test-suite. *)
Lemma generate_meets_test_table :
  forallb
    (fun row =>
       match Cloudfront.generate deployment (Obj.of_members (fst row)) with
       | Ok d =>
           js_eqb (Cloudfront.defaults d) (Cloudfront.expectedDefaults arn (snd row)) &&
           js_eqb (JObj (Cloudfront.pathPatterns d))
                  (Cloudfront.expectedPathPatterns arn (snd row))
       | Err _ => false
       end)
    Cloudfront.customCloudfrontInputs = true.
Proof. vm_compute. reflexivity. Qed.

(** It reproduces the rows of the table of API paths as well. *)
Lemma generate_meets_api_table :
  forallb
    (fun row =>
       match Cloudfront.generate deployment (Obj.of_members (fst row)) with
       | Ok d =>
           js_eqb (JObj (Cloudfront.pathPatterns d))
                  (Cloudfront.expectedApiPathPatterns arn (fst row) (snd row))
       | Err _ => false
       end)
    Cloudfront.apiCloudfrontInputs = true.
Proof. vm_compute. reflexivity. Qed.

(** C1, counterexample. The row of the table for the page path [/terms]:
    the user asks for [origin-request] there and the descriptor carries
    the page handler instead, so triggers do not pass through on every
    behaviour other than the default one and the API pattern. *)
Lemma terms_origin_request_is_overridden :
  ~ Cloudfront.passesThroughElsewhere deployment.
Proof.
  intros H.
  destruct (Cloudfront.generate deployment (Obj.of_members termsInput))
    as [d|e] eqn:E; [|vm_compute in E; discriminate E].
  specialize (H termsInput d "/terms" "origin-request" (JStr "ignored value") E).
  assert (Hem : Cloudfront.emitted d "/terms" "origin-request" = Some (JStr arn)).
  { vm_compute in E. injection E as <-. vm_compute. reflexivity. }
  rewrite Hem in H.
  assert (Hne : Some (JStr arn) <> Some (JStr "ignored value"))
    by (vm_compute; intros Heq; discriminate Heq).
  apply Hne, H; [intros Heq; discriminate Heq | reflexivity | vm_compute; reflexivity].
Qed.

Lemma reserved_triggers_witness :
  exists d,
    Cloudfront.generate deployment (Obj.of_members termsInput) = Ok d /\
    Cloudfront.emitted d "/terms" "origin-request" = Some (JStr arn) /\
    Cloudfront.trigger (Cloudfront.defaults d) "origin-response" = Some (JStr arn).
Proof.
  destruct (Cloudfront.generate deployment (Obj.of_members termsInput))
    as [d|e] eqn:E; [|vm_compute in E; discriminate E].
  exists d. split; [reflexivity|].
  destruct (@reserved_triggers deployment termsInput d E)
    as ((_ & Hresp & _) & _ & Hpages & _).
  split; [|exact Hresp].
  apply (Hpages "/terms"). vm_compute. left. reflexivity.
Defined.

Lemma unknown_path_rejected_witness :
  exists message,
    Cloudfront.generate deployment (Obj.of_members invalidInput)
      = Err (Thrown message) /\
    Str.occursIn "some-invalid-page-route" message /\
    Str.occursIn "Could not find next.js pages for" message.
Proof.
  apply (@unknown_path_rejected deployment invalidInput "some-invalid-page-route").
  - vm_compute. left. reflexivity.
  - vm_compute. reflexivity.
Defined.


Lemma readPagesManifest_order_witness :
  exists sorted,
    readPagesManifest (C := pagesFixture) app (compiledFixture pagesOnly)
      = Ok (sorted, compiledFixture pagesOnly) /\
    Obj.keys sorted = ["/"; "/about"; "/blog/[id]"; "/[...all]"].
Proof.
  assert (Hfile : Fs.lookup (serverlessDir app ++ ["pages-manifest.json"])
                    (files (compiledFixture pagesOnly))
                  = Some (File (CJson (JObj fixturePages))))
    by (vm_compute; reflexivity).
  destruct (@readPagesManifest_order pagesFixture app (compiledFixture pagesOnly)
              fixturePages Hfile) as (sorted & Hrun & Hkeys & _).
  - apply getSortedRoutes_perm.
  - intros r Hr _. vm_compute in Hr.
    destruct Hr as [<-|[<-|[<-|[<-|[]]]]]; vm_compute; reflexivity.
  - exists sorted. split; [exact Hrun|]. rewrite Hkeys. vm_compute. reflexivity.
Defined.

Lemma prepareBuildManifests_trailingSlash_witness :
  exists ms w',
    prepareBuildManifests (C := pagesFixture) app (compiledFixture pagesOnly) = Ok (ms, w') /\
    trailingSlash (fst ms) = JBool true /\
    configCalls w' = [("phase-production-server", JObj [])].
Proof.
  destruct (prepareBuildManifests (C := pagesFixture) app (compiledFixture pagesOnly))
    as [[ms w']|e] eqn:E; [|vm_compute in E; discriminate E].
  exists ms, w'. split; [reflexivity|].
  destruct (@prepareBuildManifests_trailingSlash pagesFixture _ _ _ _ E) as (Hts & _ & Hcalls).
  split; [rewrite Hts | rewrite Hcalls]; vm_compute; reflexivity.
Defined.


Lemma cleanupDotNext_keeps_cache_witness :
  exists w',
    cleanupDotNext app before = Ok (tt, w') /\
    Fs.lookup (dotNextDir app) (files w')
      = Some (Dir [("cache", Dir [("webpack", File (CText "cached"))])]).
Proof.
  destruct (proj2 (cleanupDotNext_keeps_cache app before)
              [("cache", Dir [("webpack", File (CText "cached"))]);
               ("BUILD_ID", File (CText "stale"))])
    as (w' & Hrun & Hl & _).
  - vm_compute. reflexivity.
  - exists w'. split; [exact Hrun | exact Hl].
Defined.

(** C9, counterexample. The fixture without API routes builds with
    success and its API bundle directory stays empty: no entry point, no
    manifest, no pages. *)
Lemma build_without_api_routes_emits_one_bundle : ~ alwaysTwoBundles.
Proof.
  intros H.
  destruct (build (C := pagesFixture) app false before) as [[[] w']|e] eqn:E;
    [|vm_compute in E; discriminate E].
  destruct (H pagesFixture app false before w' E) as (_ & [n Hn] & _).
  vm_compute in E. injection E as <-. vm_compute in Hn. discriminate Hn.
Qed.


(** The copy filter and the prerender test on the pages of the fixture. *)
Example index_is_prerender_only :
  isPrerenderedJSFile (C := pagesFixture)
    (Obj.of_members [("routes", JObj [("/", JObj [])])]) "index.js" = true.
Proof. vm_compute. reflexivity. Qed.

Example blog_page_is_not_prerender_only :
  isPrerenderedJSFile (C := pagesFixture)
    (Obj.of_members [("routes", JObj [("/", JObj [])])]) "blog/[id].js" = false.
Proof. vm_compute. reflexivity. Qed.

Example filter_on_fixture_pages :
  map (pagesCopyFilter (C := pagesFixture) app false
         (Obj.of_members [("routes", JObj [("/", JObj [])])]))
      ["/app/.next/serverless/pages/index.js";
       "/app/.next/serverless/pages/about.html";
       "/app/.next/serverless/pages/blog/[id].js";
       "/app/.next/serverless/pages/api/hello.js";
       "/app/.next/serverless/pages/index.json"]
  = [false; false; true; false; false].
Proof. vm_compute. reflexivity. Qed.

Example filter_on_fixture_pages_with_api :
  map (pagesCopyFilter (C := apiFixture) app true
         (Obj.of_members [("routes", JObj [("/", JObj [])])]))
      ["/app/.next/serverless/pages/index.js";
       "/app/.next/serverless/pages/about.html";
       "/app/.next/serverless/pages/blog/[id].js";
       "/app/.next/serverless/pages/api/hello.js";
       "/app/.next/serverless/pages/index.json"]
  = [true; false; true; false; false].
Proof. vm_compute. reflexivity. Qed.

Example sorter_on_three_routes :
  getSortedRoutes ["/[...all]"; "/blog/[id]"; "/[user]"]
  = ["/blog/[id]"; "/[user]"; "/[...all]"].
Proof. vm_compute. reflexivity. Qed.

Example index_names_come_first :
  Obj.keys (Obj.of_members [("/b", 1); ("10", 2); ("/a", 3); ("2", 4); ("/b", 5)])
  = ["2"; "10"; "/b"; "/a"].
Proof. vm_compute. reflexivity. Qed.

End FixtureRuns.

(** ** Further properties of the manifests *)

Section ManifestRoutes.
Context {C : Collaborators}.
Import Obj ObjFacts SpreadFacts MFacts.

Lemma existsb_eqb_In (r : string) (l : list string) :
  existsb (String.eqb r) l = true <-> In r l.
Proof.
  rewrite existsb_exists. split.
  - intros (x & Hx & E). apply String.eqb_eq in E. now subst.
  - intros H. exists r. split; [exact H | apply String.eqb_refl].
Qed.

Lemma get_fold_nondynamic (pm : obj jsval) (ks : list string) (acc : obj jsval)
    (r : string) :
  get r (fold_left
           (fun acc route =>
              if isDynamicRoute route then acc
              else set route (at_key pm route) acc) ks acc)
  = if existsb (String.eqb r) (filter (fun k => negb (isDynamicRoute k)) ks)
    then Some (at_key pm r) else get r acc.
Proof.
  revert acc. induction ks as [|k ks IH]; intros acc; [reflexivity|].
  cbn [fold_left filter]. rewrite IH.
  destruct (isDynamicRoute k); cbn [negb]; [reflexivity|].
  cbn [existsb]. destruct (String.eqb r k) eqn:E.
  - apply String.eqb_eq in E. subst k. cbn [orb].
    rewrite get_set_same. now destruct (existsb _ _).
  - cbn [orb]. apply String.eqb_neq in E.
    rewrite get_set_other by congruence. reflexivity.
Qed.

Lemma get_fold_routes (pm : obj jsval) (rs : list string) (acc : obj jsval)
    (r : string) :
  get r (fold_left (fun acc route => set route (at_key pm route) acc) rs acc)
  = if existsb (String.eqb r) rs then Some (at_key pm r) else get r acc.
Proof.
  revert acc. induction rs as [|k rs IH]; intros acc; [reflexivity|].
  cbn [fold_left existsb]. rewrite IH.
  destruct (String.eqb r k) eqn:E.
  - apply String.eqb_eq in E. subst k. cbn [orb].
    rewrite get_set_same. now destruct (existsb _ _).
  - cbn [orb]. apply String.eqb_neq in E.
    rewrite get_set_other by congruence. reflexivity.
Qed.

Lemma get_sortedPagesManifest (pm : obj jsval) (r : string) :
  get r (sortedPagesManifest pm)
  = if existsb (String.eqb r) (getSortedRoutes (filter isDynamicRoute (keys pm))) ||
       existsb (String.eqb r) (filter (fun k => negb (isDynamicRoute k)) (keys pm))
    then Some (at_key pm r) else None.
Proof.
  unfold sortedPagesManifest. rewrite get_fold_routes, get_fold_nondynamic.
  destruct (existsb _ (getSortedRoutes _)); [reflexivity|].
  cbn [orb]. now destruct (existsb _ _).
Qed.

(** X1. For a pages manifest that is a JSON object with no member named
    [__proto__], and a route sorter that returns only routes it was given
    (it may leave some out or repeat them), the manifest
    [readPagesManifest] gives holds exactly the non-dynamic routes of
    [pages-manifest.json] and the routes the sorter returned, each with
    the page file [pages-manifest.json] has for it: a non-dynamic route is
    never lost, and a dynamic route is kept exactly when the sorter
    returns it. *)
Theorem readPagesManifest_routes (b : Builder) (w w' : world)
    (members : list (string * jsval)) (sorted : obj jsval) :
  Fs.lookup (serverlessDir b ++ ["pages-manifest.json"]) (files w)
    = Some (File (CJson (JObj members))) ->
  let pagesManifest := of_members members in
  ~ In "__proto__" (keys pagesManifest) ->
  incl (getSortedRoutes (filter isDynamicRoute (keys pagesManifest)))
       (filter isDynamicRoute (keys pagesManifest)) ->
  readPagesManifest b w = Ok (sorted, w') ->
  (forall r,
      In r (keys sorted) <->
      (In r (keys pagesManifest) /\ isDynamicRoute r = false) \/
      In r (getSortedRoutes (filter isDynamicRoute (keys pagesManifest)))) /\
  (forall r, In r (keys sorted) -> get r sorted = get r pagesManifest) /\
  (forall r, In r (keys pagesManifest) -> isDynamicRoute r = false ->
             get r sorted = get r pagesManifest).
Proof.
  intros Hl pm _ Hincl H.
  unfold readPagesManifest, bind, fse.pathExists, fse.readJSON in H.
  cbn beta iota in H. rewrite Hl in H. cbn in H. rewrite Hl in H.
  cbn in H. injection H as <- <-. fold pm.
  assert (Hmem : forall r,
             In r (keys (sortedPagesManifest pm)) <->
             (In r (keys pm) /\ isDynamicRoute r = false) \/
             In r (getSortedRoutes (filter isDynamicRoute (keys pm)))).
  { intros r. split.
    - intros Hin. apply In_get_Some in Hin. destruct Hin as [v Hv].
      rewrite get_sortedPagesManifest in Hv.
      destruct (existsb _ (getSortedRoutes _)) eqn:E1.
      + right. now apply existsb_eqb_In.
      + cbn [orb] in Hv.
        destruct (existsb _ (filter _ _)) eqn:E2; [|discriminate].
        apply existsb_eqb_In, filter_In in E2. destruct E2 as [Hk Hd].
        left. split; [exact Hk|]. now destruct (isDynamicRoute r).
    - intros Hr. apply (@get_Some_In _ r (at_key pm r)).
      rewrite get_sortedPagesManifest.
      destruct Hr as [[Hk Hd]|Hs].
      + assert (E : existsb (String.eqb r)
                      (filter (fun k => negb (isDynamicRoute k)) (keys pm)) = true).
        { apply existsb_eqb_In, filter_In. split; [exact Hk|]. now rewrite Hd. }
        rewrite E, orb_true_r. reflexivity.
      + apply existsb_eqb_In in Hs. rewrite Hs. reflexivity. }
  assert (Hval : forall r, In r (keys (sortedPagesManifest pm)) ->
                           get r (sortedPagesManifest pm) = get r pm).
  { intros r Hin.
    assert (Hk : In r (keys pm)).
    { apply Hmem in Hin. destruct Hin as [[Hk _]|Hs]; [exact Hk|].
      apply Hincl, filter_In in Hs. tauto. }
    apply In_get_Some in Hin. destruct Hin as [v Hv].
    rewrite Hv. rewrite get_sortedPagesManifest in Hv.
    destruct (_ || _); [|discriminate]. rewrite <- Hv.
    now apply at_key_get. }
  split; [exact Hmem|]. split; [exact Hval|].
  intros r Hk Hd. apply Hval, Hmem. auto.
Qed.

End ManifestRoutes.

Section BucketLoop.
Context {C : Collaborators}.
Import Obj ObjFacts SpreadFacts MFacts.

Lemma bucketEntry_string (ms : manifests) (route : string) (v : jsval) :
  match bucketEntry ms route v with
  | Ok _ => isPageFile v = true
  | Err e => isPageFile v = false /\ exists m, e = TypeError m
  end.
Proof.
  destruct v; cbn [bucketEntry isPageFile]; eauto.
  destruct (isHtmlPage s); [|destruct (isApiPage s)];
    destruct (isDynamicRoute route); reflexivity.
Qed.

Lemma bucketEntries_Ok_iff (entries : list (string * jsval)) (ms : manifests) :
  (exists ms', bucketEntries entries ms = Ok ms') <->
  forallb (fun e => isPageFile (snd e)) entries = true.
Proof.
  revert ms. induction entries as [|[route v] rest IH]; intros ms.
  - cbn. split; eauto.
  - cbn [bucketEntries forallb snd].
    pose proof (bucketEntry_string ms route v) as Hv.
    destruct (bucketEntry ms route v) as [ms1|e1].
    + rewrite Hv. cbn [andb]. apply IH.
    + destruct Hv as [Hv Hm]. rewrite Hv. cbn [andb].
      split; [intros [ms' H]; discriminate | discriminate].
Qed.

(** X2. The loop of [prepareBuildManifests] over the entries of the pages
    manifest goes through exactly when every page file is a string; when
    it does not, what it throws is a [TypeError]. *)
Theorem bucketEntries_needs_page_files (entries : list (string * jsval))
    (ms : manifests) :
  ((exists ms', bucketEntries entries ms = Ok ms') <->
   forallb (fun e => isPageFile (snd e)) entries = true) /\
  (forall e, bucketEntries entries ms = Err e -> exists m, e = TypeError m).
Proof.
  revert ms. induction entries as [|[route v] rest IH]; intros ms.
  - cbn. split; [split; eauto|discriminate].
  - cbn [bucketEntries forallb snd].
    pose proof (bucketEntry_string ms route v) as Hv.
    destruct (bucketEntry ms route v) as [ms1|e1].
    + rewrite Hv. cbn [andb]. apply IH.
    + destruct Hv as [Hv Hm]. rewrite Hv. cbn [andb]. split.
      * split; [intros [ms' H]; discriminate | discriminate].
      * intros e [= <-]. exact Hm.
Qed.

Lemma entries_typed (entries : list (string * jsval)) :
  forallb (fun e => isPageFile (snd e)) entries = true ->
  exists l, entries = map asMember l.
Proof.
  induction entries as [|[route v] rest IH]; intros H.
  - now exists [].
  - cbn [forallb snd] in H. apply andb_prop in H. destruct H as [Hv Hr].
    destruct (IH Hr) as [l ->]. destruct v; try discriminate.
    now exists ((route, s) :: l).
Qed.

Lemma set_not_nil {V : Type} (k : string) (v : V) (o : obj V) : set k v o <> [].
Proof.
  unfold set. destruct (get k o) eqn:E.
  - destruct o as [|[k' v'] o]; [discriminate|]. cbn [update].
    destruct (String.eqb k k'); discriminate.
  - destruct (array_index k).
    + destruct o as [|[k' v'] o]; cbn [insert_index]; [discriminate|].
      destruct (array_index k'); [destruct (_ <? _)%N|]; discriminate.
    + now destruct o.
Qed.

Lemma spread_nil {V : Type} (o extra : obj V) :
  spread o extra = [] <-> o = [] /\ extra = [].
Proof.
  split; [|now intros [-> ->]].
  revert o. induction extra as [|e extra IH]; intros o H; [auto|].
  cbn in H. apply IH in H. destruct H as [H _]. now apply set_not_nil in H.
Qed.

Lemma kindOf_api (f : string) :
  kindOf f = ApiPage <-> isHtmlPage f = false /\ isApiPage f = true.
Proof.
  unfold kindOf. destruct (isHtmlPage f); [|destruct (isApiPage f)];
    split; try discriminate; intuition discriminate.
Qed.

Lemma hasAPIPages_spread (g : PageGroup) (ds : obj DynamicEntry) (ns : obj string) :
  dynamic g = spread [] ds -> nonDynamic g = spread [] ns ->
  (hasAPIPages {| apis := g |} = true <-> ns <> [] \/ ds <> []).
Proof.
  intros Hd Hn. unfold hasAPIPages, keys. cbn [apis]. rewrite !length_map, Hd, Hn.
  rewrite orb_true_iff, !Nat.ltb_lt. split.
  - intros [H|H]; [left|right]; intros ->; cbn in H; lia.
  - intros [H|H]; [left|right].
    + destruct (spread [] ns) eqn:E; [|cbn; lia].
      apply spread_nil in E. now destruct E.
    + destruct (spread [] ds) eqn:E; [|cbn; lia].
      apply spread_nil in E. now destruct E.
Qed.

Lemma bucketEntries_fields (l : list (string * jsval)) (ms ms' : manifests) :
  bucketEntries l ms = Ok ms' ->
  buildId (fst ms') = buildId (fst ms) /\
  logLambdaExecutionTimes (fst ms') = logLambdaExecutionTimes (fst ms) /\
  publicFiles (fst ms') = publicFiles (fst ms).
Proof.
  revert ms. induction l as [|[route v] l IH]; simpl; intros ms H.
  - now injection H as <-.
  - destruct (bucketEntry ms route v) as [ms1|e] eqn:E; [|discriminate].
    destruct (IH _ H) as (-> & -> & ->). unfold bucketEntry in E.
    destruct v; try discriminate.
    destruct (isHtmlPage s); [|destruct (isApiPage s)];
      destruct (isDynamicRoute route); injection E as <-; auto.
Qed.

Lemma readNextConfig_fields (b : Builder)
    (d d' : OriginRequestDefaultHandlerManifest) (w w' : world) :
  readNextConfig b d w = Ok (d', w') ->
  buildId d' = buildId d /\
  logLambdaExecutionTimes d' = logLambdaExecutionTimes d /\
  publicFiles d' = publicFiles d /\ ssr d' = ssr d /\ html d' = html d.
Proof.
  unfold readNextConfig. intros H.
  apply bind_Ok in H. destruct H as (present & w1 & _ & H).
  destruct present; [|injection H as <- <-; auto].
  apply bind_Ok in H. destruct H as (m & w2 & _ & H).
  apply bind_Ok in H. destruct H as (v & w3 & _ & H).
  injection H as <- <-. auto.
Qed.

(** The steps of a successful [prepareBuildManifests]. *)
Lemma prepareBuildManifests_inv (b : Builder) (w w' : world) (ms : manifests) :
  prepareBuildManifests b w = Ok (ms, w') ->
  exists pm id ms0 pfs,
    readPagesManifest b w = Ok (pm, w) /\
    fse.readFile (dotNextDir b ++ ["BUILD_ID"]) w = Ok (id, w) /\
    bucketEntries (entries pm)
      (initialManifests id
         (match logLambdaExecutionTimesOption (buildOptions b) with
          | Some v => v
          | None => false
          end)) = Ok ms0 /\
    readPublicFiles b w = Ok (pfs, w) /\
    readNextConfig b
      (withPublicFiles
         (fold_left (fun acc pf => set ("/" ++ pf)%string pf acc) pfs
                    (publicFiles (fst ms0)))
         (fst ms0)) w = Ok (fst ms, w') /\
    snd ms = snd ms0.
Proof.
  unfold prepareBuildManifests. intros H.
  apply bind_Ok in H. destruct H as (pm & w1 & H1 & H).
  pose proof (readPagesManifest_Ok _ _ H1) as E1. simpl in E1. subst w1.
  apply bind_Ok in H. destruct H as (id & w2 & H2 & H).
  pose proof (readFile_Ok _ _ H2) as E2. simpl in E2. subst w2.
  destruct (bucketEntries _ _) as [ms0|e] eqn:Eb; [|discriminate].
  apply bind_Ok in H. destruct H as (pfs & w3 & H3 & H).
  pose proof (readPublicFiles_Ok _ _ H3) as E3. simpl in E3. subst w3.
  apply bind_Ok in H. destruct H as (d' & w4 & H4 & H).
  injection H as <- <-.
  exists pm, id, ms0, pfs. cbn [fst snd]. auto 10.
Qed.

(** X3. After a successful [prepareBuildManifests] the test [build] makes
    before it builds the API bundle holds exactly when the pages manifest
    has a page file under [pages/api] that is not an [.html] file. *)
Theorem prepareBuildManifests_hasAPIPages (b : Builder) (w w' : world)
    (ms : manifests) :
  prepareBuildManifests b w = Ok (ms, w') ->
  exists pagesManifest,
    readPagesManifest b w = Ok (pagesManifest, w) /\
    (hasAPIPages (snd ms) = true <->
     exists route pageFile,
       In (route, JStr pageFile) (entries pagesManifest) /\
       isHtmlPage pageFile = false /\ isApiPage pageFile = true).
Proof.
  intros H. apply prepareBuildManifests_inv in H.
  destruct H as (pm & id & ms0 & pfs & Hpm & _ & Hb & _ & _ & Hsnd).
  exists pm. split; [exact Hpm|]. rewrite Hsnd. clear Hsnd.
  assert (Ht : exists l, entries pm = map asMember l).
  { apply entries_typed.
    eapply bucketEntries_Ok_iff. eexists. exact Hb. }
  destruct Ht as [l Hl]. rewrite Hl in *.
  destruct (bucketEntries_groups l (initialManifests id
             (match logLambdaExecutionTimesOption (buildOptions b) with
              | Some v => v
              | None => false
              end))) as (ms1 & Hb1 & Hg).
  rewrite Hb in Hb1. injection Hb1 as <-.
  destruct (Hg ApiPage) as [Hd Hn]. cbn [groupOf initialManifests snd apis emptyGroup
                                          dynamic nonDynamic] in Hd, Hn.
  destruct ms0 as [d0 [g]]. cbn [snd apis] in *.
  rewrite (@hasAPIPages_spread g _ _ Hd Hn). split.
  - intros [Hne|Hne].
    + destruct (staticPart ApiPage l) as [|[route f] rest] eqn:E; [congruence|].
      assert (Hin : In (route, f) (staticPart ApiPage l)) by (rewrite E; now left).
      apply In_staticPart in Hin. destruct Hin as (Hin & _ & Hk).
      exists route, f. split; [|now apply kindOf_api].
      apply in_map_iff. now exists (route, f).
    + unfold dynamicPart in Hne.
      destruct (filter _ l) as [|[route f] rest] eqn:E; [now cbn in Hne|].
      assert (Hin : In (route, f)
                      (filter (fun e => isDynamicRoute (fst e) &&
                                        kind_eqb (kindOf (snd e)) ApiPage) l))
        by (rewrite E; now left).
      apply filter_In in Hin. destruct Hin as [Hin Hk].
      apply andb_prop in Hk. destruct Hk as [_ Hk]. apply kind_eqb_eq in Hk.
      exists route, f. split; [|now apply kindOf_api].
      apply in_map_iff. now exists (route, f).
  - intros (route & f & Hin & Hk). apply kindOf_api in Hk.
    apply in_map_iff in Hin. destruct Hin as ([route' f'] & E & Hin).
    injection E as -> ->.
    destruct (isDynamicRoute route) eqn:Hdyn.
    + right. unfold dynamicPart.
      assert (Hf : In (route, f)
                     (filter (fun e => isDynamicRoute (fst e) &&
                                       kind_eqb (kindOf (snd e)) ApiPage) l)).
      { apply filter_In. split; [exact Hin|]. cbn [fst snd].
        rewrite Hdyn, Hk. reflexivity. }
      destruct (filter _ l); [contradiction|discriminate].
    + left.
      assert (Hf : In (route, f) (staticPart ApiPage l))
        by (apply In_staticPart; auto).
      destruct (staticPart ApiPage l); [contradiction|discriminate].
Qed.

End BucketLoop.

Section ManifestFields.
Context {C : Collaborators}.
Import Obj ObjFacts SpreadFacts MFacts.

Lemma fold_publicFiles (l : list string) (o : obj string) :
  fold_left (fun acc pf => set ("/" ++ pf)%string pf acc) l o
  = spread o (map (fun pf => (("/" ++ pf)%string, pf)) l).
Proof.
  revert o. induction l as [|a l IH]; intros o; [reflexivity|].
  cbn [fold_left map]. rewrite IH. reflexivity.
Qed.

(** X4. The manifest of a successful [prepareBuildManifests] carries the
    text of [.next/BUILD_ID] as its build id, and the
    [logLambdaExecutionTimes] option, [false] when the option is not
    given. *)
Theorem prepareBuildManifests_buildId (b : Builder) (w w' : world)
    (ms : manifests) :
  prepareBuildManifests b w = Ok (ms, w') ->
  Fs.lookup (dotNextDir b ++ ["BUILD_ID"]) (files w)
    = Some (File (CText (buildId (fst ms)))) /\
  logLambdaExecutionTimes (fst ms)
    = match logLambdaExecutionTimesOption (buildOptions b) with
      | Some v => v
      | None => false
      end.
Proof.
  intros H. apply prepareBuildManifests_inv in H.
  destruct H as (pm & id & ms0 & pfs & _ & Hid & Hb & _ & Hc & _).
  apply readNextConfig_fields in Hc. destruct Hc as (-> & -> & _).
  apply bucketEntries_fields in Hb. destruct Hb as (Hi & Hl & _).
  cbn [withPublicFiles buildId logLambdaExecutionTimes] in *.
  cbn [initialManifests fst buildId logLambdaExecutionTimes] in Hi, Hl.
  rewrite Hi, Hl. split; [|reflexivity].
  unfold fse.readFile in Hid.
  destruct (Fs.lookup _ (files w)) as [[[t|v|m]|es]|]; try discriminate.
  now injection Hid as <-.
Qed.

(** X5. The [publicFiles] of the manifest bind, for each file
    [readPublicFiles] lists, the name with a leading slash to the name
    itself, and bind nothing else. *)
Theorem prepareBuildManifests_publicFiles (b : Builder) (w w' : world)
    (ms : manifests) :
  prepareBuildManifests b w = Ok (ms, w') ->
  exists listed,
    readPublicFiles b w = Ok (listed, w) /\
    forall k pf,
      get k (publicFiles (fst ms)) = Some pf <->
      In pf listed /\ k = ("/" ++ pf)%string.
Proof.
  intros H. apply prepareBuildManifests_inv in H.
  destruct H as (pm & id & ms0 & pfs & _ & _ & Hb & Hpf & Hc & _).
  exists pfs. split; [exact Hpf|]. intros k pf.
  apply readNextConfig_fields in Hc. destruct Hc as (_ & _ & -> & _).
  apply bucketEntries_fields in Hb. destruct Hb as (_ & _ & Hp).
  cbn [withPublicFiles publicFiles]. rewrite Hp.
  cbn [initialManifests fst publicFiles].
  rewrite fold_publicFiles.
  rewrite get_spread. cbn [get].
  split.
  - intros Hg.
    destruct (get k (rev _)) as [v|] eqn:E; [|discriminate].
    injection Hg as ->. apply get_In, in_rev, in_map_iff in E.
    destruct E as (pf' & E & Hin). injection E as <- ->. auto.
  - intros [Hin ->].
    rewrite (@In_get_agree _ ("/" ++ pf)%string pf); [reflexivity| |].
    + apply in_rev. rewrite rev_involutive. apply in_map_iff. now exists pf.
    + intros v' Hv. apply in_rev in Hv.
      apply in_map_iff in Hv. destruct Hv as (pf' & E & _).
      now injection E as -> <-.
Qed.

End ManifestFields.

(** ** Public files *)

Module PathStrings.
Import Str StrOps StrFacts.

Lemma prefix_app (p r : string) : String.prefix p (p ++ r) = true.
Proof.
  induction p as [|c p IH]; cbn; [now destruct r|].
  destruct (ascii_dec c c); [exact IH | congruence].
Qed.

Lemma index_prefix (p r : string) (c : ascii) :
  String.index 0 (String c p) (String c p ++ r) = Some 0.
Proof.
  pose proof (prefix_app (String c p) r) as H.
  cbn [append] in *. cbn [String.index]. now rewrite H.
Qed.

Lemma substring_all (s : string) : substring 0 (String.length s) s = s.
Proof. induction s as [|c s IH]; cbn; [reflexivity | now rewrite IH]. Qed.

Lemma length_app (p r : string) :
  String.length (p ++ r) = String.length p + String.length r.
Proof. induction p as [|c p IH]; cbn; [reflexivity | now rewrite IH]. Qed.

Lemma substring_drop (p r : string) :
  substring (String.length p) (String.length (p ++ r) - String.length p) (p ++ r) = r.
Proof.
  rewrite length_app. replace (_ + _ - _) with (String.length r) by lia.
  induction p as [|c p IH]; cbn; [apply substring_all | exact IH].
Qed.

(** The pattern taken off the front of a string that starts with it. *)
Lemma replaceFirst_front (p r : string) :
  p <> EmptyString -> replaceFirst (p ++ r) p "" = r.
Proof.
  intros Hp. destruct p as [|c p]; [congruence|].
  unfold replaceFirst. rewrite index_prefix.
  cbn [Nat.add]. rewrite substring_drop.
  now destruct (String c p ++ r)%string.
Qed.

Lemma split_from_segment (x cur rest : string) :
  slashFree x = true ->
  split_from "/" cur (x ++ String "/" rest)
  = (cur ++ x)%string :: split_from "/" "" rest.
Proof.
  revert cur. induction x as [|c x IH]; intros cur H.
  - cbn. now rewrite append_nil_r.
  - cbn in H. apply andb_prop in H. destruct H as [Hc Hx].
    cbn [append split_from]. destruct (Ascii.eqb c "/"); [discriminate|].
    rewrite IH by exact Hx. now rewrite append_assoc.
Qed.

Lemma split_from_last (x cur : string) :
  slashFree x = true -> split_from "/" cur x = [(cur ++ x)%string].
Proof.
  revert cur. induction x as [|c x IH]; intros cur H.
  - cbn. now rewrite append_nil_r.
  - cbn in H. apply andb_prop in H. destruct H as [Hc Hx].
    cbn [split_from]. destruct (Ascii.eqb c "/"); [discriminate|].
    rewrite IH by exact Hx. now rewrite append_assoc.
Qed.

(** Splitting at the separator undoes joining segments with it. *)
Lemma split_join (xs : list string) :
  xs <> [] -> Forall (fun seg => slashFree seg = true) xs ->
  split "/" (join "/" xs) = xs.
Proof.
  unfold split. induction xs as [|x xs IH]; [congruence|]. intros _ H.
  inversion H as [|? ? Hx Hxs]; subst.
  destruct xs as [|y xs].
  - cbn [join]. now rewrite split_from_last.
  - change (join "/" (x :: y :: xs)) with (x ++ String "/" (join "/" (y :: xs)))%string.
    rewrite split_from_segment by exact Hx.
    rewrite IH; [reflexivity | discriminate | exact Hxs].
Qed.

Lemma join_app (xs ys : list string) :
  xs <> [] -> ys <> [] ->
  join "/" (xs ++ ys) = (join "/" xs ++ "/" ++ join "/" ys)%string.
Proof.
  intros Hx Hy. induction xs as [|x xs IH]; [congruence|].
  destruct xs as [|x' xs].
  - destruct ys; [congruence|]. reflexivity.
  - change (join "/" ((x :: x' :: xs) ++ ys))
      with (x ++ "/" ++ join "/" ((x' :: xs) ++ ys))%string.
    rewrite IH by discriminate.
    change (join "/" (x :: x' :: xs)) with (x ++ "/" ++ join "/" (x' :: xs))%string.
    now rewrite !append_assoc.
Qed.

End PathStrings.

Section PublicFiles.
Context {C : Collaborators}.
Import PathStrings StrFacts.

(** X6. When [getAllFiles] lists the files of [public] by their full
    path, [readPublicFiles] gives each by its path relative to [public],
    segments joined with a slash; it gives no file when there is no
    [public] directory, and never changes the world. The directory of the
    application is not the root. *)
Theorem readPublicFiles_relative (b : Builder) (w : world) (rels : list path) :
  nextConfigDir b <> [] ->
  Forall (Forall (fun seg => slashFree seg = true)) rels ->
  getAllFiles (nextConfigDir b ++ ["public"]) (files w)
    = map (fun rel => Fs.render (nextConfigDir b ++ "public" :: rel)) rels ->
  readPublicFiles b w
  = Ok (match Fs.lookup (nextConfigDir b ++ ["public"]) (files w) with
        | Some _ => map (Str.join "/") rels
        | None => []
        end, w).
Proof.
  intros Hnc Hfree Hall. unfold readPublicFiles, bind, fse.pathExists.
  destruct (Fs.lookup _ (files w)); [|reflexivity].
  rewrite Hall, !map_map. do 2 f_equal.
  apply map_ext_in. intros rel Hin.
  rewrite Forall_forall in Hfree. specialize (Hfree rel Hin).
  unfold Fs.render.
  rewrite join_app by (exact Hnc || discriminate).
  change ("/" ++ (Str.join "/" (nextConfigDir b) ++ "/" ++ Str.join "/" ("public" :: rel)))%string
    with (("/" ++ Str.join "/" (nextConfigDir b)) ++
          Str.join "/" ("" :: "public" :: rel))%string.
  rewrite replaceFirst_front by discriminate.
  rewrite split_join; [reflexivity | discriminate|].
  repeat constructor. exact Hfree.
Qed.

End PublicFiles.

(** ** The run of [build] *)

Section BuildRun.
Context {C : Collaborators}.
Import MFacts FsFacts.
Local Open Scope M_scope.

Lemma filter_none {A : Type} (f : A -> bool) (l : list A) :
  (forall x, In x l -> f x = false) -> filter f l = [].
Proof.
  induction l as [|a l IH]; intros H; [reflexivity|].
  cbn. rewrite (H a) by now left. apply IH. intros x Hx. apply H. now right.
Qed.

(** What [fse.emptyDir] leaves: an empty directory, all else as it was. *)
Lemma emptyDir_Ok (p : path) (w w' : world) :
  fse.emptyDir p w = Ok (tt, w') ->
  Fs.lookup p (files w') = Some (Dir []) /\
  configCalls w' = configCalls w /\
  (forall q, Fs.apart p q -> Fs.lookup q (files w') = Fs.lookup q (files w)).
Proof.
  unfold fse.emptyDir.
  destruct (Fs.lookup p (files w)) as [[c|es]|] eqn:Hl.
  - unfold fse.mkdirs. rewrite Hl. discriminate.
  - rewrite all_remove. intros [= <-]. cbn [files with_files configCalls].
    split; [|split; [reflexivity|]].
    + rewrite (@lookup_fold_remove p (Obj.keys es) (files w) es Hl).
      rewrite fold_remove_filter. rewrite filter_none; [reflexivity|].
      intros e He. apply negb_false_iff, existsb_exists.
      exists (fst e). split; [now apply in_map | apply String.eqb_refl].
    + intros q Hq. now apply lookup_fold_remove_apart.
  - unfold fse.mkdirs. rewrite Hl.
    destruct (Fs.put p (Dir []) (files w)) as [n|] eqn:Hp; [|discriminate].
    intros [= <-]. cbn [files with_files configCalls].
    split; [eapply lookup_put_same, Hp|]. split; [reflexivity|].
    intros q Hq. eapply lookup_put_apart; eauto.
Qed.

(** X7. A successful [build] went through these steps: [.next] cleaned;
    both bundle directories emptied, nothing else touched by that, before
    the serverless configuration is put in place; the build command run
    to its end without a failure; the user's configuration restored; the
    bundles packaged from the state the restoration left. *)
Theorem build_run (b : Builder) (debugMode : bool) (w w' : world) :
  build b debugMode w = Ok (tt, w') ->
  exists cleaned emptied restoreUserConfig configured built restored,
    cleanupDotNext b w = Ok (tt, cleaned) /\
    Fs.lookup (outputDir b ++ [DEFAULT_LAMBDA_CODE_DIR]) (files emptied)
      = Some (Dir []) /\
    Fs.lookup (outputDir b ++ [API_LAMBDA_CODE_DIR]) (files emptied)
      = Some (Dir []) /\
    (forall q, Fs.apart (outputDir b ++ [DEFAULT_LAMBDA_CODE_DIR]) q ->
               Fs.apart (outputDir b ++ [API_LAMBDA_CODE_DIR]) q ->
               Fs.lookup q (files emptied) = Fs.lookup q (files cleaned)) /\
    createServerlessConfig (assigned cwd b []) (nextConfigDir b)
      (assigned useServerlessTraceTarget b false) emptied
      = Ok (restoreUserConfig, configured) /\
    execa (assigned cmd b "") (assigned args b []) (assigned cwd b [])
          (assigned env b []) configured = (None, built) /\
    restoreUserConfig built = Ok (tt, restored) /\
    packageStage b restored = Ok (tt, w').
Proof.
  unfold build, compileStage. intros H.
  apply bind_Ok in H. destruct H as ([] & compiled & Hc & Hpack).
  apply bind_Ok in Hc. destruct Hc as ([] & cleaned & Hclean & Hc).
  apply bind_Ok in Hc. destruct Hc as ([] & e1 & Hd & Hc).
  apply bind_Ok in Hc. destruct Hc as ([] & e2 & Ha & Hc).
  apply bind_Ok in Hc. destruct Hc as (restore & configured & Hconf & Hc).
  unfold tryFinally in Hc.
  destruct (execa _ _ _ _ configured) as [failure built] eqn:Hrun.
  destruct (restore built) as [[[] restored]|] eqn:Hres; [|discriminate].
  destruct failure; [discriminate|]. injection Hc as <-.
  destruct (emptyDir_Ok _ _ Hd) as (Dl & _ & Dframe).
  destruct (emptyDir_Ok _ _ Ha) as (Al & _ & Aframe).
  exists cleaned, e2, restore, configured, built, restored.
  split; [exact Hclean|]. split.
  { rewrite Aframe; [exact Dl|].
    change [DEFAULT_LAMBDA_CODE_DIR] with (DEFAULT_LAMBDA_CODE_DIR :: []).
    apply apart_bundles. }
  split; [exact Al|]. split.
  { intros q Hq1 Hq2. rewrite Aframe by exact Hq2. now apply Dframe. }
  auto.
Qed.

(** X8. When the build command fails, [build] fails: with the error of
    [restoreUserConfig] if the restoration, which is run all the same,
    fails too, and with the error of the command otherwise. Nothing is
    packaged. *)
Theorem build_command_failure (b : Builder) (debugMode : bool) (w : world)
    (restoreUserConfig : M unit) (configured failed : world) (e : error) :
  (cleanupDotNext b ;;;
   fse.emptyDir (outputDir b ++ [DEFAULT_LAMBDA_CODE_DIR]) ;;;
   fse.emptyDir (outputDir b ++ [API_LAMBDA_CODE_DIR]) ;;;
   createServerlessConfig (assigned cwd b []) (nextConfigDir b)
     (assigned useServerlessTraceTarget b false)) w
    = Ok (restoreUserConfig, configured) ->
  execa (assigned cmd b "") (assigned args b []) (assigned cwd b [])
        (assigned env b []) configured = (Some e, failed) ->
  build b debugMode w
  = Err (match restoreUserConfig failed with
         | Ok _ => e
         | Err e' => e'
         end).
Proof.
  intros Hpre Hrun. unfold build, compileStage.
  apply bind_Ok in Hpre. destruct Hpre as ([] & cleaned & Hclean & Hpre).
  apply bind_Ok in Hpre. destruct Hpre as ([] & e1 & Hd & Hpre).
  apply bind_Ok in Hpre. destruct Hpre as ([] & e2 & Ha & Hconf).
  unfold bind at 1. unfold bind at 1. rewrite Hclean.
  unfold bind at 1. rewrite Hd.
  unfold bind at 1. rewrite Ha.
  unfold bind at 1. rewrite Hconf.
  unfold tryFinally. rewrite Hrun.
  now destruct (restoreUserConfig failed) as [[[] r]|].
Qed.

End BuildRun.

(** ** What the packaging copies and what it leaves alone *)

Section BundleContents.
Context {C : Collaborators}.
Import MFacts FsFacts.

Ltac proceed H a w1 H1 :=
  apply bind_Ok in H; destruct H as (a & w1 & H1 & H).

Ltac sibling_paths := apply apart_siblings, name_neq; reflexivity.

Ltac framed lem H F :=
  pose proof lem as F; unfold touches_only in F;
  first [ specialize (F _ _ _ _ _ _ H) | specialize (F _ _ _ _ _ H)
        | specialize (F _ _ _ _ H) | specialize (F _ _ _ H)
        | specialize (F _ _ H) ].

(** A file copied without a filter arrives as it is. *)
Lemma copy_file (src dst : path) (c : content) (w w' : world) :
  fse.copy src dst None w = Ok (tt, w') ->
  Fs.lookup src (files w) = Some (File c) ->
  Fs.lookup dst (files w') = Some (File c).
Proof.
  unfold fse.copy. intros H Hsrc. rewrite Hsrc in H.
  destruct (Fs.is_prefix src dst); [discriminate|].
  cbn [Fs.prune Fs.merge] in H.
  destruct (Fs.lookup dst (files w)) as [[c0|es]|]; try discriminate;
    (destruct (Fs.put dst (File c) (files w)) as [r|] eqn:E; [|discriminate];
     injection H as <-; cbn [files with_files]; eapply lookup_put_same, E).
Qed.

Lemma requireObject_file (p : path) (w : world) (r : Obj.obj jsval * world) :
  requireObject p w = Ok r -> exists c, Fs.lookup p (files w) = Some (File c).
Proof.
  unfold requireObject, bind, require.
  destruct (Fs.lookup p (files w)) as [[c|es]|]; try discriminate. eauto.
Qed.

Lemma apart_within (d q : path) (x : string) (rx : path) :
  Fs.apart d q -> Fs.apart (d ++ x :: rx) q.
Proof. apply apart_below. Qed.

(** X9. Under options that keep every write below a bundle directory,
    the packaging stage of [build] leaves each path apart from the two
    bundle directories as it was. *)
Theorem packageStage_frame (b : Builder) (w w' : world) :
  plainOptions b ->
  packageStage b w = Ok (tt, w') ->
  forall q,
    Fs.apart (outputDir b ++ [DEFAULT_LAMBDA_CODE_DIR]) q ->
    Fs.apart (outputDir b ++ [API_LAMBDA_CODE_DIR]) q ->
    Fs.lookup q (files w') = Fs.lookup q (files w).
Proof.
  intros _ H q Hd Ha. unfold packageStage in H.
  proceed H ms prepared Hprep.
  proceed H u w1 Hdef. destruct u.
  pose proof (@prepareBuildManifests_files _ _ _ _ _ Hprep) as Hfiles.
  destruct (buildDefaultLambda_emits _ _ _ Hdef) as (_ & _ & _ & Dframe).
  rewrite <- Hfiles, <- (Dframe q Hd).
  destruct (hasAPIPages (snd ms)).
  - destruct (buildApiLambda_emits _ _ _ H) as (_ & _ & _ & Aframe).
    now apply Aframe.
  - now injection H as <-.
Qed.

End BundleContents.

(** ** Running a step again *)

Section Again.
Context {C : Collaborators}.
Import Obj ObjFacts MFacts FsFacts.

(** X12. [cleanupDotNext] run again after it has succeeded changes
    nothing: it succeeds and leaves the world as the first run left it. *)
Theorem cleanupDotNext_idempotent (b : Builder) (w w' : world) :
  cleanupDotNext b w = Ok (tt, w') -> cleanupDotNext b w' = Ok (tt, w').
Proof.
  unfold cleanupDotNext, bind, fse.pathExists, fse.readdir. cbn beta.
  destruct (Fs.lookup (dotNextDir b) (files w)) as [[c|es]|] eqn:Hl;
    cbn beta iota; rewrite ?Hl.
  - discriminate.
  - rewrite all_remove. intros [= <-]. cbn [files with_files].
    rewrite (@lookup_fold_remove (dotNextDir b) _ (files w) es Hl).
    cbn beta iota. cbn [files with_files].
    rewrite (@lookup_fold_remove (dotNextDir b) _ (files w) es Hl).
    rewrite fold_remove_filter, keep_cache.
    rewrite filter_none; [reflexivity|].
    intros k Hk. unfold keys in Hk. apply in_map_iff in Hk.
    destruct Hk as (e & <- & He). apply filter_In in He.
    destruct He as [_ He]. now rewrite He.
  - intros [= <-]. now rewrite Hl.
Qed.

Lemma spread_ordered {V : Type} (acc rest : obj V) :
  js_ordered (acc ++ rest) -> spread acc rest = acc ++ rest.
Proof.
  revert acc. induction rest as [|[k v] rest IH]; intros acc H.
  - now rewrite app_nil_r.
  - cbn. cbn [fst snd].
    assert (Hset : set k v acc = acc ++ [(k, v)]).
    { destruct H as [Hnd Hord]. unfold keys in *. rewrite map_app in *.
      apply set_last.
      - apply NoDup_remove_2 in Hnd. intros Hin. apply Hnd, in_or_app. now left.
      - eapply ordered_goes_last. exact Hord. }
    unfold spread in IH. rewrite Hset, IH; rewrite <- app_assoc; [reflexivity|exact H].
Qed.

(** The members of an object in property order denote that object. *)
Lemma of_members_ordered {V : Type} (o : obj V) :
  js_ordered o -> of_members o = o.
Proof. intros H. unfold of_members. now rewrite spread_ordered. Qed.

Lemma update_same {V : Type} (k : string) (v : V) (o : obj V) :
  get k o = Some v -> update k v o = o.
Proof.
  induction o as [|[k' v'] o IH]; cbn; [reflexivity|].
  destruct (String.eqb k k') eqn:E.
  - now intros [= ->].
  - intros H. now rewrite IH.
Qed.

Lemma set_same {V : Type} (k : string) (v : V) (o : obj V) :
  get k o = Some v -> set k v o = o.
Proof. intros H. unfold set. rewrite H. now apply update_same. Qed.

Lemma filter_twice {A : Type} (f : A -> bool) (l : list A) :
  filter f (filter f l) = filter f l.
Proof.
  induction l as [|a l IH]; [reflexivity|]. cbn.
  destruct (f a) eqn:E; [cbn; now rewrite E, IH | exact IH].
Qed.

(** X13. [processAndCopyRoutesManifest] applied to the manifest it has
    written writes the same manifest: a redirect it keeps once it keeps
    again, and the other fields and their order stay. *)
Theorem processAndCopyRoutesManifest_idempotent
    (source destination again : path) (w w' w'' : world) :
  processAndCopyRoutesManifest source destination w = Ok (tt, w') ->
  processAndCopyRoutesManifest destination again w' = Ok (tt, w'') ->
  Fs.lookup again (files w'') = Fs.lookup destination (files w').
Proof.
  unfold processAndCopyRoutesManifest. intros H1 H2.
  apply bind_Ok in H1. destruct H1 as (rm & w1 & Hreq & H1).
  assert (Hrm : w1 = w /\ js_ordered rm).
  { unfold requireObject in Hreq. apply bind_Ok in Hreq.
    destruct Hreq as (m & w2 & Hm & Hreq). apply require_Ok in Hm. simpl in Hm.
    subst w2. destruct m as [v|f]; [|discriminate].
    destruct v; try discriminate. injection Hreq as <- <-.
    split; [reflexivity | apply js_ordered_of_members]. }
  destruct Hrm as [-> Hord].
  destruct (get "redirects" rm) as [[| | | | |rs|]|] eqn:Hred; try discriminate.
  set (kept := filter (fun redirect =>
                         negb (isTrailingSlashRedirect redirect (at_key rm "basePath")))
                      rs) in *.
  set (written := set "redirects" (JArr kept) rm) in *.
  assert (Hl1 : Fs.lookup destination (files w')
                = Some (File (CJson (JObj written))))
    by (eapply writeFile_lands, H1).
  apply bind_Ok in H2. destruct H2 as (rm' & w2 & Hreq' & H2).
  unfold requireObject, bind, require in Hreq'. rewrite Hl1 in Hreq'.
  cbn [expectObject] in Hreq'. injection Hreq' as <- <-.
  assert (Hwritten : js_ordered written) by now apply js_ordered_set.
  rewrite (of_members_ordered Hwritten) in H2.
  assert (Hget : get "redirects" written = Some (JArr kept)) by apply get_set_same.
  rewrite Hget in H2.
  assert (Hbase : at_key written "basePath" = at_key rm "basePath").
  { unfold at_key, written. now rewrite get_set_other by discriminate. }
  rewrite Hbase in H2. fold kept in H2. unfold kept at 1 in H2.
  rewrite filter_twice in H2. fold kept in H2.
  rewrite (set_same _ _ Hget) in H2.
  rewrite Hl1. eapply writeFile_lands, H2.
Qed.

End Again.

(** ** The trees a copy leaves *)

Module TreeFacts.
Import Fs Obj ObjFacts FsFacts.

Lemma distinct_NoDup (names : list string) :
  distinct names = true -> NoDup names.
Proof.
  induction names as [|s rest IH]; cbn; intros H; constructor.
  - apply andb_prop in H. destruct H as [H _].
    intros Hin. apply negb_true_iff in H.
    assert (E : existsb (String.eqb s) rest = true).
    { apply existsb_exists. exists s. split; [exact Hin | apply String.eqb_refl]. }
    congruence.
  - apply IH. apply andb_prop in H. tauto.
Qed.

Lemma wellFormed_child (es : list (string * node)) (s : string) (child : node) :
  wellFormed (Dir es) = true -> get s es = Some child ->
  wellFormed child = true.
Proof.
  cbn [wellFormed]. intros H Hg. apply andb_prop in H. destruct H as [_ H].
  induction es as [|[s' c'] es IH]; [discriminate|].
  apply andb_prop in H. destruct H as [Hc Hrest].
  cbn [get] in Hg. destruct (String.eqb s s').
  - now injection Hg as <-.
  - now apply IH.
Qed.

Lemma wellFormed_names (es : list (string * node)) :
  wellFormed (Dir es) = true -> NoDup (keys es).
Proof.
  cbn [wellFormed]. intros H. apply andb_prop in H. now apply distinct_NoDup.
Qed.

Lemma lookup_below_None (p r : path) (n : node) :
  lookup p n = None -> lookup (p ++ r) n = None.
Proof.
  revert n. induction p as [|s p IH]; intros n; [discriminate|].
  cbn [app lookup]. destruct n as [c|es]; [reflexivity|].
  destruct (get s es); [apply IH | reflexivity].
Qed.

Lemma lookup_app (p r : path) (n : node) :
  lookup (p ++ r) n
  = match lookup p n with Some m => lookup r m | None => None end.
Proof.
  revert n. induction p as [|s p IH]; intros n; [reflexivity|].
  cbn [app lookup]. destruct n as [c|es]; [reflexivity|].
  destruct (get s es); [apply IH | reflexivity].
Qed.

Lemma lookup_put_below (p r : path) (new n n' : node) :
  put p new n = Some n' -> lookup (p ++ r) n' = lookup r new.
Proof.
  intros H. rewrite lookup_app. now rewrite (lookup_put_same _ _ _ H).
Qed.

Lemma apart_sym (p q : path) : apart p q -> apart q p.
Proof. unfold apart. tauto. Qed.

Lemma apart_extend (d q r : path) : apart d q -> apart d (q ++ r).
Proof. intros H. apply apart_sym, apart_below, apart_sym, H. Qed.

Lemma prune_Dir (flt : string -> bool) (p : path) (es : list (string * node)) :
  prune flt p (Dir es)
  = if flt (render p) then Some (Dir (pruned flt p es)) else None.
Proof. reflexivity. Qed.

Lemma prune_File (flt : string -> bool) (p : path) (c : content) :
  prune flt p (File c) = if flt (render p) then Some (File c) else None.
Proof. reflexivity. Qed.

Lemma keys_pruned (flt : string -> bool) (p : path) (es : list (string * node))
    (s : string) :
  In s (keys (pruned flt p es)) -> In s (keys es).
Proof.
  induction es as [|[s' c'] es IH]; cbn; [tauto|].
  destruct (prune flt (p ++ [s']) c'); cbn; tauto.
Qed.

Lemma get_pruned (flt : string -> bool) (p : path) (es : list (string * node))
    (s : string) :
  NoDup (keys es) ->
  get s (pruned flt p es)
  = match get s es with
    | Some child => prune flt (p ++ [s]) child
    | None => None
    end.
Proof.
  induction es as [|[s' c'] es IH]; [reflexivity|].
  cbn [keys map fst]. intros Hnd. inversion Hnd as [|? ? Hnot Hnd']; subst.
  cbn [pruned get]. destruct (String.eqb s s') eqn:E.
  - apply String.eqb_eq in E. subst s'.
    destruct (prune flt (p ++ [s]) c') as [child'|] eqn:Ep.
    + cbn [get]. now rewrite String.eqb_refl.
    + apply get_None_iff. intros Hin. apply Hnot. eapply keys_pruned, Hin.
  - destruct (prune flt (p ++ [s']) c'); [cbn [get]; rewrite E|]; now apply IH.
Qed.

(** The files of the part of a tree a filter lets through. *)
Lemma prune_files (flt : string -> bool) (r p : path) (n : node) (c : content) :
  wellFormed n = true ->
  match prune flt p n with
  | Some kept => lookup r kept
  | None => None
  end = Some (File c) <->
  lookup r n = Some (File c) /\ admitted flt p r = true.
Proof.
  revert p n. induction r as [|s r IH]; intros p n Hwf.
  - cbn [lookup admitted]. rewrite andb_true_r.
    destruct n as [c'|es]; [rewrite prune_File | rewrite prune_Dir];
      destruct (flt (render p)); split;
      try (intros [H _]; exact H); try discriminate; try tauto;
      intros [H Hf]; congruence.
  - destruct n as [c'|es].
    + rewrite prune_File. cbn [lookup]. destruct (flt (render p));
        split; try discriminate; intros [H _]; discriminate.
    + rewrite prune_Dir. cbn [admitted]. destruct (flt (render p)); cbn [andb].
      * rewrite !lookup_Dir. rewrite get_pruned by now apply wellFormed_names.
        destruct (get s es) as [child|] eqn:Hg.
        -- apply IH. eapply wellFormed_child; eauto.
        -- split; [discriminate | intros [H _]; discriminate].
      * split; [discriminate | intros [_ H]; discriminate].
Qed.

Lemma merge_Dir_None (es : list (string * node)) :
  merge (Dir es) None = option_map Dir (merged es []).
Proof. reflexivity. Qed.

Lemma get_merged (es acc acc' : list (string * node)) (s : string) :
  NoDup (keys es) ->
  (forall k, In k (keys es) -> ~ In k (keys acc)) ->
  merged es acc = Some acc' ->
  match get s acc with
  | Some x => get s acc' = Some x
  | None =>
      match get s es with
      | Some child => exists child', merge child None = Some child' /\ get s acc' = Some child'
      | None => get s acc' = None
      end
  end.
Proof.
  revert acc. induction es as [|[s' c'] es IH]; intros acc Hnd Hdisj H.
  - cbn in H. injection H as <-. now destruct (get s acc).
  - cbn [keys map fst] in Hnd. inversion Hnd as [|? ? Hnot Hnd']; subst.
    cbn [merged] in H.
    assert (Hs' : get s' acc = None).
    { apply get_None_iff. apply Hdisj. now left. }
    rewrite Hs' in H.
    destruct (merge c' None) as [child'|] eqn:Em; [|discriminate].
    assert (Hdisj' : forall k, In k (keys es) ->
                               ~ In k (keys (acc ++ [(s', child')]))).
    { intros k Hk Hin. unfold keys in Hin. rewrite map_app in Hin.
      apply in_app_or in Hin. destruct Hin as [Hin|[<-|[]]].
      - apply (Hdisj k); [now right | exact Hin].
      - now apply Hnot. }
    specialize (IH (acc ++ [(s', child')]) Hnd' Hdisj' H).
    rewrite get_app in IH. cbn [get] in IH |- *.
    destruct (get s acc) as [x|] eqn:Ea; [exact IH|].
    destruct (String.eqb s s') eqn:E.
    + apply String.eqb_eq in E. subst s'. exists child'. now split.
    + exact IH.
Qed.

Lemma NoDup_keys_pruned (flt : string -> bool) (p : path)
    (es : list (string * node)) :
  NoDup (keys es) -> NoDup (keys (pruned flt p es)).
Proof.
  induction es as [|[s c] es IH]; cbn [keys map fst pruned]; intros H;
    [constructor|].
  inversion H as [|? ? Hnot Hnd]; subst.
  destruct (prune flt (p ++ [s]) c); [|now apply IH].
  cbn [map fst]. constructor; [|now apply IH].
  intros Hin. apply Hnot. eapply keys_pruned, Hin.
Qed.

(** The files of a tree that went through a filter and was laid where
    nothing was. *)
Lemma copied_files (flt : string -> bool) (r p : path) (n kept m : node)
    (c : content) :
  wellFormed n = true ->
  prune flt p n = Some kept -> merge kept None = Some m ->
  (lookup r m = Some (File c) <->
   lookup r n = Some (File c) /\ admitted flt p r = true).
Proof.
  revert p n kept m. induction r as [|s r IH]; intros p n kept m Hwf Hk Hm.
  - cbn [lookup admitted]. rewrite andb_true_r.
    destruct n as [c'|es].
    + rewrite prune_File in Hk. destruct (flt (render p)); [|discriminate].
      injection Hk as <-. cbn in Hm. injection Hm as <-. tauto.
    + rewrite prune_Dir in Hk. destruct (flt (render p)); [|discriminate].
      injection Hk as <-. rewrite merge_Dir_None in Hm.
      destruct (merged _ []); [|discriminate]. injection Hm as <-.
      split; [discriminate | intros [H _]; discriminate].
  - destruct n as [c'|es].
    + rewrite prune_File in Hk. destruct (flt (render p)); [|discriminate].
      injection Hk as <-. cbn in Hm. injection Hm as <-. cbn [lookup].
      split; [discriminate | intros [H _]; discriminate].
    + rewrite prune_Dir in Hk. cbn [admitted].
      destruct (flt (render p)); [|discriminate]. cbn [andb].
      injection Hk as <-. rewrite merge_Dir_None in Hm.
      destruct (merged (pruned flt p es) []) as [acc|] eqn:Ea; [|discriminate].
      injection Hm as <-. rewrite !lookup_Dir.
      pose proof (@wellFormed_names es Hwf) as Hnd.
      pose proof (@get_merged (pruned flt p es) [] acc s
                    (@NoDup_keys_pruned flt p es Hnd) (fun _ _ H => H) Ea) as Hg.
      cbn [get] in Hg. rewrite (@get_pruned flt p es s Hnd) in Hg.
      destruct (get s es) as [child|] eqn:Hs.
      * pose proof (@prune_files flt r (p ++ [s]) child c
                      (@wellFormed_child es s child Hwf Hs)) as Hp.
        destruct (prune flt (p ++ [s]) child) as [kchild|] eqn:Ek.
        -- destruct Hg as (mchild & Em & ->).
           eapply IH; [eapply wellFormed_child; eauto | exact Ek | exact Em].
        -- rewrite Hg, <- Hp. tauto.
      * rewrite Hg. split; [discriminate | intros [H _]; discriminate].
Qed.

(** The files a copy leaves at a destination where nothing was: those of
    the source that the filter admits with all above them. *)
Lemma copy_files (flt : option (string -> bool)) (src dst : path) (n : node)
    (w w' : world) :
  Fs.lookup src (files w) = Some n ->
  wellFormed n = true ->
  Fs.lookup dst (files w) = None ->
  fse.copy src dst flt w = Ok (tt, w') ->
  forall r c,
    Fs.lookup (dst ++ r) (files w') = Some (File c) <->
    Fs.lookup r n = Some (File c) /\
    admitted (match flt with Some f => f | None => fun _ => true end) src r = true.
Proof.
  intros Hsrc Hwf Hdst H r c. unfold fse.copy in H. rewrite Hsrc, Hdst in H.
  destruct (is_prefix src dst); [discriminate|].
  pose proof (@prune_files (match flt with Some f => f | None => fun _ => true end)
                r src n c Hwf) as Hp.
  destruct (prune _ src n) as [kept|] eqn:Ek.
  - destruct (merge kept None) as [m|] eqn:Em; [|discriminate].
    destruct (put dst m (files w)) as [root|] eqn:Eput; [|discriminate].
    injection H as <-. cbn [files with_files].
    rewrite (lookup_put_below _ _ _ _ Eput).
    eapply copied_files; eauto.
  - injection H as <-. rewrite lookup_below_None by exact Hdst.
    rewrite <- Hp. split; [discriminate | tauto].
Qed.

End TreeFacts.

(** ** The bundles, file by file *)

Section BundlePages.
Context {C : Collaborators}.
Import MFacts FsFacts TreeFacts.

Ltac proceed H a w1 H1 :=
  apply bind_Ok in H; destruct H as (a & w1 & H1 & H).

Ltac sibling_paths := apply apart_siblings, name_neq; reflexivity.

Ltac framed lem H F :=
  pose proof lem as F; unfold touches_only in F;
  first [ specialize (F _ _ _ _ _ _ H) | specialize (F _ _ _ _ _ H)
        | specialize (F _ _ _ _ H) | specialize (F _ _ _ H)
        | specialize (F _ _ H) ].

Lemma admitted_leaf (flt : string -> bool) (p r : path) :
  admitted flt p r = true -> flt (Fs.render (p ++ r)) = true.
Proof.
  revert p. induction r as [|s r IH]; intros p H; cbn [admitted] in H;
    apply andb_prop in H; destruct H as [Hp Hr].
  - now rewrite app_nil_r.
  - apply IH in Hr. now rewrite <- app_assoc in Hr.
Qed.

Lemma admitted_all (p r : path) : admitted (fun _ => true) p r = true.
Proof. revert p. induction r as [|s r IH]; intros p; cbn; auto. Qed.


Lemma wellFormed_lookup (r : path) (n m : node) :
  wellFormed n = true -> Fs.lookup r n = Some m -> wellFormed m = true.
Proof.
  revert n. induction r as [|s r IH]; intros n Hwf Hl.
  - cbn in Hl. now injection Hl as <-.
  - destruct n as [c|es]; [discriminate|]. rewrite lookup_Dir in Hl.
    destruct (Obj.get s es) as [child|] eqn:Hs; [|discriminate].
    eapply IH; [|exact Hl]. eapply wellFormed_child; eauto.
Qed.

Lemma lookup_empty_below (p : path) (s : string) (r : path) (n : node) :
  Fs.lookup p n = Some (Dir []) -> Fs.lookup (p ++ s :: r) n = None.
Proof. intros H. rewrite lookup_app, H. reflexivity. Qed.

(** The operations of [buildDefaultLambda] when there is neither a trace
    target nor a handler of the user's, one after the other. *)
Lemma buildDefaultLambda_steps (b : Builder)
    (d : OriginRequestDefaultHandlerManifest) (w w' : world) :
  useServerlessTraceTarget (buildOptions b) <> Some true ->
  handler (buildOptions b) = None ->
  buildDefaultLambda b d w = Ok (tt, w') ->
  exists prerenderManifest s2 s3 s4 s5,
    requireObject (dotNextDir b ++ ["prerender-manifest.json"]) w
      = Ok (prerenderManifest, w) /\
    fse.copy (require_resolve "@sls-next/lambda-at-edge/dist/default-handler.js")
             (outputDir b ++ [DEFAULT_LAMBDA_CODE_DIR; "index.js"]) None w
      = Ok (tt, s2) /\
    fse.writeJson (outputDir b ++ [DEFAULT_LAMBDA_CODE_DIR; "manifest.json"])
                  (Json.ofDefaultManifest d) s2 = Ok (tt, s3) /\
    fse.copy (serverlessDir b ++ ["pages"])
             (outputDir b ++ [DEFAULT_LAMBDA_CODE_DIR; "pages"])
             (Some (pagesCopyFilter b
                      (match Fs.lookup (serverlessDir b ++ ["pages"; "api"])
                                       (files w) with
                       | Some _ => true
                       | None => false
                       end) prerenderManifest)) s3 = Ok (tt, s4) /\
    fse.copy (dotNextDir b ++ ["prerender-manifest.json"])
             (outputDir b ++ [DEFAULT_LAMBDA_CODE_DIR; "prerender-manifest.json"])
             None s4 = Ok (tt, s5) /\
    processAndCopyRoutesManifest
      (dotNextDir b ++ ["routes-manifest.json"])
      (outputDir b ++ [DEFAULT_LAMBDA_CODE_DIR; "routes-manifest.json"]) s5
      = Ok (tt, w').
Proof.
  intros Hnotrace Hnohandler H. unfold buildDefaultLambda in H.
  proceed H traces w1 Htr.
  assert (Htraces : w1 = w /\ traces = []).
  { destruct (useServerlessTraceTarget (buildOptions b)) as [[|]|];
      [congruence| |]; now injection Htr as <- <-. }
  destruct Htraces as [-> ->].
  proceed H pm w2 Hpm.
  pose proof (requireObject_Ok _ _ Hpm) as Hw. simpl in Hw. subst w2.
  proceed H hasApi w3 Hex. apply pathExists_Ok in Hex. injection Hex as -> ->.
  cbn [app all] in H.
  proceed H u1 s1 Hov. destruct u1.
  assert (s1 = w) as ->.
  { unfold copyHandlerOverride in Hov. rewrite Hnohandler in Hov.
    now injection Hov. }
  proceed H u2 s2 Hidx. destruct u2.
  proceed H u3 s3 Hman. destruct u3.
  proceed H u4 s4 Hpages. destruct u4.
  proceed H u5 s5 Hcopy. destruct u5.
  proceed H u6 s6 Hroutes. destruct u6.
  injection H as <-.
  exists pm, s2, s3, s4, s5. auto 10.
Qed.

(** What these operations leave in the page bundle. *)
Lemma buildDefaultLambda_bundle (b : Builder)
    (d : OriginRequestDefaultHandlerManifest) (w w' : world) :
  useServerlessTraceTarget (buildOptions b) <> Some true ->
  handler (buildOptions b) = None ->
  buildDefaultLambda b d w = Ok (tt, w') ->
  exists prerenderManifest,
    requireObject (dotNextDir b ++ ["prerender-manifest.json"]) w
      = Ok (prerenderManifest, w) /\
    (forall c,
        Fs.lookup (require_resolve "@sls-next/lambda-at-edge/dist/default-handler.js")
                  (files w) = Some (File c) ->
        Fs.lookup (outputDir b ++ [DEFAULT_LAMBDA_CODE_DIR; "index.js"]) (files w')
        = Some (File c)) /\
    (Fs.apart (outputDir b ++ [DEFAULT_LAMBDA_CODE_DIR])
              (dotNextDir b ++ ["prerender-manifest.json"]) ->
     exists c,
       Fs.lookup (dotNextDir b ++ ["prerender-manifest.json"]) (files w)
         = Some (File c) /\
       Fs.lookup (outputDir b ++ [DEFAULT_LAMBDA_CODE_DIR; "prerender-manifest.json"])
                 (files w') = Some (File c)) /\
    (forall pages,
        Fs.lookup (serverlessDir b ++ ["pages"]) (files w) = Some pages ->
        wellFormed pages = true ->
        Fs.lookup (outputDir b ++ [DEFAULT_LAMBDA_CODE_DIR; "pages"]) (files w) = None ->
        Fs.apart (outputDir b ++ [DEFAULT_LAMBDA_CODE_DIR])
                 (serverlessDir b ++ ["pages"]) ->
        forall r c,
          Fs.lookup (outputDir b ++ [DEFAULT_LAMBDA_CODE_DIR; "pages"] ++ r)
                    (files w') = Some (File c) <->
          Fs.lookup r pages = Some (File c) /\
          admitted
            (pagesCopyFilter b
               (match Fs.lookup (serverlessDir b ++ ["pages"; "api"]) (files w) with
                | Some _ => true
                | None => false
                end) prerenderManifest)
            (serverlessDir b ++ ["pages"]) r = true).
Proof.
  intros Hnotrace Hnohandler H.
  destruct (buildDefaultLambda_steps _ _ _ Hnotrace Hnohandler H)
    as (pm & s2 & s3 & s4 & s5 & Hpm & Hidx & Hman & Hpages & Hcopy & Hroutes).
  framed touches_only_copy Hidx Fidx.
  framed touches_only_writeFile Hman Fman.
  framed touches_only_copy Hpages Fpages.
  framed touches_only_copy Hcopy Fcopy.
  framed (@touches_only_routes C) Hroutes Froutes.
  assert (Hin : forall q x rx,
             Fs.apart (outputDir b ++ [DEFAULT_LAMBDA_CODE_DIR]) q ->
             Fs.apart (outputDir b ++ DEFAULT_LAMBDA_CODE_DIR :: x :: rx) q).
  { intros q x rx Hq.
    change (outputDir b ++ DEFAULT_LAMBDA_CODE_DIR :: x :: rx)
      with (outputDir b ++ [DEFAULT_LAMBDA_CODE_DIR] ++ x :: rx).
    rewrite app_assoc. now apply apart_below. }
  exists pm. split; [exact Hpm|]. split; [|split].
  - intros c Hc.
    rewrite Froutes by sibling_paths. rewrite Fcopy by sibling_paths.
    rewrite Fpages by sibling_paths. rewrite Fman by sibling_paths.
    eapply copy_file; [exact Hidx | exact Hc].
  - intros Hpre. destruct (requireObject_file _ _ Hpm) as [c Hc].
    exists c. split; [exact Hc|].
    rewrite Froutes by sibling_paths.
    eapply copy_file; [exact Hcopy|].
    rewrite Fpages by (apply Hin, Hpre). rewrite Fman by (apply Hin, Hpre).
    rewrite Fidx by (apply Hin, Hpre). exact Hc.
  - intros pages Hsrc Hwf Hfresh Hapart r c.
    assert (Hsrc3 : Fs.lookup (serverlessDir b ++ ["pages"]) (files s3) = Some pages).
    { rewrite Fman by (apply Hin, Hapart). rewrite Fidx by (apply Hin, Hapart).
      exact Hsrc. }
    assert (Hfresh3 : Fs.lookup (outputDir b ++ [DEFAULT_LAMBDA_CODE_DIR; "pages"])
                                (files s3) = None).
    { rewrite Fman by sibling_paths. rewrite Fidx by sibling_paths. exact Hfresh. }
    pose proof (@copy_files _ _ _ _ _ _ Hsrc3 Hwf Hfresh3 Hpages r c) as Hfiles.
    cbv beta iota in Hfiles. rewrite <- Hfiles.
    cbn [app]. rewrite Froutes by sibling_paths. rewrite Fcopy by sibling_paths.
    rewrite <- app_assoc. reflexivity.
Qed.

(** The operations of [buildApiLambda] in the same case. *)
Lemma buildApiLambda_steps (b : Builder)
    (a : OriginRequestApiHandlerManifest) (w w' : world) :
  useServerlessTraceTarget (buildOptions b) <> Some true ->
  handler (buildOptions b) = None ->
  buildApiLambda b a w = Ok (tt, w') ->
  exists s2 s3 s4,
    fse.copy (require_resolve "@sls-next/lambda-at-edge/dist/api-handler.js")
             (outputDir b ++ [API_LAMBDA_CODE_DIR; "index.js"]) None w
      = Ok (tt, s2) /\
    fse.copy (serverlessDir b ++ ["pages"; "api"])
             (outputDir b ++ [API_LAMBDA_CODE_DIR; "pages"; "api"]) None s2
      = Ok (tt, s3) /\
    fse.writeJson (outputDir b ++ [API_LAMBDA_CODE_DIR; "manifest.json"])
                  (Json.ofApiManifest a) s3 = Ok (tt, s4) /\
    fse.copy (dotNextDir b ++ ["routes-manifest.json"])
             (outputDir b ++ [API_LAMBDA_CODE_DIR; "routes-manifest.json"])
             None s4 = Ok (tt, w').
Proof.
  intros Hnotrace Hnohandler H. unfold buildApiLambda in H.
  proceed H traces w1 Htr.
  assert (Htraces : w1 = w /\ traces = []).
  { destruct (useServerlessTraceTarget (buildOptions b)) as [[|]|];
      [congruence| |]; now injection Htr as <- <-. }
  destruct Htraces as [-> ->].
  cbn [app all] in H.
  proceed H u1 s1 Hov. destruct u1.
  assert (s1 = w) as ->.
  { unfold copyHandlerOverride in Hov. rewrite Hnohandler in Hov.
    now injection Hov. }
  proceed H u2 s2 Hidx. destruct u2.
  proceed H u3 s3 Hpages. destruct u3.
  proceed H u4 s4 Hman. destruct u4.
  proceed H u5 s5 Hroutes. destruct u5.
  injection H as <-.
  exists s2, s3, s4. auto.
Qed.

(** What they leave in the API bundle. *)
Lemma buildApiLambda_bundle (b : Builder)
    (a : OriginRequestApiHandlerManifest) (w w' : world) :
  useServerlessTraceTarget (buildOptions b) <> Some true ->
  handler (buildOptions b) = None ->
  buildApiLambda b a w = Ok (tt, w') ->
  (forall c,
      Fs.lookup (require_resolve "@sls-next/lambda-at-edge/dist/api-handler.js")
                (files w) = Some (File c) ->
      Fs.lookup (outputDir b ++ [API_LAMBDA_CODE_DIR; "index.js"]) (files w')
      = Some (File c)) /\
  (Fs.apart (outputDir b ++ [API_LAMBDA_CODE_DIR])
            (dotNextDir b ++ ["routes-manifest.json"]) ->
   forall c,
     Fs.lookup (dotNextDir b ++ ["routes-manifest.json"]) (files w)
       = Some (File c) ->
     Fs.lookup (outputDir b ++ [API_LAMBDA_CODE_DIR; "routes-manifest.json"])
               (files w') = Some (File c)) /\
  (Fs.apart (outputDir b ++ [API_LAMBDA_CODE_DIR])
            (serverlessDir b ++ ["pages"; "api"]) ->
   exists api,
     Fs.lookup (serverlessDir b ++ ["pages"; "api"]) (files w) = Some api /\
     (wellFormed api = true ->
      Fs.lookup (outputDir b ++ [API_LAMBDA_CODE_DIR; "pages"; "api"]) (files w)
        = None ->
      forall r c,
        Fs.lookup (outputDir b ++ [API_LAMBDA_CODE_DIR; "pages"; "api"] ++ r)
                  (files w') = Some (File c) <->
        Fs.lookup r api = Some (File c))).
Proof.
  intros Hnotrace Hnohandler H.
  destruct (buildApiLambda_steps _ _ _ Hnotrace Hnohandler H)
    as (s2 & s3 & s4 & Hidx & Hpages & Hman & Hroutes).
  framed touches_only_copy Hidx Fidx.
  framed touches_only_copy Hpages Fpages.
  framed touches_only_writeFile Hman Fman.
  framed touches_only_copy Hroutes Froutes.
  assert (Hin : forall q x rx,
             Fs.apart (outputDir b ++ [API_LAMBDA_CODE_DIR]) q ->
             Fs.apart (outputDir b ++ API_LAMBDA_CODE_DIR :: x :: rx) q).
  { intros q x rx Hq.
    change (outputDir b ++ API_LAMBDA_CODE_DIR :: x :: rx)
      with (outputDir b ++ [API_LAMBDA_CODE_DIR] ++ x :: rx).
    rewrite app_assoc. now apply apart_below. }
  split; [|split].
  - intros c Hc.
    rewrite Froutes by sibling_paths. rewrite Fman by sibling_paths.
    rewrite Fpages by sibling_paths.
    eapply copy_file; [exact Hidx | exact Hc].
  - intros Hsrc c Hc. eapply copy_file; [exact Hroutes|].
    rewrite Fman by (apply Hin, Hsrc). rewrite Fpages by (apply Hin, Hsrc).
    rewrite Fidx by (apply Hin, Hsrc). exact Hc.
  - intros Hapart.
    destruct (Fs.lookup (serverlessDir b ++ ["pages"; "api"]) (files s2))
      as [api|] eqn:Hsrc2.
    2:{ unfold fse.copy in Hpages. rewrite Hsrc2 in Hpages. discriminate. }
    pose proof Hsrc2 as Hsrc. rewrite Fidx in Hsrc by (apply Hin, Hapart).
    exists api. split; [exact Hsrc|]. intros Hwf Hfresh r c.
    assert (Hfresh2 : Fs.lookup (outputDir b ++ [API_LAMBDA_CODE_DIR; "pages"; "api"])
                                (files s2) = None).
    { rewrite Fidx by sibling_paths. exact Hfresh. }
    pose proof (@copy_files _ _ _ _ _ _ Hsrc2 Hwf Hfresh2 Hpages r c) as Hfiles.
    cbv beta iota in Hfiles. rewrite admitted_all in Hfiles.
    cbn [app]. rewrite Froutes by sibling_paths. rewrite Fman by sibling_paths.
    rewrite <- app_assoc in Hfiles. cbn [app] in Hfiles. rewrite Hfiles. tauto.
Qed.

End BundlePages.

Section BundleTheorems.
Context {C : Collaborators}.
Import MFacts FsFacts TreeFacts.

(** X10. With no trace target and no handler of the user's, a page
    bundle directory that is there and a prerender manifest outside it, a
    successful [buildDefaultLambda] leaves the default handler file of
    the package as the [index.js] of the bundle and the prerender
    manifest, a file, copied as it is. *)
Theorem buildDefaultLambda_copies (b : Builder)
    (d : OriginRequestDefaultHandlerManifest) (w w' : world)
    (es : list (string * node)) :
  useServerlessTraceTarget (buildOptions b) <> Some true ->
  handler (buildOptions b) = None ->
  Fs.lookup (outputDir b ++ [DEFAULT_LAMBDA_CODE_DIR]) (files w) = Some (Dir es) ->
  Fs.apart (outputDir b ++ [DEFAULT_LAMBDA_CODE_DIR])
           (dotNextDir b ++ ["prerender-manifest.json"]) ->
  buildDefaultLambda b d w = Ok (tt, w') ->
  (forall c,
      Fs.lookup (require_resolve "@sls-next/lambda-at-edge/dist/default-handler.js")
                (files w) = Some (File c) ->
      Fs.lookup (outputDir b ++ [DEFAULT_LAMBDA_CODE_DIR; "index.js"]) (files w')
      = Some (File c)) /\
  (exists c,
      Fs.lookup (dotNextDir b ++ ["prerender-manifest.json"]) (files w)
        = Some (File c) /\
      Fs.lookup (outputDir b ++ [DEFAULT_LAMBDA_CODE_DIR; "prerender-manifest.json"])
                (files w') = Some (File c)).
Proof.
  intros Hnotrace Hnohandler _ Hpre H.
  destruct (buildDefaultLambda_bundle _ _ _ Hnotrace Hnohandler H)
    as (pm & _ & Hidx & Hcopy & _).
  split.
  - exact Hidx.
  - apply Hcopy, Hpre.
Qed.

(** X11. With no trace target and no handler of the user's, an API
    bundle directory that is there and a routes manifest outside it, a
    successful [buildApiLambda] leaves the API handler file of the
    package as the [index.js] of the bundle and the routes manifest
    copied as it is: no redirect is taken out of it. *)
Theorem buildApiLambda_copies (b : Builder)
    (a : OriginRequestApiHandlerManifest) (w w' : world)
    (es : list (string * node)) :
  useServerlessTraceTarget (buildOptions b) <> Some true ->
  handler (buildOptions b) = None ->
  Fs.lookup (outputDir b ++ [API_LAMBDA_CODE_DIR]) (files w) = Some (Dir es) ->
  Fs.apart (outputDir b ++ [API_LAMBDA_CODE_DIR])
           (dotNextDir b ++ ["routes-manifest.json"]) ->
  buildApiLambda b a w = Ok (tt, w') ->
  (forall c,
      Fs.lookup (require_resolve "@sls-next/lambda-at-edge/dist/api-handler.js")
                (files w) = Some (File c) ->
      Fs.lookup (outputDir b ++ [API_LAMBDA_CODE_DIR; "index.js"]) (files w')
      = Some (File c)) /\
  (forall c,
      Fs.lookup (dotNextDir b ++ ["routes-manifest.json"]) (files w)
        = Some (File c) ->
      Fs.lookup (outputDir b ++ [API_LAMBDA_CODE_DIR; "routes-manifest.json"])
                (files w') = Some (File c)).
Proof.
  intros Hnotrace Hnohandler _ Hsrc H.
  destruct (buildApiLambda_bundle _ _ _ Hnotrace Hnohandler H)
    as (Hidx & Hroutes & _).
  split.
  - exact Hidx.
  - apply Hroutes, Hsrc.
Qed.

(** X15. With no trace target and no handler of the user's, a page
    bundle directory without a [pages] entry and a well-formed
    [.next/serverless/pages] outside it, the [pages] of the bundle a
    successful [buildDefaultLambda] leaves hold exactly the files of
    [.next/serverless/pages] that the copy filter admits together with
    every directory above them, each as it is in the source. None of them
    is an [.html] or [.json] file or lies on a path with [pages/api]. *)
Theorem buildDefaultLambda_pages (b : Builder)
    (d : OriginRequestDefaultHandlerManifest) (w w' : world) (pages : node) :
  useServerlessTraceTarget (buildOptions b) <> Some true ->
  handler (buildOptions b) = None ->
  Fs.lookup (serverlessDir b ++ ["pages"]) (files w) = Some pages ->
  wellFormed pages = true ->
  Fs.lookup (outputDir b ++ [DEFAULT_LAMBDA_CODE_DIR; "pages"]) (files w) = None ->
  Fs.apart (outputDir b ++ [DEFAULT_LAMBDA_CODE_DIR]) (serverlessDir b ++ ["pages"]) ->
  buildDefaultLambda b d w = Ok (tt, w') ->
  exists prerenderManifest,
    requireObject (dotNextDir b ++ ["prerender-manifest.json"]) w
      = Ok (prerenderManifest, w) /\
    let keep :=
      pagesCopyFilter b
        (match Fs.lookup (serverlessDir b ++ ["pages"; "api"]) (files w) with
         | Some _ => true
         | None => false
         end) prerenderManifest in
    (forall r c,
        Fs.lookup (outputDir b ++ [DEFAULT_LAMBDA_CODE_DIR; "pages"] ++ r) (files w')
          = Some (File c) <->
        Fs.lookup r pages = Some (File c) /\
        admitted keep (serverlessDir b ++ ["pages"]) r = true) /\
    (forall r c,
        Fs.lookup (outputDir b ++ [DEFAULT_LAMBDA_CODE_DIR; "pages"] ++ r) (files w')
          = Some (File c) ->
        let file := Fs.render (serverlessDir b ++ ["pages"] ++ r) in
        path_extname file <> ".html" /\
        path_extname file <> ".json" /\
        Str.includes (pathToPosix file) "pages/api" = false).
Proof.
  intros Hnotrace Hnohandler Hsrc Hwf Hfresh Hapart H.
  destruct (buildDefaultLambda_bundle _ _ _ Hnotrace Hnohandler H)
    as (pm & Hpm & _ & _ & Hpages).
  specialize (Hpages pages Hsrc Hwf Hfresh Hapart).
  exists pm. split; [exact Hpm|]. cbv zeta. split; [exact Hpages|].
  intros r c Hl. apply Hpages in Hl. destruct Hl as [_ Hadm].
  apply admitted_leaf in Hadm. rewrite <- app_assoc in Hadm.
  unfold pagesCopyFilter in Hadm.
  apply andb_prop in Hadm. destruct Hadm as [Hadm _].
  apply andb_prop in Hadm. destruct Hadm as [Hadm Hjson].
  apply andb_prop in Hadm. destruct Hadm as [Hapi Hhtml].
  apply negb_true_iff in Hapi, Hhtml, Hjson.
  apply String.eqb_neq in Hhtml, Hjson. auto.
Qed.

(** X16. With no trace target and no handler of the user's, an API
    bundle directory without [pages/api] and a well-formed
    [.next/serverless/pages/api] outside it, the [pages/api] of the bundle
    a successful [buildApiLambda] leaves hold exactly the files of
    [.next/serverless/pages/api], each as it is in the source. *)
Theorem buildApiLambda_pages (b : Builder)
    (a : OriginRequestApiHandlerManifest) (w w' : world) (api : node) :
  useServerlessTraceTarget (buildOptions b) <> Some true ->
  handler (buildOptions b) = None ->
  Fs.lookup (serverlessDir b ++ ["pages"; "api"]) (files w) = Some api ->
  wellFormed api = true ->
  Fs.lookup (outputDir b ++ [API_LAMBDA_CODE_DIR; "pages"; "api"]) (files w) = None ->
  Fs.apart (outputDir b ++ [API_LAMBDA_CODE_DIR])
           (serverlessDir b ++ ["pages"; "api"]) ->
  buildApiLambda b a w = Ok (tt, w') ->
  forall r c,
    Fs.lookup (outputDir b ++ [API_LAMBDA_CODE_DIR; "pages"; "api"] ++ r) (files w')
      = Some (File c) <->
    Fs.lookup r api = Some (File c).
Proof.
  intros Hnotrace Hnohandler Hsrc Hwf Hfresh Hapart H.
  destruct (buildApiLambda_bundle _ _ _ Hnotrace Hnohandler H)
    as (_ & _ & Hpages).
  destruct (Hpages Hapart) as (api' & Hsrc' & Hfiles).
  rewrite Hsrc in Hsrc'. injection Hsrc' as <-.
  exact (Hfiles Hwf Hfresh).
Qed.



(** C9, as amended. For a build without trace target and handler of the
    user's whose command leaves the two bundle directories empty as
    [build] made them, with the handlers of the package files and a
    well-formed [.next/serverless/pages], all outside the bundle
    directories: a successful [build] leaves in the page bundle the
    default handler as [index.js], the default manifest as
    [manifest.json] and under [pages] exactly the files of
    [.next/serverless/pages] that the copy filter admits with every
    directory above them; when the API manifest has a route it leaves in
    the API bundle the API handler as [index.js], the API manifest as
    [manifest.json] and under [pages/api] exactly the files of
    [.next/serverless/pages/api]; when it has none the API bundle
    directory stays empty. *)
Theorem build_emits_bundles (b : Builder) (debugMode : bool)
    (w compiled w' : world) (pages : node) (defaultHandler apiHandler : content) :
  useServerlessTraceTarget (buildOptions b) <> Some true ->
  handler (buildOptions b) = None ->
  compileStage b w = Ok (tt, compiled) ->
  Fs.lookup (outputDir b ++ [DEFAULT_LAMBDA_CODE_DIR]) (files compiled)
    = Some (Dir []) ->
  Fs.lookup (outputDir b ++ [API_LAMBDA_CODE_DIR]) (files compiled)
    = Some (Dir []) ->
  Fs.lookup (require_resolve "@sls-next/lambda-at-edge/dist/default-handler.js")
            (files compiled) = Some (File defaultHandler) ->
  Fs.lookup (require_resolve "@sls-next/lambda-at-edge/dist/api-handler.js")
            (files compiled) = Some (File apiHandler) ->
  Fs.apart (outputDir b ++ [DEFAULT_LAMBDA_CODE_DIR])
           (require_resolve "@sls-next/lambda-at-edge/dist/api-handler.js") ->
  Fs.lookup (serverlessDir b ++ ["pages"]) (files compiled) = Some pages ->
  wellFormed pages = true ->
  Fs.apart (outputDir b ++ [DEFAULT_LAMBDA_CODE_DIR]) (serverlessDir b ++ ["pages"]) ->
  Fs.apart (outputDir b ++ [API_LAMBDA_CODE_DIR]) (serverlessDir b ++ ["pages"]) ->
  build b debugMode w = Ok (tt, w') ->
  exists ms prepared prerenderManifest,
    prepareBuildManifests b compiled = Ok (ms, prepared) /\
    requireObject (dotNextDir b ++ ["prerender-manifest.json"]) prepared
      = Ok (prerenderManifest, prepared) /\
    Fs.lookup (outputDir b ++ [DEFAULT_LAMBDA_CODE_DIR; "index.js"]) (files w')
      = Some (File defaultHandler) /\
    Fs.lookup (outputDir b ++ [DEFAULT_LAMBDA_CODE_DIR; "manifest.json"]) (files w')
      = Some (File (CJson (Json.ofDefaultManifest (fst ms)))) /\
    (forall r c,
        Fs.lookup (outputDir b ++ [DEFAULT_LAMBDA_CODE_DIR; "pages"] ++ r) (files w')
          = Some (File c) <->
        Fs.lookup r pages = Some (File c) /\
        admitted (pagesCopyFilter b (apiRoutesExist b compiled) prerenderManifest)
                 (serverlessDir b ++ ["pages"]) r = true) /\
    if hasAPIPages (snd ms) then
      Fs.lookup (outputDir b ++ [API_LAMBDA_CODE_DIR; "index.js"]) (files w')
        = Some (File apiHandler) /\
      Fs.lookup (outputDir b ++ [API_LAMBDA_CODE_DIR; "manifest.json"]) (files w')
        = Some (File (CJson (Json.ofApiManifest (snd ms)))) /\
      (forall r c,
          Fs.lookup (outputDir b ++ [API_LAMBDA_CODE_DIR; "pages"; "api"] ++ r)
                    (files w') = Some (File c) <->
          Fs.lookup ("api" :: r) pages = Some (File c))
    else
      Fs.lookup (outputDir b ++ [API_LAMBDA_CODE_DIR]) (files w') = Some (Dir []).
Proof.
  intros Hnotrace Hnohandler Hc HD HA Hdh Hah Hahapart Hsrc Hwf HapartD HapartA H.
  unfold build, bind in H. rewrite Hc in H. unfold packageStage in H.
  apply bind_Ok in H. destruct H as (ms & prepared & Hprep & H).
  apply bind_Ok in H. destruct H as ([] & w1 & Hdef & H).
  pose proof (@prepareBuildManifests_files _ _ _ _ _ Hprep) as Hfiles.
  rewrite <- Hfiles in HD, HA, Hdh, Hah, Hsrc.
  destruct (buildDefaultLambda_emits _ _ _ Hdef) as (Dman & _ & _ & Dframe).
  destruct (buildDefaultLambda_bundle _ _ _ Hnotrace Hnohandler Hdef)
    as (pm & Hpm & Didx & _ & Dpages).
  assert (Hfresh : Fs.lookup (outputDir b ++ [DEFAULT_LAMBDA_CODE_DIR; "pages"])
                     (files prepared) = None).
  { change (outputDir b ++ [DEFAULT_LAMBDA_CODE_DIR; "pages"])
      with (outputDir b ++ [DEFAULT_LAMBDA_CODE_DIR] ++ ["pages"]).
    rewrite app_assoc. now apply lookup_empty_below. }
  specialize (Dpages pages Hsrc Hwf Hfresh HapartD).
  specialize (Didx _ Hdh).
  assert (Hapi : apiRoutesExist b compiled
                 = match Fs.lookup (serverlessDir b ++ ["pages"; "api"])
                                   (files prepared) with
                   | Some _ => true
                   | None => false
                   end).
  { unfold apiRoutesExist. now rewrite Hfiles. }
  rewrite <- Hapi in Dpages.
  assert (HDA : Fs.apart (outputDir b ++ [DEFAULT_LAMBDA_CODE_DIR])
                         (outputDir b ++ [API_LAMBDA_CODE_DIR])).
  { change [DEFAULT_LAMBDA_CODE_DIR] with (DEFAULT_LAMBDA_CODE_DIR :: []).
    change [API_LAMBDA_CODE_DIR] with (API_LAMBDA_CODE_DIR :: []).
    apply apart_fork, name_neq. reflexivity. }
  exists ms, prepared, pm. split; [exact Hprep|]. split; [exact Hpm|].
  destruct (hasAPIPages (snd ms)).
  - destruct (buildApiLambda_emits _ _ _ H) as (Aman & _ & _ & Aframe).
    destruct (buildApiLambda_bundle _ _ _ Hnotrace Hnohandler H)
      as (Aidx & _ & Apages).
    split; [rewrite Aframe by apply apart_bundles; exact Didx|].
    split; [rewrite Aframe by apply apart_bundles; exact Dman|].
    split.
    { intros r c. rewrite <- Dpages. cbn [app].
      rewrite Aframe by apply apart_bundles. reflexivity. }
    split.
    { apply Aidx. rewrite Dframe by exact Hahapart. exact Hah. }
    split; [exact Aman|].
    assert (HapartA' : Fs.apart (outputDir b ++ [API_LAMBDA_CODE_DIR])
                                (serverlessDir b ++ ["pages"; "api"])).
    { change (serverlessDir b ++ ["pages"; "api"])
        with (serverlessDir b ++ ["pages"] ++ ["api"]).
      rewrite app_assoc. apply apart_extend, HapartA. }
    assert (HapartD' : Fs.apart (outputDir b ++ [DEFAULT_LAMBDA_CODE_DIR])
                                (serverlessDir b ++ ["pages"; "api"])).
    { change (serverlessDir b ++ ["pages"; "api"])
        with (serverlessDir b ++ ["pages"] ++ ["api"]).
      rewrite app_assoc. apply apart_extend, HapartD. }
    destruct (Apages HapartA') as (api & Hapisrc & Afiles).
    rewrite Dframe in Hapisrc by exact HapartD'.
    change (serverlessDir b ++ ["pages"; "api"])
      with (serverlessDir b ++ ["pages"] ++ ["api"]) in Hapisrc.
    rewrite app_assoc, lookup_app, Hsrc in Hapisrc.
    intros r c.
    change ("api" :: r) with (["api"] ++ r).
    rewrite (lookup_app ["api"] r pages), Hapisrc.
    apply Afiles.
    + eapply wellFormed_lookup; eauto.
    + rewrite Dframe.
      * change (outputDir b ++ [API_LAMBDA_CODE_DIR; "pages"; "api"])
          with (outputDir b ++ [API_LAMBDA_CODE_DIR] ++ ["pages"; "api"]).
        rewrite app_assoc. now apply lookup_empty_below.
      * change (outputDir b ++ [API_LAMBDA_CODE_DIR; "pages"; "api"])
          with (outputDir b ++ [API_LAMBDA_CODE_DIR] ++ ["pages"; "api"]).
        rewrite app_assoc. apply apart_extend, HDA.
  - injection H as <-.
    split; [exact Didx|]. split; [exact Dman|]. split; [exact Dpages|].
    rewrite Dframe by exact HDA. exact HA.
Qed.

End BundleTheorems.

(** ** The properties on the fixtures *)

Section FixtureChecks.
Import MFacts.

(** C3. A page whose file name only begins with [api]. The application
    has the page [/apiary], compiled to [pages/apiary.js], and no API
    route. The page file is not in the directory [pages/api], yet
    [prepareBuildManifests] binds it in the API group and not among the
    server-rendered pages: the test it makes is for the beginning
    [pages/api], without the slash. [build] then takes the API manifest
    to have routes and fails in [buildApiLambda], which finds no
    [pages/api] to copy. *)
Theorem apiary_page_is_bucketed_as_api :
  underApiDirectory "pages/apiary.js" = false /\
  isHtmlPage "pages/apiary.js" = false /\
  (exists ms w',
      prepareBuildManifests (C := apiaryFixture) Fixture.app
        (compiledRun apiaryOutput) = Ok (ms, w') /\
      Obj.get "/apiary" (nonDynamic (apis (snd ms))) = Some "pages/apiary.js" /\
      Obj.get "/apiary" (nonDynamic (ssr (fst ms))) = None /\
      hasAPIPages (snd ms) = true) /\
  build (C := apiaryFixture) Fixture.app false Fixture.before
  = Err (SystemError "ENOENT" (serverlessDir Fixture.app ++ ["pages"; "api"])).
Proof.
  split; [reflexivity|]. split; [reflexivity|]. split.
  - destruct (prepareBuildManifests (C := apiaryFixture) Fixture.app
                (compiledRun apiaryOutput)) as [[ms w']|e] eqn:E;
      [|vm_compute in E; discriminate E].
    exists ms, w'. split; [reflexivity|].
    vm_compute in E. injection E as <- <-.
    split; [|split]; vm_compute; reflexivity.
  - vm_compute. reflexivity.
Qed.

(** The same page in the page bundle: the copy filter looks for the
    text [pages/api] in the path and leaves [pages/apiary.js] out, so the
    page is in neither bundle. *)
Example apiary_page_is_left_out_of_page_bundle :
  exists w',
    buildDefaultLambda (C := apiaryFixture) Fixture.app
      (fst (initialManifests "test-build-id" false))
      (compiledRun apiaryOutput) = Ok (tt, w') /\
    Fs.lookup (outputDir Fixture.app ++ [DEFAULT_LAMBDA_CODE_DIR; "pages"])
              (files w') = Some (Dir []).
Proof.
  destruct (buildDefaultLambda (C := apiaryFixture) Fixture.app
              (fst (initialManifests "test-build-id" false))
              (compiledRun apiaryOutput)) as [[[] w']|e] eqn:E;
    [|vm_compute in E; discriminate E].
  exists w'. split; [reflexivity|].
  vm_compute in E. injection E as <-. vm_compute. reflexivity.
Qed.

Lemma readPagesManifest_routes_witness :
  exists sorted w',
    readPagesManifest (C := pagesFixture) Fixture.app
      (compiledFixture Fixture.pagesOnly) = Ok (sorted, w') /\
    Obj.get "/about" sorted = Some (JStr "pages/about.html") /\
    Obj.get "/blog/[id]" sorted = Some (JStr "pages/blog/[id].js").
Proof.
  destruct (readPagesManifest (C := pagesFixture) Fixture.app
              (compiledFixture Fixture.pagesOnly)) as [[sorted w']|e] eqn:E;
    [|vm_compute in E; discriminate E].
  exists sorted, w'. split; [reflexivity|].
  assert (Hfile : Fs.lookup (serverlessDir Fixture.app ++ ["pages-manifest.json"])
                    (files (compiledFixture Fixture.pagesOnly))
                  = Some (File (CJson (JObj fixturePages))))
    by (vm_compute; reflexivity).
  destruct (@readPagesManifest_routes pagesFixture Fixture.app
              (compiledFixture Fixture.pagesOnly) w' fixturePages sorted Hfile)
    as (Hmem & Hval & _).
  - vm_compute. intros [H|[H|[H|[H|[]]]]]; discriminate H.
  - vm_compute. intros r [<-|[<-|[]]]; tauto.
  - exact E.
  - split.
    + rewrite Hval; [vm_compute; reflexivity|].
      apply Hmem. left. vm_compute. tauto.
    + rewrite Hval; [vm_compute; reflexivity|].
      apply Hmem. right. vm_compute. tauto.
Defined.

Lemma prepareBuildManifests_hasAPIPages_witness :
  exists ms w',
    prepareBuildManifests (C := apiFixture) Fixture.app
      (compiledFixture Fixture.withApi) = Ok (ms, w') /\
    hasAPIPages (snd ms) = true.
Proof.
  destruct (prepareBuildManifests (C := apiFixture) Fixture.app
              (compiledFixture Fixture.withApi)) as [[ms w']|e] eqn:E;
    [|vm_compute in E; discriminate E].
  exists ms, w'. split; [reflexivity|].
  destruct (@prepareBuildManifests_hasAPIPages apiFixture _ _ _ _ E)
    as (pm & Hpm & Hiff).
  apply Hiff. exists "/api/hello", "pages/api/hello.js".
  vm_compute in Hpm. injection Hpm as <-.
  vm_compute. tauto.
Defined.

Lemma prepareBuildManifests_buildId_witness :
  exists ms w',
    prepareBuildManifests (C := pagesFixture) Fixture.app
      (compiledFixture Fixture.pagesOnly) = Ok (ms, w') /\
    buildId (fst ms) = "test-build-id" /\
    logLambdaExecutionTimes (fst ms) = false.
Proof.
  destruct (prepareBuildManifests (C := pagesFixture) Fixture.app
              (compiledFixture Fixture.pagesOnly)) as [[ms w']|e] eqn:E;
    [|vm_compute in E; discriminate E].
  exists ms, w'. split; [reflexivity|].
  destruct (@prepareBuildManifests_buildId pagesFixture _ _ _ _ E) as [Hid Hlog].
  split; [|exact Hlog].
  vm_compute in Hid. injection Hid as Hid. symmetry. exact Hid.
Defined.

Lemma prepareBuildManifests_publicFiles_witness :
  exists ms w',
    prepareBuildManifests (C := pagesFixture) Fixture.app
      (compiledFixture Fixture.pagesOnly) = Ok (ms, w') /\
    Obj.get "/favicon.ico" (publicFiles (fst ms)) = Some "favicon.ico".
Proof.
  destruct (prepareBuildManifests (C := pagesFixture) Fixture.app
              (compiledFixture Fixture.pagesOnly)) as [[ms w']|e] eqn:E;
    [|vm_compute in E; discriminate E].
  exists ms, w'. split; [reflexivity|].
  destruct (@prepareBuildManifests_publicFiles pagesFixture _ _ _ _ E)
    as (listed & Hpf & Hiff).
  apply Hiff. vm_compute in Hpf. injection Hpf as <-.
  split; [now left | reflexivity].
Defined.

Lemma readPublicFiles_relative_witness :
  readPublicFiles (C := pagesFixture) Fixture.app Fixture.before
  = Ok (["favicon.ico"], Fixture.before).
Proof.
  apply (@readPublicFiles_relative pagesFixture Fixture.app Fixture.before
           [["favicon.ico"]]).
  - vm_compute. discriminate.
  - repeat constructor.
  - vm_compute. reflexivity.
Defined.

Lemma build_run_witness :
  exists w' emptied,
    build (C := apiFixture) Fixture.app false Fixture.before = Ok (tt, w') /\
    Fs.lookup (outputDir Fixture.app ++ [DEFAULT_LAMBDA_CODE_DIR]) (files emptied)
      = Some (Dir []) /\
    Fs.lookup (outputDir Fixture.app ++ [API_LAMBDA_CODE_DIR]) (files emptied)
      = Some (Dir []).
Proof.
  destruct (build (C := apiFixture) Fixture.app false Fixture.before)
    as [[[] w']|e] eqn:E; [|vm_compute in E; discriminate E].
  destruct (@build_run apiFixture _ _ _ _ E)
    as (cleaned & emptied & restore & configured & built & restored &
        _ & Hd & Ha & _).
  exists w', emptied. split; [reflexivity|]. split; [exact Hd | exact Ha].
Defined.

Lemma build_command_failure_witness :
  build (C := failingCommand) Fixture.app false Fixture.before
  = Err (ChildProcessError "Command failed: next build").
Proof.
  destruct (bind (cleanupDotNext Fixture.app)
              (fun _ =>
                 bind (fse.emptyDir (outputDir Fixture.app ++ [DEFAULT_LAMBDA_CODE_DIR]))
                   (fun _ =>
                      bind (fse.emptyDir (outputDir Fixture.app ++ [API_LAMBDA_CODE_DIR]))
                        (fun _ =>
                           createServerlessConfig (Collaborators := failingCommand)
                             (assigned (C := failingCommand) cwd Fixture.app [])
                             (nextConfigDir Fixture.app)
                             (assigned (C := failingCommand)
                                useServerlessTraceTarget Fixture.app false))))
              Fixture.before) as [[restore configured]|e] eqn:E;
    [|vm_compute in E; discriminate E].
  rewrite (@build_command_failure failingCommand Fixture.app false Fixture.before
             restore configured configured
             (ChildProcessError "Command failed: next build") E eq_refl).
  vm_compute in E. injection E as <- <-. reflexivity.
Defined.

Lemma packageStage_frame_witness :
  exists w',
    packageStage (C := apiFixture) Fixture.app (compiledRun Fixture.withApi)
      = Ok (tt, w') /\
    Fs.lookup (dotNextDir Fixture.app ++ ["BUILD_ID"]) (files w')
      = Some (File (CText "test-build-id")).
Proof.
  destruct (packageStage (C := apiFixture) Fixture.app
              (compiledRun Fixture.withApi)) as [[[] w']|e] eqn:E;
    [|vm_compute in E; discriminate E].
  exists w'. split; [reflexivity|].
  assert (Hplain : plainOptions Fixture.app)
    by (split; [vm_compute; discriminate | vm_compute; exact I]).
  rewrite (@packageStage_frame apiFixture Fixture.app
             (compiledRun Fixture.withApi) w' Hplain E
             (dotNextDir Fixture.app ++ ["BUILD_ID"])).
  - vm_compute. reflexivity.
  - vm_compute. split; reflexivity.
  - vm_compute. split; reflexivity.
Defined.

Lemma buildDefaultLambda_copies_witness :
  exists w',
    buildDefaultLambda (C := pagesFixture) Fixture.app
      (fst (initialManifests "test-build-id" false))
      (compiledRun Fixture.pagesOnly) = Ok (tt, w') /\
    Fs.lookup (outputDir Fixture.app ++ [DEFAULT_LAMBDA_CODE_DIR; "index.js"])
              (files w') = Some (File (CText "default handler")) /\
    Fs.lookup (outputDir Fixture.app ++
               [DEFAULT_LAMBDA_CODE_DIR; "prerender-manifest.json"]) (files w')
      = Some (File (CJson Fixture.prerenderManifest)).
Proof.
  destruct (buildDefaultLambda (C := pagesFixture) Fixture.app
              (fst (initialManifests "test-build-id" false))
              (compiledRun Fixture.pagesOnly)) as [[[] w']|e] eqn:E;
    [|vm_compute in E; discriminate E].
  exists w'. split; [reflexivity|].
  assert (Hnotrace : useServerlessTraceTarget (buildOptions Fixture.app) <> Some true)
    by (vm_compute; discriminate).
  assert (Hdir : Fs.lookup (outputDir Fixture.app ++ [DEFAULT_LAMBDA_CODE_DIR])
                   (files (compiledRun Fixture.pagesOnly)) = Some (Dir []))
    by (vm_compute; reflexivity).
  assert (Hpre :
            Fs.apart (outputDir Fixture.app ++ [DEFAULT_LAMBDA_CODE_DIR])
              (dotNextDir Fixture.app ++ ["prerender-manifest.json"]))
    by (vm_compute; split; reflexivity).
  destruct (@buildDefaultLambda_copies pagesFixture Fixture.app
              (fst (initialManifests "test-build-id" false))
              (compiledRun Fixture.pagesOnly) w' [] Hnotrace eq_refl Hdir Hpre E)
    as [Hidx (c & Hsrc & Hdst)].
  split.
  - apply Hidx. vm_compute. reflexivity.
  - rewrite Hdst. rewrite <- Hsrc. vm_compute. reflexivity.
Defined.

Lemma buildApiLambda_copies_witness :
  exists w',
    buildApiLambda (C := apiFixture) Fixture.app
      (snd (initialManifests "test-build-id" false))
      (compiledRun Fixture.withApi) = Ok (tt, w') /\
    Fs.lookup (outputDir Fixture.app ++ [API_LAMBDA_CODE_DIR; "index.js"])
              (files w') = Some (File (CText "api handler")) /\
    Fs.lookup (outputDir Fixture.app ++ [API_LAMBDA_CODE_DIR; "routes-manifest.json"])
              (files w') = Some (File (CJson Fixture.routesManifest)).
Proof.
  destruct (buildApiLambda (C := apiFixture) Fixture.app
              (snd (initialManifests "test-build-id" false))
              (compiledRun Fixture.withApi)) as [[[] w']|e] eqn:E;
    [|vm_compute in E; discriminate E].
  exists w'. split; [reflexivity|].
  assert (Hnotrace : useServerlessTraceTarget (buildOptions Fixture.app) <> Some true)
    by (vm_compute; discriminate).
  assert (Hdir : Fs.lookup (outputDir Fixture.app ++ [API_LAMBDA_CODE_DIR])
                   (files (compiledRun Fixture.withApi)) = Some (Dir []))
    by (vm_compute; reflexivity).
  assert (Hsrc :
            Fs.apart (outputDir Fixture.app ++ [API_LAMBDA_CODE_DIR])
              (dotNextDir Fixture.app ++ ["routes-manifest.json"]))
    by (vm_compute; split; reflexivity).
  destruct (@buildApiLambda_copies apiFixture Fixture.app
              (snd (initialManifests "test-build-id" false))
              (compiledRun Fixture.withApi) w' [] Hnotrace eq_refl Hdir Hsrc E)
    as [Hidx Hroutes].
  split.
  - apply Hidx. vm_compute. reflexivity.
  - apply Hroutes. vm_compute. reflexivity.
Defined.

Lemma cleanupDotNext_idempotent_witness :
  exists w',
    cleanupDotNext Fixture.app Fixture.before = Ok (tt, w') /\
    cleanupDotNext Fixture.app w' = Ok (tt, w').
Proof.
  destruct (cleanupDotNext Fixture.app Fixture.before) as [[[] w']|e] eqn:E;
    [|vm_compute in E; discriminate E].
  exists w'. split; [reflexivity|].
  exact (@cleanupDotNext_idempotent Fixture.app Fixture.before w' E).
Defined.

Lemma processAndCopyRoutesManifest_idempotent_witness :
  exists w' w'',
    processAndCopyRoutesManifest (C := pagesFixture)
      (dotNextDir Fixture.app ++ ["routes-manifest.json"]) ["app"; "routes.json"]
      (compiledFixture Fixture.pagesOnly) = Ok (tt, w') /\
    processAndCopyRoutesManifest (C := pagesFixture)
      ["app"; "routes.json"] ["app"; "again.json"] w' = Ok (tt, w'') /\
    Fs.lookup ["app"; "again.json"] (files w'')
      = Fs.lookup ["app"; "routes.json"] (files w').
Proof.
  destruct (processAndCopyRoutesManifest (C := pagesFixture)
              (dotNextDir Fixture.app ++ ["routes-manifest.json"])
              ["app"; "routes.json"] (compiledFixture Fixture.pagesOnly))
    as [[[] w']|e] eqn:E1; [|vm_compute in E1; discriminate E1].
  destruct (processAndCopyRoutesManifest (C := pagesFixture)
              ["app"; "routes.json"] ["app"; "again.json"] w')
    as [[[] w'']|e] eqn:E2.
  - exists w', w''. split; [reflexivity|]. split; [exact E2|].
    exact (@processAndCopyRoutesManifest_idempotent pagesFixture _ _ _ _ _ _ E1 E2).
  - vm_compute in E1. injection E1 as <-. vm_compute in E2. discriminate E2.
Defined.

Lemma buildDefaultLambda_pages_witness :
  exists w',
    buildDefaultLambda (C := pagesFixture) Fixture.app
      (fst (initialManifests "test-build-id" false))
      (compiledRun Fixture.pagesOnly) = Ok (tt, w') /\
    Fs.lookup (outputDir Fixture.app ++
               [DEFAULT_LAMBDA_CODE_DIR; "pages"] ++ ["blog"; "[id].js"]) (files w')
      = Some (File (CText "blog page")) /\
    Fs.lookup (outputDir Fixture.app ++
               [DEFAULT_LAMBDA_CODE_DIR; "pages"] ++ ["about.html"]) (files w')
      <> Some (File (CText "about page")) /\
    Fs.lookup (outputDir Fixture.app ++
               [DEFAULT_LAMBDA_CODE_DIR; "pages"] ++ ["index.js"]) (files w')
      <> Some (File (CText "index page")).
Proof.
  destruct (buildDefaultLambda (C := pagesFixture) Fixture.app
              (fst (initialManifests "test-build-id" false))
              (compiledRun Fixture.pagesOnly)) as [[[] w']|e] eqn:E;
    [|vm_compute in E; discriminate E].
  exists w'. split; [reflexivity|].
  destruct (Fs.lookup (serverlessDir Fixture.app ++ ["pages"])
              (files (compiledRun Fixture.pagesOnly))) as [pages|] eqn:Hp;
    [|vm_compute in Hp; discriminate Hp].
  assert (Hnotrace : useServerlessTraceTarget (buildOptions Fixture.app) <> Some true)
    by (vm_compute; discriminate).
  assert (Hwf : wellFormed pages = true).
  { vm_compute in Hp. injection Hp as <-. vm_compute. reflexivity. }
  assert (Hfresh : Fs.lookup (outputDir Fixture.app ++ [DEFAULT_LAMBDA_CODE_DIR; "pages"])
                     (files (compiledRun Fixture.pagesOnly)) = None)
    by (vm_compute; reflexivity).
  assert (Hapart : Fs.apart (outputDir Fixture.app ++ [DEFAULT_LAMBDA_CODE_DIR])
                     (serverlessDir Fixture.app ++ ["pages"]))
    by (vm_compute; split; reflexivity).
  destruct (@buildDefaultLambda_pages pagesFixture Fixture.app
              (fst (initialManifests "test-build-id" false))
              (compiledRun Fixture.pagesOnly) w' pages
              Hnotrace eq_refl Hp Hwf Hfresh Hapart E)
    as (pm & Hpm & Hiff & _).
  vm_compute in Hpm. injection Hpm as <-.
  vm_compute in Hp. injection Hp as <-.
  split; [|split].
  - apply Hiff. vm_compute. split; reflexivity.
  - intros H. apply Hiff in H. destruct H as [_ H]. vm_compute in H.
    discriminate H.
  - intros H. apply Hiff in H. destruct H as [_ H]. vm_compute in H.
    discriminate H.
Defined.

Lemma buildApiLambda_pages_witness :
  exists w',
    buildApiLambda (C := apiFixture) Fixture.app
      (snd (initialManifests "test-build-id" false))
      (compiledRun Fixture.withApi) = Ok (tt, w') /\
    Fs.lookup (outputDir Fixture.app ++
               [API_LAMBDA_CODE_DIR; "pages"; "api"] ++ ["hello.js"]) (files w')
      = Some (File (CText "hello api")).
Proof.
  destruct (buildApiLambda (C := apiFixture) Fixture.app
              (snd (initialManifests "test-build-id" false))
              (compiledRun Fixture.withApi)) as [[[] w']|e] eqn:E;
    [|vm_compute in E; discriminate E].
  exists w'. split; [reflexivity|].
  destruct (Fs.lookup (serverlessDir Fixture.app ++ ["pages"; "api"])
              (files (compiledRun Fixture.withApi))) as [api|] eqn:Hp;
    [|vm_compute in Hp; discriminate Hp].
  assert (Hnotrace : useServerlessTraceTarget (buildOptions Fixture.app) <> Some true)
    by (vm_compute; discriminate).
  assert (Hwf : wellFormed api = true).
  { vm_compute in Hp. injection Hp as <-. vm_compute. reflexivity. }
  assert (Hfresh : Fs.lookup (outputDir Fixture.app ++
                              [API_LAMBDA_CODE_DIR; "pages"; "api"])
                     (files (compiledRun Fixture.withApi)) = None)
    by (vm_compute; reflexivity).
  assert (Hapart : Fs.apart (outputDir Fixture.app ++ [API_LAMBDA_CODE_DIR])
                     (serverlessDir Fixture.app ++ ["pages"; "api"]))
    by (vm_compute; split; reflexivity).
  apply (@buildApiLambda_pages apiFixture Fixture.app
           (snd (initialManifests "test-build-id" false))
           (compiledRun Fixture.withApi) w' api
           Hnotrace eq_refl Hp Hwf Hfresh Hapart E).
  vm_compute in Hp. injection Hp as <-. vm_compute. reflexivity.
Defined.



Lemma build_emits_bundles_witness :
  exists w',
    build (C := apiFixture) Fixture.app false Fixture.before = Ok (tt, w') /\
    Fs.lookup (outputDir Fixture.app ++ [DEFAULT_LAMBDA_CODE_DIR; "index.js"])
              (files w') = Some (File (CText "default handler")) /\
    Fs.lookup (outputDir Fixture.app ++ [API_LAMBDA_CODE_DIR; "index.js"])
              (files w') = Some (File (CText "api handler")) /\
    Fs.lookup (outputDir Fixture.app ++
               [API_LAMBDA_CODE_DIR; "pages"; "api"] ++ ["hello.js"]) (files w')
      = Some (File (CText "hello api")).
Proof.
  destruct (build (C := apiFixture) Fixture.app false Fixture.before)
    as [[[] w']|e] eqn:E; [|vm_compute in E; discriminate E].
  exists w'. split; [reflexivity|].
  destruct (Fs.lookup (serverlessDir Fixture.app ++ ["pages"])
              (files (compiledRun Fixture.withApi))) as [pages|] eqn:Hp;
    [|vm_compute in Hp; discriminate Hp].
  assert (Hnotrace : useServerlessTraceTarget (buildOptions Fixture.app) <> Some true)
    by (vm_compute; discriminate).
  assert (Hc : compileStage (C := apiFixture) Fixture.app Fixture.before
               = Ok (tt, compiledRun Fixture.withApi))
    by (vm_compute; reflexivity).
  assert (Hwf : wellFormed pages = true).
  { vm_compute in Hp. injection Hp as <-. vm_compute. reflexivity. }
  destruct (@build_emits_bundles apiFixture Fixture.app false Fixture.before
              (compiledRun Fixture.withApi) w' pages
              (CText "default handler") (CText "api handler")
              Hnotrace eq_refl Hc)
    as (ms & prepared & pm & Hprep & _ & Didx & _ & _ & HA);
    [ vm_compute; reflexivity | vm_compute; reflexivity
    | vm_compute; reflexivity | vm_compute; reflexivity
    | vm_compute; split; reflexivity | exact Hp | exact Hwf
    | vm_compute; split; reflexivity | vm_compute; split; reflexivity
    | exact E | ].
  split; [exact Didx|].
  assert (Hapi : hasAPIPages (snd ms) = true).
  { vm_compute in Hprep. injection Hprep as <- _. vm_compute. reflexivity. }
  rewrite Hapi in HA. destruct HA as (Aidx & _ & Apages).
  split; [exact Aidx|].
  apply Apages. vm_compute in Hp. injection Hp as <-. vm_compute. reflexivity.
Defined.

End FixtureChecks.
